(** * Syllabus analyzer: metadata extraction and library matching

    A shallow embedding of [scripts/syllabus_extractor.py] and
    [backend/primo_integration.py], and of the choice of file names in
    [scripts/florida_pdf_downloader_v2.py].

    Conventions of the model.
    - Python [str] values are modelled by [string]; the model follows the
      interpreter on ASCII text (code points below 128), where [\d], [\s],
      [\w], [str.strip], [str.lower], [str.upper], [str.isupper] and
      [str.splitlines] have the tables written out in [Char].
    - Python objects that flow through dictionaries are modelled by the
      type [value]; a [dict] is an insertion-ordered association list with
      string keys.
    - Code that may raise is written in the error monad [res]; only
      subclasses of [Exception] are modelled.
    - The outside world (PDF reader, LLM endpoint, JSON codec, HTTP
      transport) is an explicit argument of the functions that use it. *)

From Stdlib Require Import Bool Arith ZArith QArith List String Ascii Lia.
From Stdlib Require Import DecimalString DecimalNat FinFun.
Import ListNotations.
Local Close Scope Q_scope.
Local Open Scope nat_scope.
Local Open Scope list_scope.
Local Open Scope string_scope.

(* ------------------------------------------------------------------ *)
(** ** Characters *)

Module Char.

Definition code (c : ascii) : nat := nat_of_ascii c.

Definition between (lo hi : nat) (c : ascii) : bool :=
  (lo <=? code c)%nat && (code c <=? hi)%nat.

Definition has_code (n : nat) (c : ascii) : bool := (code c =? n)%nat.

Definition LF : ascii := ascii_of_nat 10.
Definition CR : ascii := ascii_of_nat 13.

(** [\d] *)
Definition is_digit : ascii -> bool := between 48 57.
(** [[A-Z]], [str.isupper] on one character *)
Definition is_upper : ascii -> bool := between 65 90.
Definition is_lower : ascii -> bool := between 97 122.
Definition is_alpha (c : ascii) : bool := is_upper c || is_lower c.
(** [\w] *)
Definition is_word (c : ascii) : bool := is_alpha c || is_digit c || has_code 95 c.
(** [\s] and [str.isspace]: TAB LF VT FF CR, FS GS RS US, SPACE *)
Definition is_space (c : ascii) : bool :=
  between 9 13 c || between 28 31 c || has_code 32 c.
(** line boundaries of [str.splitlines]: LF VT FF CR, FS GS RS *)
Definition is_linebreak (c : ascii) : bool :=
  between 10 13 c || between 28 30 c.

Definition lower (c : ascii) : ascii :=
  if is_upper c then ascii_of_nat (code c + 32) else c.
Definition upper (c : ascii) : ascii :=
  if is_lower c then ascii_of_nat (code c - 32) else c.

(** equality up to case, as [re.IGNORECASE] compares a literal character *)
Definition eq_nocase (a c : ascii) : bool := Ascii.eqb (lower a) (lower c).

End Char.

(* ------------------------------------------------------------------ *)
(** ** Strings *)

Module Str.

Fixpoint map (f : ascii -> ascii) (s : string) : string :=
  match s with
  | EmptyString => EmptyString
  | String c s' => String (f c) (map f s')
  end.

(** [s.lower()] and [s.upper()] *)
Definition lower : string -> string := map Char.lower.
Definition upper : string -> string := map Char.upper.

Fixpoint existsb (p : ascii -> bool) (s : string) : bool :=
  match s with
  | EmptyString => false
  | String c s' => p c || existsb p s'
  end.

Fixpoint take (n : nat) (s : string) : string :=
  match n, s with
  | S n', String c s' => String c (take n' s')
  | _, _ => EmptyString
  end.

Fixpoint lstrip (s : string) : string :=
  match s with
  | String c s' => if Char.is_space c then lstrip s' else s
  | EmptyString => EmptyString
  end.

Fixpoint rstrip (s : string) : string :=
  match s with
  | EmptyString => EmptyString
  | String c s' =>
      match rstrip s' with
      | EmptyString => if Char.is_space c then EmptyString else String c EmptyString
      | t => String c t
      end
  end.

(** [s.strip()] *)
Definition strip (s : string) : string := rstrip (lstrip s).

(** [s.split(sep)] for a one-character separator: never the empty list *)
Fixpoint split (sep : ascii) (s : string) : list string :=
  match s with
  | EmptyString => [EmptyString]
  | String c s' =>
      if Ascii.eqb c sep then EmptyString :: split sep s'
      else match split sep s' with
           | h :: t => String c h :: t
           | [] => [String c EmptyString]
           end
  end.

Definition starts_with_LF (s : string) : bool :=
  match s with
  | String c _ => Ascii.eqb c Char.LF
  | EmptyString => false
  end.

(** the pieces between line boundaries, the last one possibly empty;
    CR LF is one boundary *)
Fixpoint chunks (s : string) : list string :=
  match s with
  | EmptyString => [EmptyString]
  | String c s' =>
      if Char.is_linebreak c then
        if Ascii.eqb c Char.CR && starts_with_LF s' then chunks s'
        else EmptyString :: chunks s'
      else match chunks s' with
           | h :: t => String c h :: t
           | [] => [String c EmptyString]
           end
  end.

Fixpoint drop_last_empty (l : list string) : list string :=
  match l with
  | [] => []
  | [EmptyString] => []
  | x :: l' => x :: drop_last_empty l'
  end.

(** [s.splitlines()] *)
Definition splitlines (s : string) : list string := drop_last_empty (chunks s).

(** [sep.join(parts)] *)
Fixpoint join (sep : string) (parts : list string) : string :=
  match parts with
  | [] => EmptyString
  | [p] => p
  | p :: ps => p ++ sep ++ join sep ps
  end.


End Str.

(* ------------------------------------------------------------------ *)
(** ** Regular expressions

    The fragment of Python's [re] used by the two modules, with the
    engine's own discipline: alternatives are tried left to right,
    repetitions are greedy and give characters back one at a time, and a
    search starts at the leftmost position that can match. *)

Module Re.

Inductive regex :=
| Eps                                                   (* empty *)
| Chr (p : ascii -> bool)                               (* one character of a class *)
| Cat (a b : regex)                                     (* ab *)
| Alt (a b : regex)                                     (* a|b *)
| Rep (p : ascii -> bool) (lo : nat) (hi : option nat)  (* c{lo,hi}, greedy *)
| Grp (a : regex)                                       (* (a), group 1 *)
| Bnd                                                   (* \b *)
| Bos                                                   (* ^ *)
| Eos.                                                  (* $ *)

Declare Scope re_scope.
Delimit Scope re_scope with re.
Bind Scope re_scope with regex.
Infix ">>" := Cat (at level 60, right associativity) : re_scope.
Infix "<|>" := Alt (at level 65, right associativity) : re_scope.

(** a literal, and a literal under [re.IGNORECASE] *)
Fixpoint lit (s : string) : regex :=
  match s with
  | EmptyString => Eps
  | String c EmptyString => Chr (Ascii.eqb c)
  | String c s' => Cat (Chr (Ascii.eqb c)) (lit s')
  end.

Fixpoint liti (s : string) : regex :=
  match s with
  | EmptyString => Eps
  | String c EmptyString => Chr (Char.eq_nocase c)
  | String c s' => Cat (Chr (Char.eq_nocase c)) (liti s')
  end.

Definition opt (a : regex) : regex := Alt a Eps.           (* a? *)
Definition star (p : ascii -> bool) : regex := Rep p 0 None. (* c* *)
Definition plus (p : ascii -> bool) : regex := Rep p 1 None. (* c+ *)

(** the position of the engine: the character before the cursor, the
    text from the cursor on, and the text of group 1 if it has closed *)
Record mstate := MState {
  prev : option ascii;
  rest : string;
  cap : option string
}.

Definition wordish (o : option ascii) : bool :=
  match o with
  | Some c => Char.is_word c
  | None => false
  end.

Definition peek (s : string) : option ascii :=
  match s with
  | String c _ => Some c
  | EmptyString => None
  end.

Definition at_boundary (st : mstate) : bool :=
  xorb (wordish (prev st)) (wordish (peek (rest st))).

Definition at_start (st : mstate) : bool :=
  match prev st with
  | None => true
  | Some _ => false
  end.

(** [$] without MULTILINE: at the end, or before a final newline *)
Definition at_end (st : mstate) : bool :=
  match rest st with
  | EmptyString => true
  | String c EmptyString => Ascii.eqb c Char.LF
  | _ => false
  end.

Definition room (hi : option nat) : bool :=
  match hi with
  | Some O => false
  | _ => true
  end.

Fixpoint rep (p : ascii -> bool) (lo : nat) (hi : option nat)
    (pv : option ascii) (s : string)
    (k : option ascii -> string -> option mstate) : option mstate :=
  let stop := match lo with O => k pv s | S _ => None end in
  match s with
  | String c s' =>
      if p c && room hi then
        match rep p (pred lo) (option_map pred hi) (Some c) s' k with
        | Some r => Some r
        | None => stop
        end
      else stop
  | EmptyString => stop
  end.

Definition consumed (before after : string) : string :=
  Str.take (String.length before - String.length after) before.

Fixpoint run (r : regex) (st : mstate) (k : mstate -> option mstate)
    : option mstate :=
  match r with
  | Eps => k st
  | Chr p =>
      match rest st with
      | String c s' => if p c then k (MState (Some c) s' (cap st)) else None
      | EmptyString => None
      end
  | Cat a b => run a st (fun st' => run b st' k)
  | Alt a b =>
      match run a st k with
      | Some res => Some res
      | None => run b st k
      end
  | Rep p lo hi =>
      rep p lo hi (prev st) (rest st) (fun pv s => k (MState pv s (cap st)))
  | Grp a =>
      run a st (fun st' =>
        k (MState (prev st') (rest st') (Some (consumed (rest st) (rest st')))))
  | Bnd => if at_boundary st then k st else None
  | Bos => if at_start st then k st else None
  | Eos => if at_end st then k st else None
  end.

(** an attempt at one position *)
Definition match_here (r : regex) (pv : option ascii) (s : string)
    : option mstate :=
  run r (MState pv s None) Some.

(** [pattern.search]: the leftmost position with a match *)
Fixpoint search_from (r : regex) (pv : option ascii) (s : string)
    : option mstate :=
  match match_here r pv s with
  | Some res => Some res
  | None =>
      match s with
      | String c s' => search_from r (Some c) s'
      | EmptyString => None
      end
  end.

Definition search (r : regex) (s : string) : option mstate :=
  search_from r None s.

(** [m.group(1)] of [pattern.search(s)], when there is a match; in every
    pattern that is searched below group 1 takes part in each match *)
Definition search_group (r : regex) (s : string) : option string :=
  match search r s with
  | Some res => cap res
  | None => None
  end.

(** [re.sub(pattern, '', s)]: every match, left to right and without
    overlap, is removed; [skip] counts the characters of the current match
    that are still to be dropped *)
Fixpoint remove_go (r : regex) (skip : nat) (pv : option ascii) (s : string)
    : string :=
  match s with
  | EmptyString => EmptyString
  | String c s' =>
      match skip with
      | S n => remove_go r n (Some c) s'
      | O =>
          match match_here r pv s with
          | Some res =>
              match String.length s - String.length (rest res) with
              | S n => remove_go r n (Some c) s'
              | O => String c (remove_go r 0 (Some c) s')
              end
          | None => String c (remove_go r 0 (Some c) s')
          end
      end
  end.

Definition remove (r : regex) (s : string) : string := remove_go r 0 None s.

End Re.

(* ------------------------------------------------------------------ *)
(** ** Python values, exceptions *)

(** The objects that travel through the dictionaries of both modules:
    what [json.loads] and [response.json()] produce, and what the code
    builds from them. *)
#[warning="-register-all"]
Inductive value :=
| VNone
| VBool (b : bool)
| VInt (z : Z)
| VFloat (q : Q)
| VStr (s : string)
| VList (l : list value)
| VDict (d : list (string * value)).

Module Py.

Definition dict := list (string * value).

(** an exception object: its class and [str(e)] *)
Record exn := Exn { kind : string; msg : string }.

Inductive res (A : Type) :=
| Ok (a : A)
| Raise (e : exn).
Arguments Ok {A} a.
Arguments Raise {A} e.

Definition bind {A B : Type} (m : res A) (f : A -> res B) : res B :=
  match m with
  | Ok a => f a
  | Raise e => Raise e
  end.

Definition res_map {A B : Type} (f : A -> B) (m : res A) : res B :=
  match m with
  | Ok a => Ok (f a)
  | Raise e => Raise e
  end.

(** [try: m except Exception as e: h(e)] *)
Definition try_except {A : Type} (m : res A) (h : exn -> A) : A :=
  match m with
  | Ok a => a
  | Raise e => h e
  end.

Definition type_name (v : value) : string :=
  match v with
  | VNone => "NoneType"
  | VBool _ => "bool"
  | VInt _ => "int"
  | VFloat _ => "float"
  | VStr _ => "str"
  | VList _ => "list"
  | VDict _ => "dict"
  end.

Definition attribute_error {A : Type} (v : value) (attr : string) : res A :=
  Raise (Exn "AttributeError"
    ("'" ++ type_name v ++ "' object has no attribute '" ++ attr ++ "'")).

Definition type_error {A : Type} (m : string) : res A :=
  Raise (Exn "TypeError" m).

(** truth value of an object, as [if v:] tests it *)
Definition truthy (v : value) : bool :=
  match v with
  | VNone => false
  | VBool b => b
  | VInt z => negb (Z.eqb z 0)
  | VFloat q => negb (Qeq_bool q 0)
  | VStr s => negb (String.eqb s "")
  | VList l => match l with [] => false | _ => true end
  | VDict d => match d with [] => false | _ => true end
  end.

Fixpoint lookup (d : dict) (k : string) : option value :=
  match d with
  | [] => None
  | (k', v) :: d' => if String.eqb k' k then Some v else lookup d' k
  end.

(** [d.get(k, default)] on a dictionary *)
Definition get_or (d : dict) (k : string) (default : value) : value :=
  match lookup d k with
  | Some v => v
  | None => default
  end.

(** [d[k] = v]: an existing key keeps its place, a new one goes last *)
Fixpoint store (d : dict) (k : string) (v : value) : dict :=
  match d with
  | [] => [(k, v)]
  | (k', v') :: d' =>
      if String.eqb k' k then (k, v) :: d' else (k', v') :: store d' k v
  end.

(** [d.pop(k, None)] *)
Fixpoint remove (d : dict) (k : string) : dict :=
  match d with
  | [] => []
  | (k', v') :: d' =>
      if String.eqb k' k then d' else (k', v') :: remove d' k
  end.

(** [v.get(k, default)] on any object *)
Definition get (v : value) (k : string) (default : value) : res value :=
  match v with
  | VDict d => Ok (get_or d k default)
  | _ => attribute_error v "get"
  end.

(** [v.lower()] and [v.strip()] on any object *)
Definition lower (v : value) : res string :=
  match v with
  | VStr s => Ok (Str.lower s)
  | _ => attribute_error v "lower"
  end.

Definition strip (v : value) : res string :=
  match v with
  | VStr s => Ok (Str.strip s)
  | _ => attribute_error v "strip"
  end.

(** [v[k] = x] with a string key on any object *)
Definition setitem (v : value) (k : string) (x : value) : res value :=
  match v with
  | VDict d => Ok (VDict (store d k x))
  | VList _ => type_error "list indices must be integers or slices, not str"
  | _ => type_error ("'" ++ type_name v ++ "' object does not support item assignment")
  end.

(** [v.pop(k, None)] on any object, for its effect *)
Definition pop (v : value) (k : string) : res value :=
  match v with
  | VDict d => Ok (VDict (remove d k))
  | VList _ => type_error "pop expected at most 1 argument, got 2"
  | _ => attribute_error v "pop"
  end.

Fixpoint chars (s : string) : list value :=
  match s with
  | EmptyString => []
  | String c s' => VStr (String c EmptyString) :: chars s'
  end.

(** the elements a [for] loop sees *)
Definition iter (v : value) : res (list value) :=
  match v with
  | VList l => Ok l
  | VStr s => Ok (chars s)
  | VDict d => Ok (List.map (fun kv => VStr (fst kv)) d)
  | _ => type_error ("'" ++ type_name v ++ "' object is not iterable")
  end.

(** [len(v)] *)
Definition len (v : value) : res nat :=
  match v with
  | VList l => Ok (List.length l)
  | VStr s => Ok (String.length s)
  | VDict d => Ok (List.length d)
  | _ => type_error ("object of type '" ++ type_name v ++ "' has no len()")
  end.

(** [v == s] for a string literal [s] *)
Definition eq_str (v : value) (s : string) : bool :=
  match v with
  | VStr t => String.eqb t s
  | _ => false
  end.

Definition is_dict (v : value) : bool :=
  match v with VDict _ => true | _ => false end.
Definition is_str (v : value) : bool :=
  match v with VStr _ => true | _ => false end.
Definition is_list (v : value) : bool :=
  match v with VList _ => true | _ => false end.

(** [str(n)] for an integer *)
Definition str_of_Z (z : Z) : string := NilZero.string_of_int (Z.to_int z).

End Py.

Import Py.

Declare Scope py_scope.
Delimit Scope py_scope with py.
Notation "x <- m ;; k" := (Py.bind m (fun x => k))
  (at level 61, m at next level, right associativity) : py_scope.
Local Open Scope py_scope.

Definition NL : string := String Char.LF EmptyString.

(* ------------------------------------------------------------------ *)
(** ** scripts/syllabus_extractor.py *)

Module Extractor.

Import Re.

Definition UNKNOWN : string := "Unknown".

(** [\b(Spring|Summer|Fall|Winter)\b], IGNORECASE *)
Definition SEMESTER_RE : regex :=
  (Bnd >> Grp (liti "Spring" <|> liti "Summer" <|> liti "Fall" <|> liti "Winter")
       >> Bnd)%re.

(** [(20\d{2})] *)
Definition YEAR_RE : regex :=
  Grp (lit "20" >> Rep Char.is_digit 2 (Some 2))%re.

(** [([A-Z]{2,4}[\s-]?\d{3,4})] *)
Definition COURSE_CODE_RE : regex :=
  Grp (Rep Char.is_upper 2 (Some 4)
       >> Rep (fun c => Char.is_space c || Char.has_code 45 c) 0 (Some 1)
       >> Rep Char.is_digit 3 (Some 4))%re.

(** [[A-Za-z0-9._%+-]] *)
Definition email_local (c : ascii) : bool :=
  Char.is_alpha c || Char.is_digit c || Char.has_code 46 c || Char.has_code 95 c
  || Char.has_code 37 c || Char.has_code 43 c || Char.has_code 45 c.

(** [[A-Za-z0-9.-]] *)
Definition email_domain (c : ascii) : bool :=
  Char.is_alpha c || Char.is_digit c || Char.has_code 46 c || Char.has_code 45 c.

(** [[A-Za-z0-9._%+-]+@([A-Za-z0-9.-]+\.edu)] *)
Definition EMAIL_RE : regex :=
  (plus email_local >> lit "@" >> Grp (plus email_domain >> lit ".edu"))%re.

Definition not_newline (c : ascii) : bool := negb (Ascii.eqb c Char.LF).

(** [(?:Instructor|Professor|Dr\.|Teacher):\s*([^\n]+)], IGNORECASE *)
Definition INSTRUCTOR_RE : regex :=
  ((liti "Instructor" <|> liti "Professor" <|> liti "Dr." <|> liti "Teacher")
   >> lit ":" >> star Char.is_space >> Grp (plus not_newline))%re.

(** [m.group(1) if m else "Unknown"] *)
Definition group_or_unknown (m : option string) : string :=
  match m with
  | Some g => g
  | None => UNKNOWN
  end.

(** the loop over [text.splitlines()[:10]] *)
Fixpoint first_title (lines : list string) : string :=
  match lines with
  | [] => UNKNOWN
  | l :: ls =>
      let line := Str.strip l in
      if (10 <? String.length line)%nat && (String.length line <? 100)%nat
         && Str.existsb Char.is_upper line
      then line
      else first_title ls
  end.

Definition dot : ascii := ascii_of_nat 46.

Definition university_of (email_match : option string) : string :=
  match email_match with
  | Some domain =>
      let domain_parts := Str.split dot domain in
      if (2 <=? List.length domain_parts)%nat
      then Str.upper (nth 0 domain_parts EmptyString)
      else UNKNOWN
  | None => UNKNOWN
  end.

Definition heuristic_parse (text : string) : value :=
  let semester_match := search_group SEMESTER_RE text in
  let year_match := search_group YEAR_RE text in
  let code_match := search_group COURSE_CODE_RE text in
  let email_match := search_group EMAIL_RE text in
  let instructor_match := search_group INSTRUCTOR_RE text in
  let semester := group_or_unknown semester_match in
  let year := group_or_unknown year_match in
  let class_number := group_or_unknown code_match in
  let instructor :=
    match instructor_match with
    | Some g => Str.strip g
    | None => UNKNOWN
    end in
  let class_name := first_title (firstn 10 (Str.splitlines text)) in
  let university := university_of email_match in
  VDict [ ("year", VStr year);
          ("semester", VStr semester);
          ("class_name", VStr class_name);
          ("class_number", VStr class_number);
          ("instructor", VStr instructor);
          ("university", VStr university);
          ("main_topic", VStr "Unknown");
          ("reading_materials", VList []) ].

(** [m.group(1) if m else None] *)
Definition group_or_none (m : option string) : value :=
  match m with
  | Some g => VStr g
  | None => VNone
  end.

Definition extract_year_semester_from_filename (filename : string) : value :=
  let semester_match := search_group SEMESTER_RE filename in
  let year_match := search_group YEAR_RE filename in
  VDict [ ("year", group_or_none year_match);
          ("semester", group_or_none semester_match) ].

(** *** The document and the services around it *)

(** One table of a page, as the loop over [page.find_tables()] sees it:
    [Ok (Some md)] when the cleaned frame is not empty and renders as [md],
    [Ok None] when it is empty, [Raise e] when converting it raises. *)
Definition table_outcome := res (option string).

Record page := Page {
  get_text : string;                          (* page.get_text("text") *)
  find_tables : res (list table_outcome)      (* page.find_tables() *)
}.

Record pdf_file := Pdf {
  name : string;                              (* pdf_path.name *)
  fitz_open : res (list page)                 (* fitz.open(pdf_path) *)
}.

(** The module-level client, the chat endpoint and the [json] codec. *)
Record services := Services {
  client_ready : bool;                        (* client and API_KEY *)
  chat : string -> string -> res string;      (* system, user |-> content *)
  json_loads : string -> res value;
  json_dumps : value -> string
}.

Definition extract_text_from_pdf (f : pdf_file) : res string :=
  doc <- fitz_open f ;;
  Ok (Str.join NL (List.map get_text doc)).

(** the body of the per-page [try]: a failure drops the rest of the page *)
Fixpoint tables_until_failure (ts : list table_outcome) : list string :=
  match ts with
  | [] => []
  | Ok (Some md) :: ts' => md :: tables_until_failure ts'
  | Ok None :: ts' => tables_until_failure ts'
  | Raise _ :: _ => []
  end.

Definition page_tables (p : page) : list string :=
  match find_tables p with
  | Ok ts => tables_until_failure ts
  | Raise _ => []
  end.

Definition extract_tables_from_pdf (f : pdf_file) : res (list string) :=
  doc <- fitz_open f ;;
  Ok (List.flat_map page_tables doc).

Definition system_prompt : string :=
  "You are a precise academic metadata extraction assistant. "
  ++ "Extract structured information from university course syllabi. "
  ++ "Return ONLY valid JSON with these exact keys: "
  ++ "year, semester, class_name, class_number, instructor, university, main_topic, reading_materials."
  ++ NL ++ NL
  ++ "Rules:" ++ NL
  ++ "- main_topic: Course focus, objectives, and key learning outcomes" ++ NL
  ++ "- reading_materials: Array of objects with keys: title, media_type, requirement, ISBN, url, journal_names, certainty" ++ NL
  ++ "- media_type options: 'books', 'journal articles', 'book chapters', 'websites', 'videos', 'equipment'" ++ NL
  ++ "- requirement: 'required' or 'suggested'" ++ NL
  ++ "- certainty: 0-100 (confidence in extraction accuracy)" ++ NL
  ++ "- Use 'Unknown' for missing information" ++ NL
  ++ "- No hallucination - only extract what is clearly present".

Definition user_prompt (pdf_text : string) : string :=
  "Extract the requested fields from the following syllabus text." ++ NL ++ NL
  ++ pdf_text.

(** [^```json|```$] *)
Definition FENCE_RE : regex :=
  ((Bos >> lit "```json") <|> (lit "```" >> Eos))%re.

Definition call_llm_for_metadata (w : services) (pdf_text : string) : res value :=
  if negb (client_ready w)
  then Raise (Exn "Exception" "OpenAI client not initialized - API key missing")
  else
    response <- chat w system_prompt (user_prompt pdf_text) ;;
    let content := Str.strip response in
    let content := Str.strip (Re.remove FENCE_RE content) in
    json_loads w content.

(** the text handed to the model: body text, then the tables if any *)
Definition combine (text : string) (table_markdowns : list string) : string :=
  match table_markdowns with
  | [] => text
  | _ => text ++ NL ++ NL ++ "# TABLES (markdown format)" ++ NL
         ++ Str.join (NL ++ NL) table_markdowns
  end.

(** "Add filename and prepare for CSV" *)
Definition finish_row (w : services) (f : pdf_file) (data : value) : res value :=
  data <- Py.setitem data "filename" (VStr (name f)) ;;
  reading_materials <- Py.get data "reading_materials" (VList []) ;;
  data <- Py.setitem data "reading_materials_json"
            (VStr (json_dumps w reading_materials)) ;;
  Py.pop data "reading_materials".

(** the body of the outer [try] of the loop of [process_pdfs_batch] *)
Definition process_body (w : services) (f : pdf_file) : res value :=
  text <- extract_text_from_pdf f ;;
  table_markdowns <- extract_tables_from_pdf f ;;
  let combined_text := combine text table_markdowns in
  let data :=
    try_except (call_llm_for_metadata w combined_text)
               (fun exc => heuristic_parse text) in
  finish_row w f data.

(** one turn of the loop: a row is appended, or the file is reported as
    failed and the loop goes on *)
Definition process_pdf (w : services) (f : pdf_file) : option value :=
  match process_body w f with
  | Ok row => Some row
  | Raise _ => None
  end.

(** the rows that [process_pdfs_batch] collects from the selected files *)
Fixpoint process_pdfs_batch (w : services) (pdf_files : list pdf_file)
    : list value :=
  match pdf_files with
  | [] => []
  | f :: fs =>
      match process_pdf w f with
      | Some row => row :: process_pdfs_batch w fs
      | None => process_pdfs_batch w fs
      end
  end.

End Extractor.

(* ------------------------------------------------------------------ *)
(** ** backend/primo_integration.py *)

Module Primo.

Import Re.

(** *** Equality and membership of objects *)

Definition num_of (v : value) : option Q :=
  match v with
  | VBool b => Some (if b then 1%Q else 0%Q)
  | VInt z => Some (inject_Z z)
  | VFloat q => Some q
  | _ => None
  end.

(** [a == b]: numbers by value, strings and lists by content,
    dictionaries as mappings *)
Fixpoint py_eq (a b : value) {struct a} : bool :=
  match a, b with
  | VNone, VNone => true
  | VStr s, VStr t => String.eqb s t
  | VList l, VList m =>
      (fix all2 (l m : list value) {struct l} : bool :=
         match l, m with
         | [], [] => true
         | x :: l', y :: m' => py_eq x y && all2 l' m'
         | _, _ => false
         end) l m
  | VDict d, VDict e =>
      (List.length d =? List.length e)%nat &&
      (fix within (d : list (string * value)) {struct d} : bool :=
         match d with
         | [] => true
         | (k, v) :: d' =>
             match Py.lookup e k with
             | Some w => py_eq v w && within d'
             | None => false
             end
         end) d
  | _, _ =>
      match num_of a, num_of b with
      | Some x, Some y => Qeq_bool x y
      | _, _ => false
      end
  end.

(** [x in l] *)
Definition py_in (x : value) (l : list value) : bool :=
  List.existsb (py_eq x) l.

(** *** The client and the transport *)

Record client := Client {
  api_base_url : option string;
  api_key : option string;
  vid : option string;
  tab : option string;
  scope : option string;
  session_open : bool              (* self.session is set *)
}.

(** [if self.api_key:] *)
Definition has_key (c : client) : bool :=
  match api_key c with
  | Some k => negb (String.eqb k "")
  | None => false
  end.

Record request := Request {
  url : string;
  params : list (string * option string)
}.

(** What [session.get] does with a request: it raises, or it hands back a
    response with a status, a JSON body and a text body. *)
Inductive http_outcome :=
| Failure (e : exn)
| Response (status : Z) (json : res value) (text : res string).

(** The discovery service: the answer to the [n]-th request. *)
Definition transport := nat -> request -> http_outcome.

(** *** _clean_search_term *)

(** [\b\d+(?:st|nd|rd|th)?\s+ed(?:ition)?\b], IGNORECASE *)
Definition NUMBERED_EDITION_RE : regex :=
  (Bnd >> plus Char.is_digit
       >> opt (liti "st" <|> liti "nd" <|> liti "rd" <|> liti "th")
       >> plus Char.is_space >> liti "ed" >> opt (liti "ition") >> Bnd)%re.

(** [\b(?:edition|ed\.)\b], IGNORECASE *)
Definition EDITION_RE : regex :=
  (Bnd >> (liti "edition" <|> liti "ed.") >> Bnd)%re.

(** [\b(?:by|published by|publisher)\s+.*$], IGNORECASE *)
Definition PUBLISHER_RE : regex :=
  (Bnd >> (liti "by" <|> liti "published by" <|> liti "publisher")
       >> plus Char.is_space >> star Extractor.not_newline >> Eos)%re.

(** [[\s:-]] and [[\d\-X]] under IGNORECASE *)
Definition isbn_gap (c : ascii) : bool :=
  Char.is_space c || Char.has_code 58 c || Char.has_code 45 c.
Definition isbn_tail (c : ascii) : bool :=
  Char.is_digit c || Char.has_code 45 c || Char.has_code 88 c || Char.has_code 120 c.

(** [\b(?:ISBN|ISSN)[\s:-]*\d+[\d\-X]*\b], IGNORECASE *)
Definition ISBN_RE : regex :=
  (Bnd >> (liti "ISBN" <|> liti "ISSN") >> star isbn_gap
       >> plus Char.is_digit >> star isbn_tail >> Bnd)%re.

Definition nonempty (s : string) : bool := negb (String.eqb s "").

(** the pieces between white-space characters, empty ones included *)
Fixpoint fields (s : string) : list string :=
  match s with
  | EmptyString => [EmptyString]
  | String c s' =>
      if Char.is_space c then EmptyString :: fields s'
      else match fields s' with
           | h :: t => String c h :: t
           | [] => [String c EmptyString]
           end
  end.

(** [s.split()]: the runs of characters that are not white space *)
Definition words (s : string) : list string := List.filter nonempty (fields s).

(** [' '.join(s.split())] *)
Definition collapse_whitespace (s : string) : string := Str.join " " (words s).

Definition hex_digit (n : nat) : ascii :=
  if (n <? 10)%nat then ascii_of_nat (48 + n) else ascii_of_nat (55 + n).

(** [urllib.parse.quote_plus] on one character *)
Definition quote_char (c : ascii) : string :=
  if Char.is_alpha c || Char.is_digit c || Char.has_code 95 c
     || Char.has_code 46 c || Char.has_code 45 c || Char.has_code 126 c
  then String c EmptyString
  else if Char.has_code 32 c then "+"
  else String (ascii_of_nat 37)
         (String (hex_digit (Char.code c / 16))
            (String (hex_digit (Char.code c mod 16)) EmptyString)).

(** [urllib.parse.quote_plus], on text that can be encoded: the model's
    strings hold no lone surrogate, on which the function raises
    [UnicodeEncodeError] *)
Fixpoint quote_plus (s : string) : string :=
  match s with
  | EmptyString => EmptyString
  | String c s' => quote_char c ++ quote_plus s'
  end.

Definition _clean_search_term (term : value) : res string :=
  if negb (Py.truthy term) then Ok ""
  else
    term <- Py.strip term ;;
    let term := Re.remove NUMBERED_EDITION_RE term in
    let term := Re.remove EDITION_RE term in
    let term := Re.remove PUBLISHER_RE term in
    let term := Re.remove ISBN_RE term in
    let term := collapse_whitespace term in
    Ok (quote_plus term).

(** *** Reading one result document *)

Definition d_false : value := VBool false.
Definition d_true : value := VBool true.

(** the dictionary that [_check_availability] fills in *)
Record availability := Availability {
  available : bool;
  locations : list value;
  online_access : bool;
  physical_copies : Z;
  delivery_category : value
}.

Definition availability_dict (a : availability) : value :=
  VDict [ ("available", VBool (available a));
          ("locations", VList (locations a));
          ("online_access", VBool (online_access a));
          ("physical_copies", VInt (physical_copies a));
          ("delivery_category", delivery_category a) ].

Definition initial_availability : availability :=
  Availability false [] false 0 (VList []).

(** the loop over [items] of one holding *)
Fixpoint count_items (items : list value) (a : availability) : res availability :=
  match items with
  | [] => Ok a
  | item :: items' =>
      status <- Py.get item "availability" VNone ;;
      if Py.eq_str status "available"
      then count_items items'
             (Availability true (locations a) (online_access a)
                (physical_copies a + 1) (delivery_category a))
      else count_items items' a
  end.

(** the body of the loop over [holdings] *)
Definition visit_holding (holding : value) (a : availability) : res availability :=
  location_info <- Py.get holding "location" (VDict []) ;;
  a <- (if Py.truthy location_info then
          location_name <- Py.get location_info "mainLocation" (VStr "Unknown") ;;
          if negb (py_in location_name (locations a))
          then Ok (Availability (available a) (locations a ++ [location_name])%list
                     (online_access a) (physical_copies a) (delivery_category a))
          else Ok a
        else Ok a) ;;
  items <- Py.get holding "items" (VList []) ;;
  items <- Py.iter items ;;
  count_items items a.

Fixpoint visit_holdings (holdings : list value) (a : availability) : res availability :=
  match holdings with
  | [] => Ok a
  | holding :: holdings' =>
      a <- visit_holding holding a ;;
      visit_holdings holdings' a
  end.

Definition check_availability_body (doc : value) : res availability :=
  delivery <- Py.get doc "delivery" (VDict []) ;;
  let a := initial_availability in
  delcategory <- Py.get delivery "delcategory" (VList []) ;;
  let a := if Py.truthy delcategory
           then Availability true (locations a) (online_access a)
                  (physical_copies a) delcategory
           else a in
  links <- Py.get delivery "link" (VList []) ;;
  let a := if Py.truthy links
           then Availability true (locations a) true
                  (physical_copies a) (delivery_category a)
           else a in
  holdings <- Py.get doc "holdings" (VList []) ;;
  holdings <- Py.iter holdings ;;
  visit_holdings holdings a.

Definition availability_error (e : exn) : value :=
  VDict [ ("available", d_false);
          ("locations", VList []);
          ("online_access", d_false);
          ("physical_copies", VInt 0);
          ("error", VStr ("Could not determine availability: " ++ msg e)) ].

Definition _check_availability (doc : value) : value :=
  try_except (res_map availability_dict (check_availability_body doc))
             availability_error.

(** the loop of [_extract_links] *)
Fixpoint collect_links (link_data : list value) : list value :=
  match link_data with
  | [] => []
  | VDict link :: rest =>
      let link_url := Py.get_or link "linkURL" (VStr "") in
      let link_info :=
        VDict [ ("url", link_url);
                ("display_label", Py.get_or link "displayLabel" (VStr "Access Resource"));
                ("link_type", Py.get_or link "linkType" (VStr "unknown")) ] in
      if Py.truthy link_url then link_info :: collect_links rest
      else collect_links rest
  | _ :: rest => collect_links rest
  end.

Definition _extract_links (delivery : value) : value :=
  try_except
    (link_data <- Py.get delivery "link" (VList []) ;;
     link_data <- Py.iter link_data ;;
     Ok (VList (collect_links link_data)))
    (fun _ => VList []).

(** first element of a non-empty list, the string itself, else "Unknown" *)
Definition first_or_string (field : value) : value :=
  match field with
  | VList (x :: _) => x
  | VStr _ => field
  | _ => VStr "Unknown"
  end.

(** the body of the loop over [docs[:3]] *)
Definition parse_doc (doc : value) : res value :=
  pnx <- Py.get doc "pnx" (VDict []) ;;
  display <- Py.get pnx "display" (VDict []) ;;
  addata <- Py.get pnx "addata" (VDict []) ;;
  delivery <- Py.get doc "delivery" (VDict []) ;;
  title_field <- Py.get display "title" (VList []) ;;
  let title := first_or_string title_field in
  creator_field <- Py.get display "creator" (VList []) ;;
  let creator := first_or_string creator_field in
  resource_type <- Py.get display "type" (VList [VStr "Unknown"]) ;;
  let resource_type :=
    match resource_type with
    | VList (x :: _) => x
    | _ => resource_type
    end in
  date_field <- Py.get addata "date" (VList []) ;;
  let date :=
    match date_field with
    | VList (x :: _) => x
    | _ => VStr "Unknown"
    end in
  isbn <- Py.get addata "isbn" (VList []) ;;
  issn <- Py.get addata "issn" (VList []) ;;
  publisher <- Py.get addata "pub" (VList []) ;;
  Ok (VDict [ ("title", title);
              ("creator", creator);
              ("type", resource_type);
              ("date", date);
              ("isbn", isbn);
              ("issn", issn);
              ("publisher", publisher);
              ("availability", _check_availability doc);
              ("links", _extract_links delivery) ]).

Fixpoint parse_docs (docs : list value) : res (list value) :=
  match docs with
  | [] => Ok []
  | doc :: docs' =>
      result <- parse_doc doc ;;
      results <- parse_docs docs' ;;
      Ok (result :: results)
  end.

(** [docs[:3]] *)
Definition top3 (docs : value) : res value :=
  match docs with
  | VList l => Ok (VList (firstn 3 l))
  | VStr s => Ok (VStr (Str.take 3 s))
  | VDict _ => type_error "unhashable type: 'slice'"
  | _ => type_error ("'" ++ type_name docs ++ "' object is not subscriptable")
  end.

Definition _parse_search_results (data original_title author : value) : value :=
  try_except
    (docs <- Py.get data "docs" (VList []) ;;
     if negb (Py.truthy docs) then
       Ok (VDict [ ("found", d_false);
                   ("title", original_title);
                   ("author", author);
                   ("message", VStr "No results found") ])
     else
       top <- top3 docs ;;
       top <- Py.iter top ;;
       results <- parse_docs top ;;
       info <- Py.get data "info" (VDict []) ;;
       n <- (match info with
             | VDict _ => Py.len docs
             | _ => attribute_error info "get"
             end) ;;
       total <- Py.get info "total" (VInt (Z.of_nat n)) ;;
       Ok (VDict [ ("found", d_true);
                   ("title", original_title);
                   ("author", author);
                   ("results", VList results);
                   ("total_results", total) ]))
    (fun e =>
       VDict [ ("found", d_false);
               ("title", original_title);
               ("author", author);
               ("error", VStr ("Error parsing results: " ++ msg e)) ]).

(** *** _search_single_item *)

Definition str_of_option (o : option string) : string :=
  match o with
  | Some s => s
  | None => "None"
  end.

Definition search_params (c : client) (query : string)
    : list (string * option string) :=
  [ ("apikey", api_key c);
    ("q", Some query);
    ("tab", tab c);
    ("scope", scope c);
    ("vid", vid c);
    ("lang", Some "en");
    ("offset", Some "0");
    ("limit", Some "5");
    ("sort", Some "rank") ].

(** the query parts, in order: title, then creator *)
Definition query_parts (title author : value) : res (list string) :=
  title_part <-
    (if Py.truthy title then
       clean_title <- _clean_search_term title ;;
       Ok ["title,contains," ++ clean_title]
     else Ok []) ;;
  author_part <-
    (if Py.truthy author then
       clean_author <- _clean_search_term author ;;
       Ok ["creator,contains," ++ clean_author]
     else Ok []) ;;
  Ok (title_part ++ author_part)%list.

Definition not_found_error (title : value) (message : string) : value :=
  VDict [ ("found", d_false); ("error", VStr message); ("title", title) ].

(** The result of one search, and the requests sent so far ([calls], the
    oldest first). Nothing raised inside leaves the function. *)
Definition _search_single_item (c : client) (net : transport)
    (calls : list request) (title author : value) : value * list request :=
  match query_parts title author with
  | Raise e => (not_found_error title (msg e), calls)
  | Ok [] => (not_found_error title "No search terms provided", calls)
  | Ok parts =>
      let query := match parts with
                   | [part] => part
                   | _ => Str.join ";AND;" parts
                   end in
      let search_url := str_of_option (api_base_url c) ++ "/search" in
      if negb (session_open c) then
        (not_found_error title (msg (Exn "AttributeError"
           "'NoneType' object has no attribute 'get'")), calls)
      else
        let req := Request search_url (search_params c query) in
        let calls' := (calls ++ [req])%list in
        match net (List.length calls) req with
        | Failure e => (not_found_error title (msg e), calls')
        | Response status json text =>
            if (status =? 200)%Z then
              match json with
              | Ok data => (_parse_search_results data title author, calls')
              | Raise e => (not_found_error title (msg e), calls')
              end
            else
              match text with
              | Ok error_text =>
                  (not_found_error title
                     ("API request failed with status " ++ Py.str_of_Z status
                      ++ ": " ++ error_text), calls')
              | Raise e => (not_found_error title (msg e), calls')
              end
        end
  end.

(** *** From a search result to a library match *)

Definition _determine_availability_status (primo_result : value) : res string :=
  availability_info <- Py.get primo_result "availability" (VDict []) ;;
  is_available <- Py.get availability_info "available" d_false ;;
  if Py.truthy is_available then Ok "available"
  else
    online <- Py.get availability_info "online_access" d_false ;;
    if Py.truthy online then Ok "available" else Ok "unavailable".

(** [v[0]] *)
Definition item0 (v : value) : res value :=
  match v with
  | VList (x :: _) => Ok x
  | VList [] => Raise (Exn "IndexError" "list index out of range")
  | VStr (String c _) => Ok (VStr (String c EmptyString))
  | VStr EmptyString => Raise (Exn "IndexError" "string index out of range")
  | VDict _ => Raise (Exn "KeyError" "0")
  | _ => type_error ("'" ++ type_name v ++ "' object is not subscriptable")
  end.

Definition _extract_location_info (primo_result : value) : res value :=
  availability_info <- Py.get primo_result "availability" (VDict []) ;;
  locations <- Py.get availability_info "locations" (VList []) ;;
  if Py.truthy locations then item0 locations
  else
    online <- Py.get availability_info "online_access" d_false ;;
    if Py.truthy online then Ok (VStr "Online") else Ok (VStr "Unknown").

Definition _extract_access_link (primo_result : value) : res value :=
  links <- Py.get primo_result "links" (VList []) ;;
  if Py.truthy links then
    n <- Py.len links ;;
    if (0 <? n)%nat then
      first <- item0 links ;;
      Py.get first "url" (VStr "#")
    else Ok (VStr "#")
  else Ok (VStr "#").

(** the dictionary built for one [primo_result] *)
Definition library_match (primo_result : value) : res value :=
  title <- Py.get primo_result "title" (VStr "Unknown") ;;
  creator <- Py.get primo_result "creator" VNone ;;
  authors <- (if Py.truthy creator then
                creator <- Py.get primo_result "creator" (VStr "Unknown") ;;
                Ok [creator]
              else Ok []) ;;
  status <- _determine_availability_status primo_result ;;
  format <- Py.get primo_result "type" (VStr "Unknown") ;;
  location <- _extract_location_info primo_result ;;
  link <- _extract_access_link primo_result ;;
  Ok (VDict [ ("title", title);
              ("authors", VList authors);
              ("availability", VStr status);
              ("format", format);
              ("location", location);
              ("link", link);
              ("callNumber", VNone);
              ("dueDate", VNone);
              ("coverImage", VNone) ]).

Fixpoint library_matches_of (primo_results : list value) : res (list value) :=
  match primo_results with
  | [] => Ok []
  | primo_result :: rest =>
      m <- library_match primo_result ;;
      ms <- library_matches_of rest ;;
      Ok (m :: ms)
  end.

(** *** search_by_metadata *)

Definition match_entry (title : value) (score : Q) (matches : list value) : value :=
  VDict [ ("originalQuery", title);
          ("matchScore", VFloat score);
          ("matches", VList matches) ].

Definition score_resolved : Q := 1.          (* 1.0 *)
Definition score_found : Q := 8 # 10.        (* 0.8 *)
Definition score_not_found : Q := 0.         (* 0.0 *)

Definition online_match (title author existing_url : value) : value :=
  VDict [ ("title", title);
          ("authors", VList (if Py.truthy author then [author] else []));
          ("availability", VStr "available");
          ("format", VStr "Online Resource");
          ("location", VStr "Online");
          ("link", existing_url);
          ("callNumber", VNone);
          ("dueDate", VNone);
          ("coverImage", VNone) ].

Definition url_placeholders : list string := ["unknown"; ""; "none"].

(** [existing_url and existing_url.lower() not in ['unknown', '', 'none']] *)
Definition usable_url (existing_url : value) : res bool :=
  if Py.truthy existing_url then
    u <- Py.lower existing_url ;;
    Ok (negb (List.existsb (String.eqb u) url_placeholders))
  else Ok false.

(** How the first half of the loop body leaves a material: with
    [continue] and nothing recorded, with [continue] after recording a
    pre-resolved match, or on to the search with a title and an author. *)
Inductive decision :=
| Skip
| Resolved (entry : value)
| Query (title author : value).

Definition classify (material : value) : res decision :=
  match material with
  | VDict m =>
      let title := Py.get_or m "title" (VStr "") in
      let author := Py.get_or m "creator" (VStr "") in
      material_type <-
        Py.lower (Py.get_or m "type" (Py.get_or m "media_type" (VStr ""))) ;;
      requirement <- Py.lower (Py.get_or m "requirement" (VStr "")) ;;
      let existing_url := Py.get_or m "url" (VStr "") in
      if String.eqb requirement "equipment" || String.eqb material_type "equipment"
      then Ok Skip
      else
        usable <- usable_url existing_url ;;
        if usable
        then Ok (Resolved (match_entry title score_resolved
                             [online_match title author existing_url]))
        else Ok (Query title author)
  | VStr _ => Ok (Query material (VStr ""))
  | _ => Ok Skip
  end.

(** the lists the loop appends to, and the requests sent so far *)
Record progress := Progress {
  results : list value;
  library_matches : list value;
  calls : list request
}.

(** a turn of the loop ends normally or with an exception *)
Inductive turn :=
| Done (st : progress)
| Failed (e : exn) (sent : list request).

(** [search_result.get('found') and search_result.get('results')] *)
Definition found_with_results (search_result : value) : res bool :=
  found <- Py.get search_result "found" VNone ;;
  if Py.truthy found then
    rs <- Py.get search_result "results" VNone ;;
    Ok (Py.truthy rs)
  else Ok false.

(** the entry of [library_matches] for a search result *)
Definition entry_of_search (title search_result : value) : res value :=
  hit <- found_with_results search_result ;;
  if hit then
    rs <- Py.get search_result "results" VNone ;;
    rs <- Py.iter rs ;;
    matches <- library_matches_of rs ;;
    Ok (match_entry title score_found matches)
  else Ok (match_entry title score_not_found []).

(** Filter 3 and Filter 4 *)
Definition search_and_record (c : client) (net : transport)
    (material title author : value) (st : progress) : turn :=
  if Py.truthy title then
    if has_key c then
      let '(search_result, sent) :=
        _search_single_item c net (calls st) title author in
      match
        (search_result <- Py.setitem search_result "original_material" material ;;
         entry <- entry_of_search title search_result ;;
         Ok (search_result, entry))
      with
      | Ok (search_result, entry) =>
          Done (Progress (results st ++ [search_result])%list
                         (library_matches st ++ [entry])%list sent)
      | Raise e => Failed e sent
      end
    else
      Done (Progress (results st)
                     (library_matches st ++ [match_entry title score_not_found []])%list
                     (calls st))
  else Done st.

(** the body of [for material in reading_materials] *)
Definition process_material (c : client) (net : transport)
    (material : value) (st : progress) : turn :=
  match classify material with
  | Raise e => Failed e (calls st)
  | Ok Skip => Done st
  | Ok (Resolved entry) =>
      Done (Progress (results st) (library_matches st ++ [entry])%list (calls st))
  | Ok (Query title author) => search_and_record c net material title author st
  end.

Fixpoint for_materials (c : client) (net : transport)
    (materials : list value) (st : progress) : turn :=
  match materials with
  | [] => Done st
  | material :: rest =>
      match process_material c net material st with
      | Done st' => for_materials c net rest st'
      | Failed e sent => Failed e sent
      end
  end.

(** [[r for r in results if r.get('found', False)]] *)
Fixpoint found_results (results : list value) : res (list value) :=
  match results with
  | [] => Ok []
  | r :: rest =>
      found <- Py.get r "found" d_false ;;
      tail <- found_results rest ;;
      Ok (if Py.truthy found then r :: tail else tail)
  end.

Definition no_materials_report (metadata : value) : value :=
  VDict [ ("found", d_false);
          ("error", VStr "No reading materials found in metadata");
          ("metadata", metadata);
          ("library_matches", VList []) ].

Definition error_report (metadata : value) (e : exn) : value :=
  VDict [ ("found", d_false);
          ("error", VStr (msg e));
          ("metadata", metadata);
          ("library_matches", VList []) ].

Definition success_report (metadata : value) (total : nat)
    (found : list value) (st : progress) : value :=
  VDict [ ("found", VBool (0 <? List.length found)%nat);
          ("results", VList (results st));
          ("metadata", metadata);
          ("total_materials", VInt (Z.of_nat total));
          ("found_materials", VInt (Z.of_nat (List.length found)));
          ("library_matches", VList (library_matches st)) ].

(** before the first turn of the loop *)
Definition start : progress := Progress [] [] [].

(** the body of the [try] of [search_by_metadata], with the requests sent *)
Definition search_body (c : client) (net : transport) (metadata : value)
    : res value * list request :=
  match Py.get metadata "reading_materials" (VList []) with
  | Raise e => (Raise e, [])
  | Ok reading_materials =>
      if negb (Py.truthy reading_materials)
      then (Ok (no_materials_report metadata), [])
      else
        match Py.iter reading_materials with
        | Raise e => (Raise e, [])
        | Ok materials =>
            match for_materials c net materials start with
            | Failed e sent => (Raise e, sent)
            | Done st =>
                (found <- found_results (results st) ;;
                 total <- Py.len reading_materials ;;
                 Ok (success_report metadata total found st),
                 calls st)
            end
        end
  end.

Definition no_session : exn :=
  Exn "RuntimeError" "PrimoAPIClient must be used as async context manager".

Definition search_by_metadata (c : client) (net : transport) (metadata : value)
    : res value * list request :=
  if negb (session_open c) then (Raise no_session, [])
  else
    let '(outcome, sent) := search_body c net metadata in
    (Ok (try_except outcome (error_report metadata)), sent).

(** [async with PrimoAPIClient(...) as client]: the session is open inside *)
Definition entered (c : client) : client :=
  Client (api_base_url c) (api_key c) (vid c) (tab c) (scope c) true.

Definition check_primo_availability (c : client) (net : transport)
    (title author : value) : value * list request :=
  _search_single_item (entered c) net [] title author.

Definition check_metadata_availability (c : client) (net : transport)
    (metadata : value) : res value * list request :=
  search_by_metadata (entered c) net metadata.

End Primo.

(* ------------------------------------------------------------------ *)
(** * scripts/florida_pdf_downloader_v2.py: file names

    The choice of the file name of a download: [sanitize_filename], the
    base name that [download_pdf] takes from the link, and the loop that
    makes it unique among [downloaded_files] (run under the lock, so as
    one step). *)

Module Downloader.

(** a character of the class that [sanitize_filename] replaces: one of
    the angle brackets, the colon, the double quote, the two slashes, the
    bar, the question mark and the star *)
Definition invalid_char (c : ascii) : bool :=
  Char.has_code 60 c || Char.has_code 62 c || Char.has_code 58 c
  || Char.has_code 34 c || Char.has_code 47 c || Char.has_code 92 c
  || Char.has_code 124 c || Char.has_code 63 c || Char.has_code 42 c.

Definition underscore : ascii := ascii_of_nat 95.
Definition slash : ascii := ascii_of_nat 47.

(** the [re.sub] of [sanitize_filename]: its pattern is one character of
    the class, so each such character becomes an underscore *)
Definition replace_invalid (filename : string) : string :=
  Str.map (fun c => if invalid_char c then underscore else c) filename.

Definition sanitize_filename (filename : string) : string :=
  let filename := replace_invalid filename in
  Str.take 200 (Primo.collapse_whitespace filename).

(** [s.startswith(prefix)] and [s.endswith(suffix)] *)
Definition starts_with (prefix s : string) : bool := String.prefix prefix s.

Fixpoint ends_with (suffix s : string) : bool :=
  String.eqb s suffix
  || match s with
     | String _ s' => ends_with suffix s'
     | EmptyString => false
     end.

(** the base name: from the title of the link when it says something,
    else from the last component of the URL path *)
Definition base_filename (title url_filename : string) : string :=
  if (10 <? String.length title)%nat && negb (starts_with "http" (Str.lower title))
  then
    let base := sanitize_filename title in
    if negb (ends_with ".pdf" (Str.lower base)) then base ++ ".pdf" else base
  else
    if ends_with ".pdf" url_filename then url_filename else "syllabus.pdf".

(** the text before the last dot, and the text from it on *)
Fixpoint rsplit_dot (s : string) : option (string * string) :=
  match s with
  | EmptyString => None
  | String c s' =>
      match rsplit_dot s' with
      | Some (root, ext) => Some (String c root, ext)
      | None => if Ascii.eqb c Extractor.dot then Some (EmptyString, s) else None
      end
  end.

(** the text after the last slash *)
Fixpoint after_last_slash (s : string) : string :=
  match s with
  | EmptyString => EmptyString
  | String c s' =>
      if Str.existsb (Ascii.eqb slash) s then
        (if Str.existsb (Ascii.eqb slash) s' then after_last_slash s' else s')
      else s
  end.

(** [os.path.splitext] on a POSIX path: the extension starts at the last
    dot of the last component, unless only dots stand before it there *)
Definition splitext (p : string) : string * string :=
  match rsplit_dot p with
  | Some (root, ext) =>
      if negb (Str.existsb (Ascii.eqb slash) ext)
         && Str.existsb (fun c => negb (Ascii.eqb c Extractor.dot))
                        (after_last_slash root)
      then (root, ext)
      else (p, EmptyString)
  | None => (p, EmptyString)
  end.

(** [str(n)] *)
Definition str_of_nat (n : nat) : string :=
  NilZero.string_of_uint (Nat.to_uint n).

(** [filename in self.downloaded_files] *)
Definition taken_in (downloaded_files : list string) (filename : string) : bool :=
  List.existsb (String.eqb filename) downloaded_files.

(** [f"{name}_{counter}{ext}"] *)
Definition numbered (base_filename : string) (counter : nat) : string :=
  let (name, ext) := splitext base_filename in
  name ++ "_" ++ str_of_nat counter ++ ext.

(** the [while] loop, with a bound on its turns: [None] when the bound is
    reached *)
Fixpoint next_free (turns counter : nat) (downloaded_files : list string)
    (base_filename filename : string) : option string :=
  if taken_in downloaded_files filename then
    match turns with
    | O => None
    | S turns' =>
        next_free turns' (S counter) downloaded_files base_filename
          (numbered base_filename counter)
    end
  else Some filename.

(** "Ensure unique filename": more turns than there are names taken *)
Definition unique_filename (downloaded_files : list string)
    (base_filename : string) : option string :=
  next_free (S (List.length downloaded_files)) 1 downloaded_files
    base_filename base_filename.

(** an entry of [all_pdf_links], as [get_pdf_links_from_page] builds it *)
Record pdf_info := PdfInfo { url : string; title : string }.

Definition pdf_value (pdf : pdf_info) : value :=
  VDict [("url", VStr (url pdf)); ("title", VStr (title pdf))].

(** "Remove duplicates based on URL": the dictionary [unique_pdfs] of
    [run] once its loop is over *)
Definition unique_pdfs (all_pdf_links : list pdf_info) : Py.dict :=
  List.fold_left (fun d pdf => Py.store d (url pdf) (pdf_value pdf))
                 all_pdf_links [].

(** [list(unique_pdfs.values())] *)
Definition unique_links (all_pdf_links : list pdf_info) : list value :=
  List.map snd (unique_pdfs all_pdf_links).

End Downloader.

(* ------------------------------------------------------------------ *)
(** * Vocabulary of the statements *)

(** [report[k]] when the report is a dictionary that has the key *)
Definition field (report : value) (k : string) : option value :=
  match report with
  | VDict d => Py.lookup d k
  | _ => None
  end.

Module Claimed.

(** The label of a domain name that stands immediately before its
    top-level domain, as the description of the university field words
    it: the last label but one. *)
Definition label_before_tld (domain : string) : string :=
  let labels := Str.split Extractor.dot domain in
  nth (List.length labels - 2) labels EmptyString.

(** The record that a fallback on the whole normalized text (body text
    and table markdown) would hand on. *)
Definition fallback_on_normalized_text (w : Extractor.services)
    (f : Extractor.pdf_file) (text : string) (table_markdowns : list string)
    : option value :=
  match Extractor.finish_row w f
          (Extractor.heuristic_parse (Extractor.combine text table_markdowns)) with
  | Ok row => Some row
  | Raise _ => None
  end.

End Claimed.

(** services without a configured client *)
Definition offline : Extractor.services :=
  Extractor.Services false
    (fun _ _ => Raise (Exn "Exception" "no client"))
    (fun _ => Raise (Exn "JSONDecodeError" "Expecting value"))
    (fun _ => "[]").

Definition syllabus_with_table : Extractor.pdf_file :=
  Extractor.Pdf "cs101.pdf"
    (Ok [Extractor.Page "Syllabus" (Ok [Ok (Some "| Term | Fall 2023 |")])]).

Definition unreadable_pdf : Extractor.pdf_file :=
  Extractor.Pdf "broken.pdf" (Raise (Exn "FileDataError" "Failed to open file")).

(** *** Reports and their entries *)

(** an entry of [library_matches] that came from a search with results *)
Definition is_api_hit (entry : value) : bool :=
  match field entry "matchScore" with
  | Some (VFloat q) => Qeq_bool q Primo.score_found
  | _ => false
  end.

(** an entry of [library_matches] that came from the item's own url *)
Definition is_resolved (entry : value) : bool :=
  match field entry "matchScore" with
  | Some (VFloat q) => Qeq_bool q Primo.score_resolved
  | _ => false
  end.

(** an entry of [library_matches] that carries at least one match *)
Definition has_matches (entry : value) : bool :=
  match field entry "matches" with
  | Some (VList (_ :: _)) => true
  | _ => false
  end.

(** [r.get('found', False)] as a truth value *)
Definition is_found (r : value) : bool :=
  match field r "found" with
  | Some v => Py.truthy v
  | None => false
  end.


(** *** Result documents of the discovery service *)

Definition absent_or_list (o : option value) : bool :=
  match o with
  | None => true
  | Some (VList _) => true
  | Some _ => false
  end.

(** a holding: an optional location record with an optional name, and an
    optional list of item records *)
Definition holding_ok (holding : value) : bool :=
  match holding with
  | VDict h =>
      match Py.lookup h "location" with
      | None => true
      | Some (VDict loc) =>
          match Py.lookup loc "mainLocation" with
          | None => true
          | Some (VStr _) => true
          | Some _ => false
          end
      | Some _ => false
      end
      &&
      match Py.lookup h "items" with
      | None => true
      | Some (VList items) => List.forallb Py.is_dict items
      | Some _ => false
      end
  | _ => false
  end.

(** a result document: an optional delivery record with optional category
    and link lists, and an optional list of holdings *)
Definition doc_ok (doc : value) : bool :=
  match doc with
  | VDict d =>
      match Py.lookup d "delivery" with
      | None => true
      | Some (VDict delivery) =>
          absent_or_list (Py.lookup delivery "delcategory")
          && absent_or_list (Py.lookup delivery "link")
      | Some _ => false
      end
      &&
      match Py.lookup d "holdings" with
      | None => true
      | Some (VList holdings) => List.forallb holding_ok holdings
      | Some _ => false
      end
  | _ => false
  end.

Definition list_at (v : value) (k : string) : list value :=
  match field v k with
  | Some (VList l) => l
  | _ => []
  end.

Definition delivery_of (doc : value) : value :=
  match field doc "delivery" with
  | Some delivery => delivery
  | None => VDict []
  end.

Definition categories_of (doc : value) : list value :=
  list_at (delivery_of doc) "delcategory".
Definition links_of (doc : value) : list value :=
  list_at (delivery_of doc) "link".
Definition holdings_of (doc : value) : list value := list_at doc "holdings".
Definition items_of (holding : value) : list value := list_at holding "items".

Definition item_available (item : value) : bool :=
  match field item "availability" with
  | Some status => Py.eq_str status "available"
  | None => false
  end.

(** the main-location name of a holding that has a location record *)
Definition location_name_of (holding : value) : list value :=
  match field holding "location" with
  | Some (VDict (entry :: loc)) =>
      [Py.get_or (entry :: loc) "mainLocation" (VStr "Unknown")]
  | _ => []
  end.

Definition inhabited (l : list value) : bool :=
  match l with
  | [] => false
  | _ :: _ => true
  end.

(** *** Sample clients and answers *)

Definition library : Primo.client :=
  Primo.Client (Some "https://primo.example.edu/v1") (Some "l8xx")
    (Some "01EX_INST:MAIN") (Some "Everything") (Some "MyInst_and_CI") true.

Definition library_without_key : Primo.client :=
  Primo.Client (Some "https://primo.example.edu/v1") None
    (Some "01EX_INST:MAIN") (Some "Everything") (Some "MyInst_and_CI") true.

Definition library_not_entered : Primo.client :=
  Primo.Client (Some "https://primo.example.edu/v1") (Some "l8xx")
    (Some "01EX_INST:MAIN") (Some "Everything") (Some "MyInst_and_CI") false.

Definition unreachable : Primo.transport :=
  fun _ _ => Primo.Failure (Exn "ClientConnectorError" "Cannot connect to host").

Definition one_doc : Primo.transport :=
  fun _ _ =>
    Primo.Response 200
      (Ok (VDict
             [("docs",
               VList [VDict [ ("pnx", VDict [("display",
                                 VDict [("title", VList [VStr "Cognitive psychology"])])]);
                              ("delivery", VDict [("link", VList [VStr "resolver"])]) ]])]))
      (Ok "").

Definition no_docs : Primo.transport :=
  fun _ _ => Primo.Response 200 (Ok (VDict [("docs", VList [])])) (Ok "").

(** *** Sample reading items *)

Definition goggles_typed_as_book : value :=
  VDict [ ("title", VStr "Safety goggles");
          ("type", VStr "books");
          ("media_type", VStr "equipment") ].

Definition lab_coat : Py.dict :=
  [ ("title", VStr "Lab coat");
    ("media_type", VStr "Equipment");
    ("requirement", VStr "required") ].

Definition online_book : Py.dict :=
  [ ("title", VStr "Open Logic");
    ("creator", VStr "Zach");
    ("media_type", VStr "books");
    ("requirement", VStr "required");
    ("url", VStr "https://example.com/book") ].

Definition calculator_with_manual : value :=
  VDict [ ("title", VStr "Graphing calculator");
          ("media_type", VStr "equipment");
          ("requirement", VStr "required");
          ("url", VStr "https://example.com/manual") ].

Definition reading_list (items : list value) : value :=
  VDict [("class_name", VStr "Introduction to Psychology");
         ("reading_materials", VList items)].

(** *** Sample result documents *)

Definition online_only_doc : value :=
  VDict [ ("pnx", VDict [("display", VDict [("title", VList [VStr "Open Logic"])])]);
          ("delivery", VDict [("link", VList [VDict [("linkURL", VStr "https://example.com/book")]])]) ].

(** a document with a delivery link whose holdings entry is null *)
Definition linked_doc_with_null_holdings : value :=
  VDict [ ("pnx", VDict [("display", VDict [("title", VList [VStr "Open Logic"])])]);
          ("delivery", VDict [("link", VList [VDict [("linkURL", VStr "https://example.com/book")]])]);
          ("holdings", VNone) ].

Definition shelved_doc : value :=
  VDict [ ("delivery", VDict [("delcategory", VList [])]);
          ("holdings",
           VList [ VDict [ ("location", VDict [("mainLocation", VStr "King Library")]);
                           ("items", VList [ VDict [("availability", VStr "available")];
                                             VDict [("availability", VStr "loaned")] ]) ];
                   VDict [ ("location", VDict [("mainLocation", VStr "King Library")]);
                           ("items", VList [ VDict [("availability", VStr "available")] ]) ] ]) ].

(** *** What the proofs keep track of *)

Module Invariants.

Import Re Primo.


(** the entries of [library_matches] that carry matches are the search
    hits and the pre-resolved ones, and no entry is both *)
Definition entry_ok (entry : value) : Prop :=
  has_matches entry = is_api_hit entry || is_resolved entry
  /\ is_api_hit entry && is_resolved entry = false.

Record consistent (st : progress) : Prop := {
  results_are_dicts : Forall (fun r => Py.is_dict r = true) (results st);
  hits_are_found :
    List.length (List.filter is_found (results st))
    = List.length (List.filter is_api_hit (library_matches st));
  entries_ok : Forall entry_ok (library_matches st)
}.

(** a search result: a dictionary with a Boolean [found], and with a
    non-empty [results] list when [found] is true *)
Definition search_result_ok (sr : value) : Prop :=
  exists d b, sr = VDict d
    /\ Py.lookup d "found" = Some (VBool b)
    /\ (b = true -> exists r rs, Py.lookup d "results" = Some (VList (r :: rs))).

(** what the loop over the holdings has reached *)
Record judged (hs : list value) (a a' : availability) : Prop := {
  judged_available :
    available a' = available a
                   || List.existsb item_available (List.flat_map items_of hs);
  judged_online : online_access a' = online_access a;
  judged_copies :
    physical_copies a'
    = (physical_copies a
       + Z.of_nat (List.length (List.filter item_available
                                  (List.flat_map items_of hs))))%Z;
  judged_category : delivery_category a' = delivery_category a;
  judged_strings : Forall (fun v => Py.is_str v = true) (locations a');
  judged_nodup : NoDup (locations a');
  judged_names :
    forall x, In x (locations a')
              <-> In x (locations a) \/ In x (List.flat_map location_name_of hs)
}.

End Invariants.

(* ------------------------------------------------------------------ *)
(** * What a pattern matches

    A declarative reading of the patterns, against which the engine of
    [Re] is proved sound and complete: [den r pv w after g] holds when
    [r] can match the piece [w] of a text in which [pv] is the character
    before [w] and [after] is what follows it, with [g] the text of group
    1 if the group took part. *)

Module Denotation.

Import Re.

(** the character before the cursor once [w] has been read *)
Fixpoint last_char (pv : option ascii) (w : string) : option ascii :=
  match w with
  | EmptyString => pv
  | String c w' => last_char (Some c) w'
  end.

(** every character of [w] is in the class *)
Fixpoint all (p : ascii -> bool) (w : string) : bool :=
  match w with
  | EmptyString => true
  | String c w' => p c && all p w'
  end.

Definition fits (hi : option nat) (n : nat) : Prop :=
  match hi with
  | Some h => n <= h
  | None => True
  end.

(** the group after a further piece: the later capture wins *)
Definition pick (g earlier : option string) : option string :=
  match g with
  | Some _ => g
  | None => earlier
  end.

Fixpoint den (r : regex) (pv : option ascii) (w after : string)
    (g : option string) : Prop :=
  match r with
  | Eps => w = "" /\ g = None
  | Chr p => exists c, w = String c "" /\ p c = true /\ g = None
  | Cat a b =>
      exists u v gu gv,
        w = u ++ v
        /\ den a pv u (v ++ after) gu
        /\ den b (last_char pv u) v after gv
        /\ g = pick gv gu
  | Alt a b => den a pv w after g \/ den b pv w after g
  | Rep p lo hi =>
      all p w = true /\ lo <= String.length w /\ fits hi (String.length w)
      /\ g = None
  | Grp a => exists g', den a pv w after g' /\ g = Some w
  | Bnd => w = "" /\ g = None /\ xorb (wordish pv) (wordish (peek after)) = true
  | Bos => w = "" /\ g = None /\ pv = None
  | Eos => w = "" /\ g = None /\ (after = "" \/ after = NL)
  end.

(** [r] matches somewhere in [text]: at [pre], the piece [w], group [g] *)
Definition occurs (r : regex) (text pre w post : string) (g : option string)
    : Prop :=
  text = pre ++ w ++ post /\ den r (last_char None pre) w post g.

End Denotation.

(** ** What the heuristic fields look like *)

Module Shapes.

Import Denotation.

(** "20" and two more digits *)
Definition is_year (y : string) : Prop :=
  exists d1 d2,
    y = String "2" (String "0" (String d1 (String d2 "")))
    /\ Char.is_digit d1 = true /\ Char.is_digit d2 = true.

(** one of the four semester names, in any mix of cases *)
Definition is_semester (w : string) : Prop :=
  In (Str.lower w) ["spring"; "summer"; "fall"; "winter"].

(** neither neighbour of the piece is a letter, a digit or an underscore *)
Definition whole_word (pv : option ascii) (post : string) : Prop :=
  Re.wordish pv = false /\ Re.wordish (Re.peek post) = false.

Definition code_separator (c : ascii) : bool :=
  Char.is_space c || Char.has_code 45 c.

(** two to four capitals, at most one space or hyphen, three or four digits *)
Definition is_course_code (w : string) : Prop :=
  exists letters sep digits,
    w = letters ++ sep ++ digits
    /\ all Char.is_upper letters = true
    /\ 2 <= String.length letters <= 4
    /\ all code_separator sep = true
    /\ String.length sep <= 1
    /\ all Char.is_digit digits = true
    /\ 3 <= String.length digits <= 4.

(** an address: local part, "@", and a domain [d ++ ".edu"] *)
Definition is_edu_address (w domain : string) : Prop :=
  exists l d,
    w = l ++ "@" ++ d ++ ".edu"
    /\ domain = d ++ ".edu"
    /\ all Extractor.email_local l = true /\ l <> ""
    /\ all Extractor.email_domain d = true /\ d <> "".

(** a label, a colon, white space, and the rest of a line *)
Definition is_instructor_line (w name : string) : Prop :=
  exists label ws,
    w = label ++ ":" ++ ws ++ name
    /\ In (Str.lower label) ["instructor"; "professor"; "dr."; "teacher"]
    /\ all Char.is_space ws = true
    /\ all Extractor.not_newline name = true /\ name <> "".

(** the greedy reading of what follows the colon: [name] runs to the end
    of its line, and no longer run of white space is followed by a
    character other than a newline *)
Definition takes_the_line (ws name post : string) : Prop :=
  (post = "" \/ Str.starts_with_LF post = true)
  /\ forall ws' rest',
       ws ++ name ++ post = ws' ++ rest' ->
       all Char.is_space ws' = true ->
       String.length ws < String.length ws' ->
       rest' = "" \/ Str.starts_with_LF rest' = true.

(** the test of the loop over the first lines *)
Definition qualifies (line : string) : bool :=
  (10 <? String.length (Str.strip line))%nat
  && (String.length (Str.strip line) <? 100)%nat
  && Str.existsb Char.is_upper (Str.strip line).

End Shapes.

(** ** Rows of the batch *)

Module Rows.

Import Extractor.

(** the file gives a row *)
Definition processed (w : services) (f : pdf_file) : bool :=
  match process_pdf w f with
  | Some _ => true
  | None => false
  end.

(** a dictionary object has each key once *)
Definition keys_unique (d : Py.dict) : Prop := NoDup (List.map fst d).

(** a record as the model may return it, with a reading list of its own *)
Definition llm_record : Py.dict :=
  [ ("year", VStr "2024");
    ("class_name", VStr "Modern Logic");
    ("reading_materials", VList [VStr "Open Logic"]);
    ("filename", VStr "from the model") ].

End Rows.

(** ** Queries, answers and entries *)

Module Answers.

Import Denotation Primo.

(** the characters that [quote_plus] lets through or produces for a
    character that is not a space *)
Definition encoded_char (c : ascii) : bool :=
  Char.is_alpha c || Char.is_digit c || Char.has_code 95 c || Char.has_code 46 c
  || Char.has_code 45 c || Char.has_code 126 c || Char.has_code 37 c.

(** text of code points below 128, where the model follows the
    interpreter and [quote_plus] has nothing to reject *)
Definition ascii_text (s : string) : bool :=
  all (fun c => (Char.code c <? 128)%nat) s.

(** a word of a cleaned term: not empty, and percent-encoded *)
Definition encoded_word (w : string) : Prop :=
  w <> "" /\ all encoded_char w = true.

(** a result that [library_match] can read: a dictionary whose
    availability is a dictionary with a list of locations and whose links
    are a list of dictionaries *)
Definition result_ok (r : value) : bool :=
  match r with
  | VDict d =>
      match Py.lookup d "availability" with
      | Some (VDict av) =>
          match Py.lookup av "locations" with
          | Some (VList _) => true
          | _ => false
          end
      | _ => false
      end
      &&
      match Py.lookup d "links" with
      | Some (VList links) => List.forallb Py.is_dict links
      | _ => false
      end
  | _ => false
  end.

(** the dictionary a search hands back: [found] is false, or it is true
    with one to three results that can be read *)
Definition answer_ok (sr : value) : Prop :=
  exists d,
    sr = VDict d
    /\ (Py.lookup d "found" = Some (VBool false)
        \/ (Py.lookup d "found" = Some (VBool true)
            /\ exists rs,
                 Py.lookup d "results" = Some (VList rs)
                 /\ 1 <= List.length rs <= 3
                 /\ List.forallb result_ok rs = true)).

(** an entry of [library_matches]: score 1.0 with one match, score 0.8
    with one to three matches, or score 0.0 with none *)
Definition entry_shape (entry : value) : Prop :=
  exists title matches,
    (entry = match_entry title score_resolved matches /\ List.length matches = 1)
    \/ (entry = match_entry title score_found matches
        /\ 1 <= List.length matches <= 3)
    \/ (entry = match_entry title score_not_found matches /\ matches = []).

(** [st'] is [st] with [r] results, [l] entries and [q] requests added at
    the end, in [n] turns at most *)
Definition grows_by (n : nat) (st st' : progress) : Prop :=
  exists r l q,
    results st' = (results st ++ r)%list
    /\ library_matches st' = (library_matches st ++ l)%list
    /\ calls st' = (calls st ++ q)%list
    /\ List.length q <= List.length r
    /\ List.length r <= List.length l
    /\ List.length l <= n
    /\ Forall entry_shape l.

(** an item whose requirement is JSON null *)
Definition item_with_null_requirement : value :=
  VDict [ ("title", VStr "Open Logic"); ("requirement", VNone) ].

End Answers.

(** ** Links of a result document *)

Module Links.

Import Primo.

(** a delivery link that [_extract_links] keeps: a dictionary with a
    non-empty linkURL *)
Definition usable_link (link : value) : bool :=
  match link with
  | VDict l => Py.truthy (Py.get_or l "linkURL" (VStr ""))
  | _ => false
  end.

(** what is kept of a link *)
Definition link_info (link : value) : value :=
  match link with
  | VDict l =>
      VDict [ ("url", Py.get_or l "linkURL" (VStr ""));
              ("display_label", Py.get_or l "displayLabel" (VStr "Access Resource"));
              ("link_type", Py.get_or l "linkType" (VStr "unknown")) ]
  | _ => VNone
  end.

(** the link list of a document, when it is a list *)
Definition raw_links (doc : value) : list value := links_of doc.

End Links.

(* ------------------------------------------------------------------ *)
(** ** Answers of the model *)

Module Fences.

Import Extractor.

Definition backtick : ascii := ascii_of_nat 96.

(** a model that answers every request with [content], with a [json]
    codec that hands the text on as a string *)
Definition answering (content : string) : services :=
  Services true (fun _ _ => Ok content) (fun s => Ok (VStr s)) (fun _ => "[]").

End Fences.

(** ** Words about file names *)

Module Names.

Import Downloader.

(** a character that may stand in a sanitized name *)
Definition safe_char (c : ascii) : bool :=
  negb (invalid_char c) && (negb (Char.is_space c) || Char.has_code 32 c).

(** some character of the last component of [name] is not a dot *)
Definition has_stem (name : string) : Prop :=
  exists pre c post,
    name = pre ++ String c post
    /\ c <> Extractor.dot /\ c <> slash
    /\ Str.existsb (Ascii.eqb slash) post = false.

(** [ext] is an extension behind [name]: a dot and a text with no further
    dot and no slash, behind a name whose last component has more than
    dots *)
Definition extension_of (name ext : string) : Prop :=
  exists rest,
    ext = String Extractor.dot rest
    /\ Str.existsb (Ascii.eqb Extractor.dot) rest = false
    /\ Str.existsb (Ascii.eqb slash) rest = false
    /\ has_stem name.

(** [int(s)] on a decimal numeral *)
Definition parse_nat (s : string) : option nat :=
  option_map Nat.of_uint (NilZero.uint_of_string s).

End Names.

(* ------------------------------------------------------------------ *)
(** * Properties *)

(** ** The model on the examples of the description *)

Module Checks.

Import Extractor Primo.

Example instructor_label :
  field (heuristic_parse ("Syllabus" ++ NL ++ "Instructor: Jane Doe" ++ NL ++ "Room 12"))
        "instructor" = Some (VStr "Jane Doe").
Proof. vm_compute. reflexivity. Qed.

Example instructor_on_next_line :
  field (heuristic_parse ("Professor:" ++ NL ++ "  Ada Lovelace  " ++ NL))
        "instructor" = Some (VStr "Ada Lovelace").
Proof. vm_compute. reflexivity. Qed.

Example course_code_with_space :
  field (heuristic_parse "Welcome to CS 101, autumn term") "class_number"
  = Some (VStr "CS 101").
Proof. vm_compute. reflexivity. Qed.

Example course_code_without_space :
  field (heuristic_parse "Welcome to CS101") "class_number" = Some (VStr "CS101").
Proof. vm_compute. reflexivity. Qed.

Example semester_keeps_the_spelling_of_the_text :
  field (heuristic_parse "offered every FALL; falling leaves") "semester"
  = Some (VStr "FALL").
Proof. vm_compute. reflexivity. Qed.

Example title_is_first_long_line_with_a_capital :
  field (heuristic_parse ("page 1" ++ NL ++ "  Introduction to Psychology  " ++ NL))
        "class_name" = Some (VStr "Introduction to Psychology").
Proof. vm_compute. reflexivity. Qed.

Example university_of_two_label_domain :
  field (heuristic_parse "write to jdoe@miami.edu") "university"
  = Some (VStr "MIAMI").
Proof. vm_compute. reflexivity. Qed.

Example splitlines_crlf :
  Str.splitlines ("a" ++ String Char.CR NL ++ "b" ++ NL) = ["a"; "b"].
Proof. vm_compute. reflexivity. Qed.

Example fence_is_trimmed :
  Str.strip (Re.remove FENCE_RE ("```json" ++ NL ++ "{}" ++ NL ++ "```")) = "{}".
Proof. vm_compute. reflexivity. Qed.

Example clean_edition_and_publisher :
  _clean_search_term (VStr "Psychology, 5th edition, by Pearson")
  = Ok "Psychology%2C+%2C".
Proof. vm_compute. reflexivity. Qed.

Example clean_isbn :
  _clean_search_term (VStr "  Intro to  C++: 2nd ed. ISBN: 978-0-13-110362-7 x")
  = Ok "Intro+to+C%2B%2B%3A+.+x".
Proof. vm_compute. reflexivity. Qed.

Example clean_number_raises :
  _clean_search_term (VInt 5)
  = Raise (Exn "AttributeError" "'int' object has no attribute 'strip'").
Proof. reflexivity. Qed.

Example shelved_copies :
  _check_availability shelved_doc
  = VDict [ ("available", VBool true);
            ("locations", VList [VStr "King Library"]);
            ("online_access", VBool false);
            ("physical_copies", VInt 2);
            ("delivery_category", VList []) ].
Proof. vm_compute. reflexivity. Qed.

Example title_and_author_query :
  snd (_search_single_item library no_docs []
         (VStr "Psychology: The Science of Mind and Behaviour") (VStr "Passer"))
  = [Request "https://primo.example.edu/v1/search"
       [ ("apikey", Some "l8xx");
         ("q", Some "title,contains,Psychology%3A+The+Science+of+Mind+and+Behaviour;AND;creator,contains,Passer");
         ("tab", Some "Everything");
         ("scope", Some "MyInst_and_CI");
         ("vid", Some "01EX_INST:MAIN");
         ("lang", Some "en");
         ("offset", Some "0");
         ("limit", Some "5");
         ("sort", Some "rank") ]].
Proof. vm_compute. reflexivity. Qed.

End Checks.

(** ** Strings and the matcher *)

Section StringFacts.

Lemma append_nil_r (s : string) : s ++ "" = s.
Proof. induction s as [|c s IH]; simpl; [reflexivity | now rewrite IH]. Qed.

Lemma append_assoc (a b c : string) : (a ++ b) ++ c = a ++ b ++ c.
Proof. induction a as [|x a IH]; simpl; [reflexivity | now rewrite IH]. Qed.

Lemma length_append (a b : string) :
  String.length (a ++ b) = String.length a + String.length b.
Proof. induction a as [|x a IH]; simpl; [reflexivity | now rewrite IH]. Qed.

Lemma take_append (a b : string) : Str.take (String.length a) (a ++ b) = a.
Proof. induction a as [|x a IH]; simpl; [now destruct b | now rewrite IH]. Qed.

Lemma consumed_append (w s : string) : Re.consumed (w ++ s) s = w.
Proof.
  unfold Re.consumed. rewrite length_append.
  replace (String.length w + String.length s - String.length s)
    with (String.length w) by lia.
  apply take_append.
Qed.

Lemma append_inj_l (a b c : string) : a ++ b = a ++ c -> b = c.
Proof. induction a as [|x a IH]; simpl; [easy|]. intros [= H]. now apply IH. Qed.

Lemma append_inj_r (a b c : string) : a ++ c = b ++ c -> a = b.
Proof.
  revert b. induction a as [|x a IH]; intros [|y b] H.
  - reflexivity.
  - apply (f_equal String.length) in H. simpl in H.
    rewrite length_append in H. lia.
  - apply (f_equal String.length) in H. simpl in H.
    rewrite length_append in H. lia.
  - simpl in H. injection H as -> H. now rewrite (IH b H).
Qed.

Lemma append_eq_append (u1 v1 u2 v2 : string) :
  u1 ++ v1 = u2 ++ v2 -> String.length u1 <= String.length u2 ->
  exists d, u2 = u1 ++ d /\ v1 = d ++ v2.
Proof.
  revert u2. induction u1 as [|c u1 IH]; intros u2 E Hlen.
  - exists u2. now split.
  - destruct u2 as [|c2 u2]; [simpl in Hlen; lia|].
    cbn [String.append] in E. injection E as <- E.
    destruct (IH u2 E) as (d & -> & ->); [simpl in Hlen; lia|].
    exists d. now split.
Qed.

Lemma append_eq_same_length (u1 v1 u2 v2 : string) :
  u1 ++ v1 = u2 ++ v2 -> String.length u1 = String.length u2 ->
  u1 = u2 /\ v1 = v2.
Proof.
  intros E Hlen. destruct (append_eq_append _ _ _ _ E) as (d & -> & ->); [lia|].
  rewrite length_append in Hlen.
  destruct d; [now rewrite append_nil_r | simpl in Hlen; lia].
Qed.





End StringFacts.

Module ReFacts.

Import Re Invariants.








End ReFacts.

(** ** Facts about dictionaries *)

Section DictFacts.

Lemma lookup_store_same (d : Py.dict) (k : string) (v : value) :
  Py.lookup (Py.store d k v) k = Some v.
Proof.
  induction d as [|[k' v'] d IH]; simpl.
  - now rewrite String.eqb_refl.
  - destruct (String.eqb k' k) eqn:E; simpl.
    + now rewrite String.eqb_refl.
    + now rewrite E.
Qed.

Lemma lookup_store_other (d : Py.dict) (k k' : string) (v : value) :
  k <> k' -> Py.lookup (Py.store d k v) k' = Py.lookup d k'.
Proof.
  intros Hne. induction d as [|[k0 v0] d IH]; simpl.
  - destruct (String.eqb_spec k k'); [contradiction | reflexivity].
  - destruct (String.eqb_spec k0 k) as [->|Hk]; simpl.
    + destruct (String.eqb_spec k k'); [contradiction | reflexivity].
    + destruct (String.eqb_spec k0 k'); [reflexivity | assumption].
Qed.

Lemma lookup_remove_other (d : Py.dict) (k k' : string) :
  k <> k' -> Py.lookup (Py.remove d k) k' = Py.lookup d k'.
Proof.
  intros Hne. induction d as [|[k0 v0] d IH]; simpl; [reflexivity|].
  destruct (String.eqb_spec k0 k) as [->|Hk]; simpl.
  - destruct (String.eqb_spec k k'); [contradiction | reflexivity].
  - destruct (String.eqb_spec k0 k'); [reflexivity | assumption].
Qed.

End DictFacts.

(** ** The heuristic extractor *)

Module ExtractorFacts.

Import Extractor.




Lemma heuristic_parse_shape (text : string) :
  exists year semester class_name class_number instructor university,
    heuristic_parse text =
      VDict [ ("year", VStr year);
              ("semester", VStr semester);
              ("class_name", VStr class_name);
              ("class_number", VStr class_number);
              ("instructor", VStr instructor);
              ("university", VStr university);
              ("main_topic", VStr "Unknown");
              ("reading_materials", VList []) ].
Proof. eexists _, _, _, _, _, _. unfold heuristic_parse. reflexivity. Qed.

Lemma finish_row_dict (w : services) (f : pdf_file) (d : Py.dict) :
  exists row, finish_row w f (VDict d) = Ok row
              /\ field row "filename" = Some (VStr (name f)).
Proof.
  unfold finish_row. simpl. eexists. split; [reflexivity|]. simpl.
  rewrite lookup_remove_other by discriminate.
  rewrite lookup_store_other by discriminate.
  apply lookup_store_same.
Qed.

(** C8, at the input where it fails: for the address jdoe@cs.miami.edu the
    captured domain is cs.miami.edu, the label before the top-level domain
    is "miami", and [heuristic_parse] reports the first label, "CS". *)
Theorem university_is_first_label_of_domain :
  Re.search_group EMAIL_RE "Contact: jdoe@cs.miami.edu" = Some "cs.miami.edu"
  /\ Str.upper (Claimed.label_before_tld "cs.miami.edu") = "MIAMI"
  /\ field (heuristic_parse "Contact: jdoe@cs.miami.edu") "university"
     = Some (VStr "CS").
Proof. repeat split; vm_compute; reflexivity. Qed.

(** C1, as stated, fails. With no client configured, a document whose
    only mention of the term is inside a table gets the record that
    [heuristic_parse] extracts from the body text, with semester
    "Unknown", and not the one it would extract from the normalized text,
    whose semester is "Fall"; and a file that cannot be opened yields no
    record at all. *)
Lemma fallback_ignores_tables_and_unreadable_file_has_no_record :
  call_llm_for_metadata offline
    (combine "Syllabus" ["| Term | Fall 2023 |"])
    = Raise (Exn "Exception" "OpenAI client not initialized - API key missing")
  /\ option_map (fun row => field row "semester")
       (process_pdf offline syllabus_with_table) = Some (Some (VStr "Unknown"))
  /\ option_map (fun row => field row "semester")
       (Claimed.fallback_on_normalized_text offline syllabus_with_table
          "Syllabus" ["| Term | Fall 2023 |"]) = Some (Some (VStr "Fall"))
  /\ process_pdf offline syllabus_with_table
     <> Claimed.fallback_on_normalized_text offline syllabus_with_table
          "Syllabus" ["| Term | Fall 2023 |"]
  /\ process_pdf offline unreadable_pdf = None.
Proof.
  repeat split; try (vm_compute; reflexivity).
  vm_compute. discriminate.
Qed.

(** C1, amended. For a document that can be opened, AI extraction is
    attempted on the normalized text (body text, then the table markdown);
    when that attempt raises, the record is the one [heuristic_parse]
    extracts from the body text alone, with the file name attached (and
    the empty reading list serialized for the CSV row); when the attempt
    returns a JSON object, a record with the file name attached is
    returned. The step never raises: [process_pdf] always returns, a row
    or nothing. For a document without text the fallback record is the
    all-"Unknown" one. *)
Theorem extract_metadata_falls_back_on_body_text
    (w : services) (f : pdf_file) (doc : list page) :
  fitz_open f = Ok doc ->
  let text := Str.join NL (List.map get_text doc) in
  let combined_text := combine text (List.flat_map page_tables doc) in
  (forall e, call_llm_for_metadata w combined_text = Raise e ->
     exists year semester class_name class_number instructor university,
       heuristic_parse text =
         VDict [ ("year", VStr year);
                 ("semester", VStr semester);
                 ("class_name", VStr class_name);
                 ("class_number", VStr class_number);
                 ("instructor", VStr instructor);
                 ("university", VStr university);
                 ("main_topic", VStr "Unknown");
                 ("reading_materials", VList []) ]
       /\ process_pdf w f =
            Some (VDict [ ("year", VStr year);
                          ("semester", VStr semester);
                          ("class_name", VStr class_name);
                          ("class_number", VStr class_number);
                          ("instructor", VStr instructor);
                          ("university", VStr university);
                          ("main_topic", VStr "Unknown");
                          ("filename", VStr (name f));
                          ("reading_materials_json",
                           VStr (json_dumps w (VList []))) ])
       /\ (text = "" ->
           year = "Unknown" /\ semester = "Unknown" /\ class_name = "Unknown"
           /\ class_number = "Unknown" /\ instructor = "Unknown"
           /\ university = "Unknown"))
  /\ (forall d, call_llm_for_metadata w combined_text = Ok (VDict d) ->
        exists row, process_pdf w f = Some row
                    /\ finish_row w f (VDict d) = Ok row
                    /\ field row "filename" = Some (VStr (name f))).
Proof.
  intros Hopen text combined_text. split.
  - intros e Hllm.
    destruct (heuristic_parse_shape text)
      as (y & s & cn & cnum & i & u & Hshape).
    exists y, s, cn, cnum, i, u. split; [assumption|]. split.
    + unfold process_pdf, process_body, extract_text_from_pdf,
        extract_tables_from_pdf. rewrite Hopen.
      cbn -[heuristic_parse call_llm_for_metadata combine Str.join finish_row].
      fold text. fold combined_text. rewrite Hllm.
      cbn -[heuristic_parse finish_row]. rewrite Hshape. reflexivity.
    + intros Hempty. rewrite Hempty in Hshape.
      vm_compute in Hshape. injection Hshape as <- <- <- <- <- <-.
      repeat split.
  - intros d Hllm.
    destruct (finish_row_dict w f d) as (row & Hrow & Hname).
    exists row. split; [|split; assumption].
    unfold process_pdf, process_body, extract_text_from_pdf,
      extract_tables_from_pdf. rewrite Hopen.
    cbn -[heuristic_parse call_llm_for_metadata combine Str.join finish_row].
    fold text. fold combined_text. rewrite Hllm.
    cbn -[finish_row]. now rewrite Hrow.
Qed.

(** the amended C1 at a one-page document read without a client *)
Lemma extract_metadata_falls_back_on_body_text_witness :
  fitz_open syllabus_with_table
    = Ok [Page "Syllabus" (Ok [Ok (Some "| Term | Fall 2023 |")])]
  /\ exists row, process_pdf offline syllabus_with_table = Some row
                 /\ field row "filename" = Some (VStr "cs101.pdf").
Proof.
  split; [reflexivity|].
  destruct (extract_metadata_falls_back_on_body_text offline syllabus_with_table
              [Page "Syllabus" (Ok [Ok (Some "| Term | Fall 2023 |")])]
              eq_refl) as [Hfallback _].
  destruct (Hfallback (Exn "Exception" "OpenAI client not initialized - API key missing")
              eq_refl)
    as (y & s & cn & cnum & i & u & _ & Hrow & _).
  eexists. split; [exact Hrow | reflexivity].
Defined.

End ExtractorFacts.

(** ** The availability matcher *)

Module PrimoFacts.

Import Primo Invariants.

(** the three shapes of a report *)
Lemma report_shape (c : client) (net : transport) (metadata report : value) sent :
  search_by_metadata c net metadata = (Ok report, sent) ->
  report = no_materials_report metadata
  \/ (exists e, report = error_report metadata e)
  \/ (exists total found st, report = success_report metadata total found st).
Proof.
  unfold search_by_metadata.
  destruct (session_open c); simpl; [|discriminate].
  destruct (search_body c net metadata) as [outcome sent'] eqn:E.
  intros [= <- <-].
  destruct outcome as [r|e]; simpl; [|right; left; now exists e].
  unfold search_body in E.
  destruct (Py.get metadata "reading_materials" (VList [])) as [rm|e]; [|discriminate].
  destruct (negb (Py.truthy rm)).
  { injection E as <- <-. now left. }
  destruct (Py.iter rm) as [ms|e]; [|discriminate].
  destruct (for_materials c net ms start) as [st|e s']; [|discriminate].
  destruct (found_results (results st)) as [found|e]; simpl in E; [|discriminate].
  destruct (Py.len rm) as [total|e]; simpl in E; [|discriminate].
  injection E as <- <-. right. right. now exists total, found, st.
Qed.

(** C2, as stated, fails: on a client that was not entered as a context
    manager the call raises [RuntimeError] to its caller. *)
Lemma search_without_session_raises :
  fst (search_by_metadata library_not_entered unreachable
         (VDict [("reading_materials", VList [VStr "Cognitive Psychology"])]))
  = Raise (Exn "RuntimeError"
             "PrimoAPIClient must be used as async context manager").
Proof. reflexivity. Qed.

(** C2, amended. On a client whose session is open, [search_by_metadata]
    returns a report for every metadata input and never raises: whatever
    is raised while the record is processed is turned into the report with
    found = false, the error string, the metadata echoed back and an empty
    library_matches list; otherwise the report is the one that the body
    computed. *)
Theorem search_by_metadata_turns_failures_into_reports
    (c : client) (net : transport) (metadata : value) :
  session_open c = true ->
  exists report sent,
    search_by_metadata c net metadata = (Ok report, sent)
    /\ (forall e, fst (search_body c net metadata) = Raise e ->
          report = error_report metadata e
          /\ field report "found" = Some (VBool false)
          /\ field report "error" = Some (VStr (msg e))
          /\ field report "metadata" = Some metadata
          /\ field report "library_matches" = Some (VList []))
    /\ (forall r, fst (search_body c net metadata) = Ok r -> report = r).
Proof.
  intros Hopen. unfold search_by_metadata. rewrite Hopen. simpl.
  destruct (search_body c net metadata) as [outcome sent].
  eexists _, _. split; [reflexivity|]. simpl. split.
  - intros e ->. simpl. repeat split.
  - intros r ->. reflexivity.
Qed.

(** the amended C2 at a record whose reading list is a number *)
Lemma search_by_metadata_turns_failures_into_reports_witness :
  session_open library = true
  /\ exists report sent,
       search_by_metadata library unreachable
         (VDict [("reading_materials", VInt 7)]) = (Ok report, sent)
       /\ field report "error" = Some (VStr "'int' object is not iterable").
Proof.
  split; [reflexivity|].
  destruct (search_by_metadata_turns_failures_into_reports library unreachable
              (VDict [("reading_materials", VInt 7)]) eq_refl)
    as (report & sent & Hrun & Hfail & _).
  exists report, sent. split; [exact Hrun|].
  destruct (Hfail (Exn "TypeError" "'int' object is not iterable") eq_refl)
    as (_ & _ & Herr & _).
  exact Herr.
Defined.

(** C10, amended. With an open session, a metadata dictionary whose
    reading_materials entry is missing or is the empty list gets the error
    report: found = false, the error string "No reading materials found in
    metadata", the metadata echoed back and an empty library_matches, with
    no total_materials and no found_materials key, and without a request
    being sent; a report without an error key does have both keys. *)
Theorem empty_reading_list_report
    (c : client) (net : transport) (d : Py.dict) :
  session_open c = true ->
  Py.lookup d "reading_materials" = None
  \/ Py.lookup d "reading_materials" = Some (VList []) ->
  exists report,
    search_by_metadata c net (VDict d) = (Ok report, [])
    /\ report = VDict [ ("found", VBool false);
                        ("error", VStr "No reading materials found in metadata");
                        ("metadata", VDict d);
                        ("library_matches", VList []) ]
    /\ field report "total_materials" = None
    /\ field report "found_materials" = None
    /\ (forall metadata' report' sent,
          search_by_metadata c net metadata' = (Ok report', sent) ->
          field report' "error" = None ->
          exists total found,
            field report' "total_materials" = Some (VInt total)
            /\ field report' "found_materials" = Some (VInt found)).
Proof.
  intros Hopen Hrm. eexists. split; [|split; [reflexivity|]].
  - unfold search_by_metadata. rewrite Hopen. simpl.
    unfold search_body. simpl. unfold Py.get_or.
    destruct Hrm as [-> | ->]; reflexivity.
  - repeat split.
    intros metadata' report' sent Hrun Herr.
    destruct (report_shape _ _ _ _ _ Hrun)
      as [-> | [(e & ->) | (total & found & st & ->)]];
      try discriminate.
    eexists _, _. split; reflexivity.
Qed.

(** C10 at a record that has no reading_materials key *)
Lemma empty_reading_list_report_witness :
  session_open library = true
  /\ exists report,
       search_by_metadata library unreachable
         (VDict [("class_name", VStr "Introduction to Psychology")])
       = (Ok report, [])
       /\ field report "total_materials" = None.
Proof.
  split; [reflexivity|].
  destruct (empty_reading_list_report library unreachable
              [("class_name", VStr "Introduction to Psychology")]
              eq_refl (or_introl eq_refl))
    as (report & Hrun & _ & Htotal & _).
  exists report. split; [exact Hrun | exact Htotal].
Defined.

(** C10, as stated, fails: on a client that was not entered as a context
    manager, a record without a reading list gets no report at all, the
    call raises [RuntimeError] before the record is looked at. *)
Lemma empty_reading_list_without_session_raises :
  Py.lookup [("class_name", VStr "Introduction to Psychology")] "reading_materials"
  = None
  /\ search_by_metadata library_not_entered unreachable
       (VDict [("class_name", VStr "Introduction to Psychology")])
     = (Raise (Exn "RuntimeError"
                 "PrimoAPIClient must be used as async context manager"), [])
  /\ search_by_metadata library_not_entered unreachable
       (VDict [("reading_materials", VList [])])
     = (Raise (Exn "RuntimeError"
                 "PrimoAPIClient must be used as async context manager"), []).
Proof. repeat split. Qed.

(** *** The loop over the reading list *)

Lemma for_materials_app (c : client) (net : transport) (l1 l2 : list value) :
  forall st,
    for_materials c net (l1 ++ l2)%list st =
    match for_materials c net l1 st with
    | Done st' => for_materials c net l2 st'
    | Failed e sent => Failed e sent
    end.
Proof.
  induction l1 as [|m l1 IH]; intros st; simpl; [reflexivity|].
  destruct (process_material c net m st); [apply IH | reflexivity].
Qed.

Lemma for_materials_without (c : client) (net : transport)
    (m : value) (l1 l2 : list value) :
  (forall st, process_material c net m st = Done st) ->
  forall st,
    for_materials c net (l1 ++ m :: l2)%list st
    = for_materials c net (l1 ++ l2)%list st.
Proof.
  intros Hskip st. rewrite !for_materials_app.
  destruct (for_materials c net l1 st) as [st'|e sent]; [|reflexivity].
  simpl. now rewrite Hskip.
Qed.

Lemma classify_equipment (item : Py.dict) (requirement material_type : string) :
  Py.get_or item "requirement" (VStr "") = VStr requirement ->
  Py.get_or item "type" (Py.get_or item "media_type" (VStr "")) = VStr material_type ->
  Str.lower requirement = "equipment" \/ Str.lower material_type = "equipment" ->
  classify (VDict item) = Ok Skip.
Proof.
  intros Hreq Htype Heq. unfold classify. rewrite Htype, Hreq. simpl.
  destruct Heq as [-> | ->]; simpl; [reflexivity|].
  now rewrite orb_true_r.
Qed.

Lemma usable_url_true (u : string) :
  u <> "" -> ~ In (Str.lower u) url_placeholders ->
  usable_url (VStr u) = Ok true.
Proof.
  intros Hne Hout. unfold usable_url. simpl.
  destruct (String.eqb_spec u ""); [contradiction|]. simpl.
  do 2 f_equal.
  destruct (String.eqb_spec (Str.lower u) "unknown") as [E|_];
    [exfalso; apply Hout; rewrite E; simpl; tauto|].
  destruct (String.eqb_spec (Str.lower u) "") as [E|_];
    [exfalso; apply Hout; rewrite E; simpl; tauto|].
  destruct (String.eqb_spec (Str.lower u) "none") as [E|_];
    [exfalso; apply Hout; rewrite E; simpl; tauto|].
  reflexivity.
Qed.

Lemma classify_resolved (item : Py.dict) (requirement material_type u : string) :
  Py.get_or item "requirement" (VStr "") = VStr requirement ->
  Py.get_or item "type" (Py.get_or item "media_type" (VStr "")) = VStr material_type ->
  Str.lower requirement <> "equipment" ->
  Str.lower material_type <> "equipment" ->
  Py.get_or item "url" (VStr "") = VStr u ->
  u <> "" -> ~ In (Str.lower u) url_placeholders ->
  classify (VDict item) =
    Ok (Resolved
          (match_entry (Py.get_or item "title" (VStr "")) score_resolved
             [online_match (Py.get_or item "title" (VStr ""))
                (Py.get_or item "creator" (VStr "")) (VStr u)])).
Proof.
  intros Hreq Htype Hr Ht Hurl Hne Hout. unfold classify.
  rewrite Htype, Hreq, Hurl. simpl.
  destruct (String.eqb_spec (Str.lower requirement) "equipment"); [contradiction|].
  destruct (String.eqb_spec (Str.lower material_type) "equipment"); [contradiction|].
  simpl. now rewrite (usable_url_true u Hne Hout).
Qed.

(** *** What the loop keeps true *)

Lemma not_found_error_ok (title : value) (m : string) :
  search_result_ok (not_found_error title m).
Proof.
  exists [("found", d_false); ("error", VStr m); ("title", title)], false.
  repeat split. discriminate.
Qed.

Lemma parse_docs_length (docs : list value) :
  forall rs, parse_docs docs = Ok rs -> List.length rs = List.length docs.
Proof.
  induction docs as [|doc docs IH]; intros rs H; simpl in H.
  - now injection H as <-.
  - destruct (parse_doc doc) as [r|e]; simpl in H; [|discriminate].
    destruct (parse_docs docs) as [rs'|e]; simpl in H; [|discriminate].
    injection H as <-. simpl. f_equal. now apply IH.
Qed.

(** the branches that end in a dictionary with [found] false *)
Ltac found_false := eexists _, false; repeat split; discriminate.

Lemma parse_search_results_ok (data title author : value) :
  search_result_ok (_parse_search_results data title author).
Proof.
  unfold _parse_search_results.
  destruct (Py.get data "docs" (VList [])) as [docs|e]; simpl;
    [|found_false].
  destruct (negb (Py.truthy docs)) eqn:Htruthy; simpl;
    [found_false|].
  destruct (top3 docs) as [top|e] eqn:Htop; simpl;
    [|found_false].
  destruct (Py.iter top) as [tops|e] eqn:Hiter; simpl;
    [|found_false].
  destruct (parse_docs tops) as [rs|e] eqn:Hparse; simpl;
    [|found_false].
  destruct (Py.get data "info" (VDict [])) as [info|e]; simpl;
    [|found_false].
  destruct info; simpl; try found_false.
  destruct (Py.len docs) as [n|e]; simpl;
    [|found_false].
  eexists _, true. split; [reflexivity|]. split; [reflexivity|]. intros _.
  simpl.
  assert (Hne : rs <> []).
  { destruct docs as [| | | |s|l|dd]; simpl in Htop; try discriminate;
      injection Htop as <-; simpl in Hiter; injection Hiter as <-.
    - destruct s as [|ch s]; [discriminate|].
      simpl in Hparse. discriminate.
    - destruct l as [|x l]; [discriminate|].
      apply parse_docs_length in Hparse. simpl in Hparse.
      destruct rs; [discriminate | discriminate]. }
  destruct rs as [|r rs]; [contradiction|]. now exists r, rs.
Qed.

Lemma search_single_item_ok (c : client) (net : transport)
    (sent : list request) (title author : value) :
  search_result_ok (fst (_search_single_item c net sent title author)).
Proof.
  unfold _search_single_item.
  destruct (query_parts title author) as [[|part parts]|e]; simpl;
    try apply not_found_error_ok.
  destruct (negb (session_open c)); simpl; [apply not_found_error_ok|].
  match goal with |- context [net ?n ?r] => destruct (net n r) as [e|status json text] end;
    simpl; [apply not_found_error_ok|].
  destruct (status =? 200)%Z.
  - destruct json; simpl; [apply parse_search_results_ok | apply not_found_error_ok].
  - destruct text; simpl; apply not_found_error_ok.
Qed.

Lemma library_matches_of_length (rs : list value) :
  forall ms, library_matches_of rs = Ok ms -> List.length ms = List.length rs.
Proof.
  induction rs as [|r rs IH]; intros ms H; simpl in H.
  - now injection H as <-.
  - destruct (library_match r) as [m|e]; simpl in H; [|discriminate].
    destruct (library_matches_of rs) as [ms'|e]; simpl in H; [|discriminate].
    injection H as <-. simpl. f_equal. now apply IH.
Qed.

(** what one search adds to the two lists *)
Lemma entry_of_search_ok (title material : value) (d : Py.dict) (b : bool) entry :
  Py.lookup d "found" = Some (VBool b) ->
  (b = true -> exists r rs, Py.lookup d "results" = Some (VList (r :: rs))) ->
  entry_of_search title (VDict (Py.store d "original_material" material)) = Ok entry ->
  is_found (VDict (Py.store d "original_material" material)) = b
  /\ is_api_hit entry = b
  /\ entry_ok entry
  /\ (b = false -> entry = match_entry title score_not_found []).
Proof.
  intros Hfound Hres. unfold entry_of_search, found_with_results, is_found.
  simpl. unfold Py.get_or.
  rewrite !lookup_store_other by discriminate. rewrite Hfound. simpl.
  destruct b; simpl.
  - destruct (Hres eq_refl) as (r & rs & ->). simpl.
    destruct (library_match r) as [m|e]; simpl; [|discriminate].
    destruct (library_matches_of rs) as [ms|e]; simpl; [|discriminate].
    intros [= <-]. repeat split. discriminate.
  - intros [= <-]. repeat split.
Qed.

Lemma search_and_record_consistent (c : client) (net : transport)
    (material title author : value) (st st' : progress) :
  consistent st ->
  search_and_record c net material title author st = Done st' ->
  consistent st'.
Proof.
  intros [Hd Hh He]. unfold search_and_record.
  destruct (Py.truthy title); [|now intros [= <-]].
  destruct (has_key c).
  - pose proof (search_single_item_ok c net (calls st) title author) as Hok.
    destruct (_search_single_item c net (calls st) title author) as [sr sent].
    simpl in Hok. destruct Hok as (d & b & -> & Hfound & Hres).
    simpl.
    destruct (entry_of_search title (VDict (Py.store d "original_material" material)))
      as [entry|e] eqn:Hentry; simpl; [|discriminate].
    intros [= <-].
    destruct (entry_of_search_ok _ _ _ _ _ Hfound Hres Hentry)
      as (Hf & Hhit & Hentry_ok & _).
    constructor; simpl.
    + apply Forall_app. split; [assumption|].
      constructor; [reflexivity | constructor].
    + rewrite !filter_app, !length_app. simpl. rewrite Hf, Hhit.
      destruct b; simpl; lia.
    + apply Forall_app. split; [assumption|].
      constructor; [exact Hentry_ok | constructor].
  - intros [= <-]. constructor; simpl; try assumption.
    + rewrite filter_app, length_app. simpl. lia.
    + apply Forall_app. split; [assumption|].
      constructor; [split; reflexivity | constructor].
Qed.

Lemma process_material_consistent (c : client) (net : transport)
    (material : value) (st st' : progress) :
  consistent st ->
  process_material c net material st = Done st' ->
  consistent st'.
Proof.
  intros Hst. unfold process_material.
  destruct (classify material) as [[|entry|title author]|e] eqn:Hc.
  - now intros [= <-].
  - intros [= <-]. destruct Hst as [Hd Hh He].
    assert (Hentry : entry_ok entry /\ is_api_hit entry = false).
    { unfold classify in Hc.
      destruct material as [| | | | |l|m]; try discriminate.
      destruct (Py.lower (Py.get_or m "type" (Py.get_or m "media_type" (VStr ""))))
        as [t|e]; simpl in Hc; [|discriminate].
      destruct (Py.lower (Py.get_or m "requirement" (VStr "")))
        as [r|e]; simpl in Hc; [|discriminate].
      destruct (String.eqb r "equipment" || String.eqb t "equipment");
        [discriminate|].
      destruct (usable_url (Py.get_or m "url" (VStr ""))) as [[|]|e];
        simpl in Hc; try discriminate.
      injection Hc as <-. repeat split. }
    destruct Hentry as [Hentry Hhit].
    constructor; simpl; try assumption.
    + rewrite filter_app, length_app. simpl. rewrite Hhit. simpl. lia.
    + apply Forall_app. split; [assumption|].
      constructor; [exact Hentry | constructor].
  - now apply search_and_record_consistent.
  - discriminate.
Qed.

Lemma for_materials_consistent (c : client) (net : transport)
    (materials : list value) :
  forall st st',
    consistent st ->
    for_materials c net materials st = Done st' ->
    consistent st'.
Proof.
  induction materials as [|m ms IH]; intros st st' Hst; simpl.
  - now intros [= <-].
  - destruct (process_material c net m st) as [st1|e sent] eqn:Hm; [|discriminate].
    apply IH. now apply process_material_consistent with c net m st.
Qed.

Lemma start_consistent : consistent start.
Proof. constructor; simpl; [constructor | reflexivity | constructor]. Qed.

Lemma found_results_filter (rs : list value) :
  Forall (fun r => Py.is_dict r = true) rs ->
  found_results rs = Ok (List.filter is_found rs).
Proof.
  induction 1 as [|r rs Hr _ IH]; simpl; [reflexivity|].
  destruct r; try discriminate. simpl. rewrite IH. simpl.
  unfold is_found, Py.get_or. simpl.
  destruct (Py.lookup d "found") as [v|]; reflexivity.
Qed.

(** the report of a run whose loop came to its end *)
Lemma search_by_metadata_done (c : client) (net : transport)
    (metadata : value) (m : value) (ms : list value) (st : progress) :
  session_open c = true ->
  Py.get metadata "reading_materials" (VList []) = Ok (VList (m :: ms)) ->
  for_materials c net (m :: ms) start = Done st ->
  search_by_metadata c net metadata =
    (Ok (success_report metadata (List.length (m :: ms))
           (List.filter is_found (results st)) st), calls st).
Proof.
  intros Hopen Hget Hloop.
  unfold search_by_metadata, search_body. rewrite Hopen, Hget.
  cbn -[for_materials start]. rewrite Hloop.
  rewrite found_results_filter; [reflexivity|].
  apply (results_are_dicts st).
  eapply for_materials_consistent; [apply start_consistent | exact Hloop].
Qed.

(** *** Equipment *)

(** C3, as stated, fails: an item whose media_type is "equipment" is
    searched like any other when it also has a type field that says
    something else, and then it appears in library_matches. *)
Lemma equipment_media_type_behind_type_is_searched :
  exists report sent,
    search_by_metadata library no_docs (reading_list [goggles_typed_as_book])
      = (Ok report, sent)
    /\ field report "library_matches"
       = Some (VList [match_entry (VStr "Safety goggles") score_not_found []])
    /\ List.length sent = 1.
Proof.
  eexists _, _. split; [vm_compute; reflexivity|]. split; reflexivity.
Qed.

(** C3, amended. A reading item whose requirement, or whose type (the
    type field when it has one, the media_type field otherwise), is a
    string equal to "equipment" up to case is dropped: the turn of the
    loop records nothing and sends nothing, so the run is the run of the
    list without the item; and when that run comes to its end the report
    carries its results and library_matches, while total_materials is the
    length of the whole list, the dropped item included. *)
Theorem equipment_is_dropped_and_still_counted
    (c : client) (net : transport) (metadata : value) (item : Py.dict)
    (requirement material_type : string) (before after : list value) :
  session_open c = true ->
  Py.get metadata "reading_materials" (VList [])
    = Ok (VList (before ++ VDict item :: after)%list) ->
  Py.get_or item "requirement" (VStr "") = VStr requirement ->
  Py.get_or item "type" (Py.get_or item "media_type" (VStr "")) = VStr material_type ->
  Str.lower requirement = "equipment" \/ Str.lower material_type = "equipment" ->
  (forall st, process_material c net (VDict item) st = Done st)
  /\ for_materials c net (before ++ VDict item :: after)%list start
     = for_materials c net (before ++ after)%list start
  /\ (forall st,
        for_materials c net (before ++ after)%list start = Done st ->
        exists report,
          search_by_metadata c net metadata = (Ok report, calls st)
          /\ field report "library_matches" = Some (VList (library_matches st))
          /\ field report "results" = Some (VList (results st))
          /\ field report "total_materials"
             = Some (VInt (Z.of_nat (List.length before + 1 + List.length after)))).
Proof.
  intros Hopen Hget Hreq Htype Heq.
  assert (Hskip : forall st, process_material c net (VDict item) st = Done st).
  { intros st. unfold process_material.
    now rewrite (classify_equipment item requirement material_type). }
  split; [exact Hskip|]. split; [now apply for_materials_without|].
  intros st Hloop.
  rewrite <- (for_materials_without c net (VDict item) before after Hskip) in Hloop.
  assert (Hlen : List.length (before ++ VDict item :: after)%list
                 = List.length before + 1 + List.length after).
  { rewrite length_app. simpl. lia. }
  assert (Hlist : exists m ms, (before ++ VDict item :: after)%list = m :: ms).
  { destruct before; simpl; eauto. }
  destruct Hlist as (m & ms & Hlist). rewrite Hlist in Hget, Hloop, Hlen.
  eexists. split;
    [exact (search_by_metadata_done c net metadata m ms st Hopen Hget Hloop)|].
  repeat split. simpl field. now rewrite <- Hlen.
Qed.

(** the amended C3 at a list of a title and a lab coat *)
Lemma equipment_is_dropped_and_still_counted_witness :
  session_open library_without_key = true
  /\ exists report sent,
       search_by_metadata library_without_key unreachable
         (reading_list [VStr "Cognitive Psychology"; VDict lab_coat])
       = (Ok report, sent)
       /\ field report "total_materials" = Some (VInt 2)
       /\ field report "library_matches"
          = Some (VList [match_entry (VStr "Cognitive Psychology") score_not_found []]).
Proof.
  split; [reflexivity|].
  destruct (equipment_is_dropped_and_still_counted library_without_key unreachable
              (reading_list [VStr "Cognitive Psychology"; VDict lab_coat])
              lab_coat "required" "Equipment" [VStr "Cognitive Psychology"] []
              eq_refl eq_refl eq_refl eq_refl (or_intror eq_refl))
    as (_ & _ & Hreport).
  destruct (Hreport
              (Progress [] [match_entry (VStr "Cognitive Psychology") score_not_found []] [])
              eq_refl)
    as (report & Hrun & Hlm & _ & Htotal).
  exists report, []. split; [exact Hrun|]. split; [exact Htotal | exact Hlm].
Defined.

(** *** Items that carry their own url *)

(** C4, as stated, fails: an item with a usable url that is also
    equipment is dropped, and no match result is made for it. *)
Lemma equipment_with_url_gets_no_match_result :
  exists report,
    search_by_metadata library unreachable (reading_list [calculator_with_manual])
      = (Ok report, [])
    /\ field report "library_matches" = Some (VList []).
Proof. eexists. split; [vm_compute; reflexivity | reflexivity]. Qed.

(** C4, amended. A reading item that is not dropped as equipment (its
    requirement and its type are strings other than "equipment") and that
    carries a url, a non-empty string that in lower case is none of
    "unknown", "none" and "", gets exactly one match result: match score
    1.0 and a single match marked available, with format "Online
    Resource", location "Online" and the url as its link. No request is
    sent for it; a list made of this item alone is reported with zero
    requests. *)
Theorem url_item_is_resolved_without_query
    (c : client) (net : transport) (item : Py.dict)
    (requirement material_type u : string) (st : progress) :
  Py.get_or item "requirement" (VStr "") = VStr requirement ->
  Py.get_or item "type" (Py.get_or item "media_type" (VStr "")) = VStr material_type ->
  Str.lower requirement <> "equipment" ->
  Str.lower material_type <> "equipment" ->
  Py.get_or item "url" (VStr "") = VStr u ->
  u <> "" -> ~ In (Str.lower u) ["unknown"; "none"; ""] ->
  let title := Py.get_or item "title" (VStr "") in
  let author := Py.get_or item "creator" (VStr "") in
  let entry :=
    VDict [ ("originalQuery", title);
            ("matchScore", VFloat 1);
            ("matches",
             VList [VDict [ ("title", title);
                            ("authors", VList (if Py.truthy author then [author] else []));
                            ("availability", VStr "available");
                            ("format", VStr "Online Resource");
                            ("location", VStr "Online");
                            ("link", VStr u);
                            ("callNumber", VNone);
                            ("dueDate", VNone);
                            ("coverImage", VNone) ]]) ] in
  process_material c net (VDict item) st
    = Done (Progress (results st) (library_matches st ++ [entry])%list (calls st))
  /\ (session_open c = true ->
      exists report,
        search_by_metadata c net (VDict [("reading_materials", VList [VDict item])])
          = (Ok report, [])
        /\ field report "library_matches" = Some (VList [entry])).
Proof.
  intros Hreq Htype Hr Ht Hurl Hne Hout title author entry.
  assert (Hstep : forall st0,
            process_material c net (VDict item) st0
            = Done (Progress (results st0) (library_matches st0 ++ [entry])%list
                      (calls st0))).
  { intros st0. unfold process_material.
    rewrite (classify_resolved item requirement material_type u); try assumption.
    - reflexivity.
    - intros Hin. apply Hout. simpl in Hin. simpl. tauto. }
  split; [apply Hstep|].
  intros Hopen.
  assert (Hloop : for_materials c net [VDict item] start
                  = Done (Progress [] [entry] [])).
  { simpl. rewrite Hstep. reflexivity. }
  eexists. split;
    [exact (search_by_metadata_done c net
              (VDict [("reading_materials", VList [VDict item])])
              (VDict item) [] _ Hopen eq_refl Hloop)
    | reflexivity].
Qed.

(** the amended C4 at a book with a url *)
Lemma url_item_is_resolved_without_query_witness :
  exists report,
    search_by_metadata library unreachable
      (VDict [("reading_materials", VList [VDict online_book])]) = (Ok report, [])
    /\ field report "library_matches"
       = Some (VList [match_entry (VStr "Open Logic") 1
                        [online_match (VStr "Open Logic") (VStr "Zach")
                           (VStr "https://example.com/book")]]).
Proof.
  assert (Hout : ~ In (Str.lower "https://example.com/book") ["unknown"; "none"; ""]).
  { simpl. intros [H | [H | [H | []]]]; discriminate. }
  destruct (url_item_is_resolved_without_query library unreachable online_book
              "required" "books" "https://example.com/book" start
              eq_refl eq_refl
              ltac:(discriminate) ltac:(discriminate) eq_refl
              ltac:(discriminate) Hout)
    as (_ & Hreport).
  destruct (Hreport eq_refl) as (report & Hrun & Hlm).
  exists report. split; [exact Hrun | exact Hlm].
Defined.

(** *** Items that are searched and not found *)






(** *** The totals of a report *)

Lemma success_run (c : client) (net : transport) (metadata report : value) sent :
  search_by_metadata c net metadata = (Ok report, sent) ->
  field report "error" = None ->
  exists total st,
    consistent st
    /\ report = success_report metadata total (List.filter is_found (results st)) st.
Proof.
  unfold search_by_metadata.
  destruct (session_open c); simpl; [|discriminate].
  destruct (search_body c net metadata) as [outcome sent'] eqn:E.
  intros [= <- <-].
  destruct outcome as [r|e]; simpl; [|discriminate].
  unfold search_body in E.
  destruct (Py.get metadata "reading_materials" (VList [])) as [rm|e]; [|discriminate].
  destruct (negb (Py.truthy rm)).
  { injection E as <- <-. discriminate. }
  destruct (Py.iter rm) as [ms|e]; [|discriminate].
  destruct (for_materials c net ms start) as [st|e s'] eqn:Hloop; [|discriminate].
  assert (Hst : consistent st).
  { eapply for_materials_consistent; [apply start_consistent | exact Hloop]. }
  rewrite (found_results_filter _ (results_are_dicts st Hst)) in E. simpl in E.
  destruct (Py.len rm) as [total|e]; simpl in E; [|discriminate].
  injection E as <- <-. intros _. now exists total, st.
Qed.

Lemma matches_split (lm : list value) :
  Forall entry_ok lm ->
  List.length (List.filter has_matches lm)
  = List.length (List.filter is_api_hit lm)
    + List.length (List.filter is_resolved lm).
Proof.
  induction 1 as [|e lm [Hm Hx] _ IH]; simpl; [reflexivity|].
  rewrite Hm.
  destruct (is_api_hit e), (is_resolved e); simpl in *;
    try discriminate; lia.
Qed.

(** C5, as stated, fails: an item resolved by its own url carries a match
    and is not counted; the report of a list made of such an item alone
    has found = false and found_materials = 0. *)
Lemma resolved_url_item_is_not_counted :
  exists report entry,
    search_by_metadata library unreachable
      (VDict [("reading_materials", VList [VDict online_book])]) = (Ok report, [])
    /\ field report "error" = None
    /\ field report "found" = Some (VBool false)
    /\ field report "found_materials" = Some (VInt 0)
    /\ field report "library_matches" = Some (VList [entry])
    /\ has_matches entry = true.
Proof.
  eexists _, _. split; [vm_compute; reflexivity|]. repeat split.
Qed.

(** C5, amended. In every report without an error, found is true iff at
    least one searched item came back with results, and found_materials is
    the number of searched items that came back with results, that is the
    number of entries of library_matches with match score 0.8. Items
    resolved by their own url carry a match and are not counted: the
    entries that carry matches are those counted plus the pre-resolved
    ones. *)
Theorem found_counts_search_hits_only
    (c : client) (net : transport) (metadata report : value)
    (sent : list request) :
  search_by_metadata c net metadata = (Ok report, sent) ->
  field report "error" = None ->
  exists n lm,
    field report "library_matches" = Some (VList lm)
    /\ n = List.length (List.filter is_api_hit lm)
    /\ field report "found" = Some (VBool (0 <? n)%nat)
    /\ field report "found_materials" = Some (VInt (Z.of_nat n))
    /\ List.length (List.filter has_matches lm)
       = n + List.length (List.filter is_resolved lm).
Proof.
  intros Hrun Herr.
  destruct (success_run c net metadata report sent Hrun Herr)
    as (total & st & [Hd Hh He] & ->).
  exists (List.length (List.filter is_found (results st))), (library_matches st).
  split; [reflexivity|]. split; [exact Hh|]. split; [reflexivity|].
  split; [reflexivity|].
  rewrite Hh. now apply matches_split.
Qed.

(** the amended C5 at a list of a book with a url and a title that is found *)
Lemma found_counts_search_hits_only_witness :
  exists report sent n lm,
    search_by_metadata library one_doc
      (reading_list [VDict online_book; VStr "Cognitive Psychology"])
      = (Ok report, sent)
    /\ field report "library_matches" = Some (VList lm)
    /\ field report "found_materials" = Some (VInt (Z.of_nat n))
    /\ List.length (List.filter has_matches lm)
       = n + List.length (List.filter is_resolved lm).
Proof.
  eexists _, _.
  destruct (found_counts_search_hits_only library one_doc
              (reading_list [VDict online_book; VStr "Cognitive Psychology"])
              _ _ eq_refl eq_refl)
    as (n & lm & Hlm & _ & _ & Hn & Hsplit).
  exists n, lm. split; [reflexivity|]. split; [exact Hlm|]. split; [exact Hn | exact Hsplit].
Defined.

(** *** The availability judgment *)

Lemma py_in_strings (s : string) (l : list value) :
  Forall (fun v => Py.is_str v = true) l ->
  py_in (VStr s) l = true <-> In (VStr s) l.
Proof.
  induction 1 as [|v l Hv _ IH]; simpl; [now split|].
  destruct v; try discriminate. simpl.
  rewrite orb_true_iff, IH.
  destruct (String.eqb_spec s s0) as [->|Hne]; split; intros [H|H]; auto;
    try discriminate.
  injection H as <-. contradiction.
Qed.

Lemma count_items_spec (items : list value) :
  List.forallb Py.is_dict items = true ->
  forall a,
    count_items items a =
    Ok (Availability
          (available a || List.existsb item_available items)
          (locations a) (online_access a)
          (physical_copies a
           + Z.of_nat (List.length (List.filter item_available items)))
          (delivery_category a)).
Proof.
  induction items as [|item items IH]; intros Hok a; simpl.
  - rewrite orb_false_r, Z.add_0_r. now destruct a.
  - simpl in Hok. apply andb_true_iff in Hok as [Hitem Hok].
    destruct item; try discriminate. simpl.
    unfold item_available at 1 3. simpl. unfold Py.get_or.
    destruct (Py.lookup d "availability") as [status|]; simpl.
    + destruct (Py.eq_str status "available"); simpl.
      * rewrite (IH Hok). simpl. f_equal. f_equal; [|lia].
        now rewrite orb_true_r.
      * now rewrite (IH Hok).
    + now rewrite (IH Hok).
Qed.

Lemma visit_holding_spec (holding : value) (a : availability) :
  holding_ok holding = true ->
  Forall (fun v => Py.is_str v = true) (locations a) ->
  NoDup (locations a) ->
  exists a', visit_holding holding a = Ok a' /\ judged [holding] a a'.
Proof.
  intros Hok Hstr Hnd.
  destruct holding as [| | | | | |h]; try discriminate.
  simpl in Hok. apply andb_true_iff in Hok as [Hloc Hitems].
  unfold visit_holding. simpl. unfold Py.get_or.
  (* the location *)
  assert (Hplace : exists a1,
            (if Py.truthy (match Py.lookup h "location" with
                           | Some v => v | None => VDict [] end)
             then
               location_name <-
                 Py.get (match Py.lookup h "location" with
                         | Some v => v | None => VDict [] end)
                   "mainLocation" (VStr "Unknown") ;;
               (if negb (py_in location_name (locations a))
                then Ok (Availability (available a)
                           (locations a ++ [location_name])%list
                           (online_access a) (physical_copies a)
                           (delivery_category a))
                else Ok a)
             else Ok a) = Ok a1
            /\ available a1 = available a
            /\ online_access a1 = online_access a
            /\ physical_copies a1 = physical_copies a
            /\ delivery_category a1 = delivery_category a
            /\ Forall (fun v => Py.is_str v = true) (locations a1)
            /\ NoDup (locations a1)
            /\ (forall x, In x (locations a1)
                          <-> In x (locations a)
                              \/ In x (location_name_of (VDict h)))).
  { unfold location_name_of. simpl.
    destruct (Py.lookup h "location") as [loc|]; simpl.
    2:{ exists a. repeat split; auto. intros [H|[]]; assumption. }
    destruct loc as [| | | | | |loc]; try discriminate.
    destruct loc as [|entry loc]; simpl.
    { exists a. repeat split; auto. intros [H|[]]; assumption. }
    unfold Py.get_or.
    assert (Hname : exists s,
              match Py.lookup (entry :: loc) "mainLocation" with
              | Some v => v | None => VStr "Unknown" end = VStr s).
    { destruct (Py.lookup (entry :: loc) "mainLocation") as [v|]; [|eauto].
      destruct v; try discriminate. eauto. }
    destruct Hname as (s & ->).
    destruct (py_in (VStr s) (locations a)) eqn:Hin; simpl.
    - exists a. repeat split; auto.
      intros [H|[<-|[]]]; [assumption|].
      now apply py_in_strings.
    - eexists. split; [reflexivity|]. simpl. repeat split; auto.
      + apply Forall_app. split; [assumption | now repeat constructor].
      + apply NoDup_app_remove_l with (l := []). simpl.
        assert (Hnot : ~ In (VStr s) (locations a)).
        { intros H. apply py_in_strings in H; [congruence | assumption]. }
        clear - Hnd Hnot.
        induction (locations a) as [|y l IH]; simpl.
        * constructor; [intros [] | constructor].
        * inversion Hnd as [|? ? Hy Hl]; subst.
          constructor.
          -- rewrite in_app_iff. intros [H|[H|[]]]; [contradiction|].
             apply Hnot. now left.
          -- apply IH; [assumption|]. intros H. apply Hnot. now right.
      + rewrite in_app_iff. simpl. tauto.
      + rewrite in_app_iff. simpl. tauto. }
  destruct Hplace as (a1 & -> & Hav & Hon & Hcp & Hdc & Hs1 & Hn1 & Hin1).
  simpl.
  (* the items *)
  assert (Hlist : exists items,
            match Py.lookup h "items" with
            | Some v => v | None => VList [] end = VList items
            /\ items_of (VDict h) = items
            /\ List.forallb Py.is_dict items = true).
  { unfold items_of, list_at. simpl.
    destruct (Py.lookup h "items") as [v|]; [|now exists []].
    destruct v; try discriminate. now exists l. }
  destruct Hlist as (items & -> & Hitems_of & Hdicts). simpl.
  rewrite (count_items_spec items Hdicts a1).
  eexists. split; [reflexivity|].
  constructor; simpl; rewrite ?app_nil_r, ?Hitems_of; auto.
  - now rewrite Hav.
  - now rewrite Hcp.
Qed.

Lemma judged_nil (a : availability) :
  Forall (fun v => Py.is_str v = true) (locations a) ->
  NoDup (locations a) ->
  judged [] a a.
Proof.
  intros Hs Hn. constructor; simpl; auto.
  - now rewrite orb_false_r.
  - now rewrite Z.add_0_r.
  - tauto.
Qed.

Lemma judged_cons (h : value) (hs : list value) (a a1 a' : availability) :
  judged [h] a a1 -> judged hs a1 a' -> judged (h :: hs) a a'.
Proof.
  intros [Ha Ho Hc Hd _ _ Hn] [Ha' Ho' Hc' Hd' Hs' Hnd' Hn'].
  simpl in Ha, Hc, Hn. rewrite app_nil_r in Ha, Hc, Hn.
  constructor; simpl; auto.
  - rewrite Ha', Ha, existsb_app. now rewrite orb_assoc.
  - congruence.
  - rewrite Hc', Hc, filter_app, length_app. lia.
  - congruence.
  - intros x. rewrite Hn', Hn, in_app_iff. tauto.
Qed.

Lemma visit_holdings_spec (hs : list value) :
  List.forallb holding_ok hs = true ->
  forall a,
    Forall (fun v => Py.is_str v = true) (locations a) ->
    NoDup (locations a) ->
    exists a', visit_holdings hs a = Ok a' /\ judged hs a a'.
Proof.
  induction hs as [|h hs IH]; intros Hok a Hs Hn; simpl.
  - exists a. split; [reflexivity | now apply judged_nil].
  - simpl in Hok. apply andb_true_iff in Hok as [Hh Hok].
    destruct (visit_holding_spec h a Hh Hs Hn) as (a1 & -> & J1). simpl.
    destruct (IH Hok a1 (judged_strings _ _ _ J1) (judged_nodup _ _ _ J1))
      as (a' & -> & J').
    exists a'. split; [reflexivity | now apply judged_cons with a1].
Qed.

(** C6, amended. For a result document of the shape the discovery service
    documents (an optional delivery record with optional category and link
    lists, and an optional list of holdings, each with an optional
    location record and an optional list of item records):
    available is true exactly when the delivery category list is not
    empty, or there is a delivery link, or some item of some holding has
    availability "available"; online_access is true exactly when there is
    a delivery link; physical_copies is the number of items with
    availability "available"; locations has no duplicates and holds
    exactly the main-location names of the holdings that have a location
    record ("Unknown" standing for a record without a name); the status
    handed to the caller is "available" when available or online_access
    holds and "unavailable" otherwise. With a delivery link and no
    holdings the judgment is available, online, zero copies. *)
Theorem availability_judgment (doc : value) :
  doc_ok doc = true ->
  let items := List.flat_map items_of (holdings_of doc) in
  exists a,
    _check_availability doc = availability_dict a
    /\ available a = inhabited (categories_of doc)
                     || inhabited (links_of doc)
                     || List.existsb item_available items
    /\ online_access a = inhabited (links_of doc)
    /\ physical_copies a = Z.of_nat (List.length (List.filter item_available items))
    /\ NoDup (locations a)
    /\ (forall x, In x (locations a)
                  <-> In x (List.flat_map location_name_of (holdings_of doc)))
    /\ (forall primo_result,
          Py.lookup primo_result "availability" = Some (_check_availability doc) ->
          _determine_availability_status (VDict primo_result)
          = Ok (if available a || online_access a then "available" else "unavailable"))
    /\ (inhabited (links_of doc) = true -> holdings_of doc = [] ->
        available a = true /\ online_access a = true /\ physical_copies a = 0%Z).
Proof.
  intros Hok items.
  destruct doc as [| | | | | |d]; try discriminate.
  simpl in Hok. apply andb_true_iff in Hok as [Hdel Hhold].
  (* the delivery record *)
  assert (Hdelivery : exists cats links,
            Py.get (Py.get_or d "delivery" (VDict [])) "delcategory" (VList [])
            = Ok (VList cats)
            /\ Py.get (Py.get_or d "delivery" (VDict [])) "link" (VList [])
               = Ok (VList links)
            /\ categories_of (VDict d) = cats
            /\ links_of (VDict d) = links).
  { unfold categories_of, links_of, delivery_of, list_at, Py.get_or. simpl.
    destruct (Py.lookup d "delivery") as [delivery|]; simpl;
      [|exists [], []; repeat split].
    destruct delivery as [| | | | | |dl]; try discriminate.
    apply andb_true_iff in Hdel as [Hcat Hlink]. simpl. unfold Py.get_or.
    destruct (Py.lookup dl "delcategory") as [[| | | | |cats|]|];
      try discriminate;
      destruct (Py.lookup dl "link") as [[| | | | |links|]|];
      try discriminate; eexists _, _; repeat split. }
  destruct Hdelivery as (cats & links & Hcats & Hlinks & Hcats_of & Hlinks_of).
  (* the holdings *)
  assert (Hholdings : exists hs,
            Py.get_or d "holdings" (VList []) = VList hs
            /\ holdings_of (VDict d) = hs
            /\ List.forallb holding_ok hs = true).
  { unfold holdings_of, list_at, Py.get_or. simpl.
    destruct (Py.lookup d "holdings") as [v|]; [|now exists []].
    destruct v; try discriminate. now exists l. }
  destruct Hholdings as (hs & Hhs & Hhs_of & Hhs_ok).
  set (a0 := Availability
               (inhabited cats || inhabited links) [] (inhabited links) 0
               (if inhabited cats then VList cats else VList [])).
  destruct (visit_holdings_spec hs Hhs_ok a0 (Forall_nil _) (NoDup_nil _))
    as (a & Hvisit & [Ha Ho Hc Hd Hs Hn Hnames]).
  assert (Hbody : check_availability_body (VDict d) = Ok a).
  { unfold check_availability_body.
    change (Py.get (VDict d) "delivery" (VDict []))
      with (Ok (Py.get_or d "delivery" (VDict []))).
    change (Py.get (VDict d) "holdings" (VList []))
      with (Ok (Py.get_or d "holdings" (VList []))).
    cbn [Py.bind]. rewrite Hcats. cbn [Py.bind]. rewrite Hlinks.
    cbn [Py.bind]. rewrite Hhs. cbn [Py.bind Py.iter].
    rewrite <- Hvisit. f_equal.
    unfold a0, initial_availability.
    destruct cats, links; reflexivity. }
  exists a. subst items. rewrite Hcats_of, Hlinks_of, Hhs_of.
  simpl in Ha, Ho, Hc, Hnames.
  split; [unfold _check_availability; now rewrite Hbody|].
  split; [exact Ha|]. split; [exact Ho|]. split; [exact Hc|].
  split; [exact Hn|]. split; [intros x; rewrite Hnames; tauto|].
  split.
  - intros pr Hpr. unfold _determine_availability_status. simpl.
    unfold Py.get_or. rewrite Hpr.
    unfold _check_availability. rewrite Hbody. simpl.
    destruct (available a); simpl; [reflexivity|].
    destruct (online_access a); reflexivity.
  - intros Hl ->. simpl in Ha, Hc. rewrite Ha, Ho, Hc, Hl.
    rewrite orb_true_r. repeat split.
Qed.

(** C6 at a document that has a delivery link and no holdings *)
Lemma availability_judgment_witness :
  doc_ok online_only_doc = true
  /\ exists a,
       _check_availability online_only_doc = availability_dict a
       /\ available a = true /\ online_access a = true
       /\ physical_copies a = 0%Z.
Proof.
  split; [reflexivity|].
  destruct (availability_judgment online_only_doc eq_refl)
    as (a & Hdict & _ & _ & _ & _ & _ & _ & Honline).
  destruct (Honline eq_refl eq_refl) as (Ha & Ho & Hc).
  exists a. repeat split; assumption.
Defined.

(** whatever stops the reading of a document, the handler answers with
    the error judgment, and the status handed on is "unavailable" *)
Lemma unreadable_document_is_judged_unavailable (doc : value) (e : exn) :
  check_availability_body doc = Raise e ->
  _check_availability doc = availability_error e
  /\ field (_check_availability doc) "available" = Some (VBool false)
  /\ field (_check_availability doc) "online_access" = Some (VBool false)
  /\ field (_check_availability doc) "physical_copies" = Some (VInt 0)
  /\ field (_check_availability doc) "locations" = Some (VList [])
  /\ _determine_availability_status
       (VDict [("availability", _check_availability doc)])
     = Ok "unavailable".
Proof.
  intros H. unfold _check_availability. rewrite H. repeat split.
Qed.

(** C6, as stated, fails outside the documented shape: a document that
    has a delivery link and a null holdings entry cannot be read to the
    end, and the handler of [_check_availability] gives the error
    judgment, in which available and online_access are both false; the
    status handed to the caller is "unavailable". *)
Lemma delivery_link_with_null_holdings_is_unavailable :
  inhabited (links_of linked_doc_with_null_holdings) = true
  /\ doc_ok linked_doc_with_null_holdings = false
  /\ _check_availability linked_doc_with_null_holdings
     = VDict [ ("available", VBool false);
               ("locations", VList []);
               ("online_access", VBool false);
               ("physical_copies", VInt 0);
               ("error", VStr "Could not determine availability: 'NoneType' object is not iterable") ]
  /\ _determine_availability_status
       (VDict [("availability", _check_availability linked_doc_with_null_holdings)])
     = Ok "unavailable".
Proof. repeat split. Qed.

End PrimoFacts.

(** ** The engine against the declarative reading *)

Module EngineFacts.

Import Re Denotation.

Lemma last_char_append (pv : option ascii) (u v : string) :
  last_char pv (u ++ v) = last_char (last_char pv u) v.
Proof. revert pv. induction u as [|c u IH]; intros pv; simpl; [reflexivity | apply IH]. Qed.

Lemma pick_pick (g1 g2 c : option string) :
  pick g2 (pick g1 c) = pick (pick g2 g1) c.
Proof. now destruct g2, g1. Qed.

Lemma all_append (p : ascii -> bool) (u v : string) :
  all p (u ++ v) = all p u && all p v.
Proof.
  induction u as [|c u IH]; simpl; [reflexivity|].
  now rewrite IH, andb_assoc.
Qed.

Lemma mstate_eta (st : mstate) : MState (prev st) (rest st) (cap st) = st.
Proof. now destruct st. Qed.

Lemma rep_bounds (p : ascii -> bool) (s : string) :
  forall lo hi pv k res,
    rep p lo hi pv s k = Some res ->
    exists w s',
      s = w ++ s' /\ all p w = true /\ lo <= String.length w
      /\ fits hi (String.length w) /\ k (last_char pv w) s' = Some res.
Proof.
  induction s as [|c s IH]; intros lo hi pv k res H; simpl in H.
  - destruct lo; [|discriminate].
    exists "", "". repeat split; auto. destruct hi; simpl; lia.
  - assert (Hstop : match lo with 0 => k pv (String c s) | S _ => None end = Some res ->
              exists w s',
                String c s = w ++ s' /\ all p w = true /\ lo <= String.length w
                /\ fits hi (String.length w) /\ k (last_char pv w) s' = Some res).
    { destruct lo; [|discriminate]. intros Hk.
      exists "", (String c s). repeat split; auto. destruct hi; simpl; lia. }
    destruct (p c) eqn:Hp; simpl in H; [|now apply Hstop].
    destruct (room hi) eqn:Hroom; [|now apply Hstop].
    destruct (rep p (pred lo) (option_map pred hi) (Some c) s k) as [r|] eqn:E;
      [|now apply Hstop].
    injection H as <-.
    destruct (IH _ _ _ _ _ E) as (w & s' & -> & Hall & Hlo & Hhi & Hk).
    exists (String c w), s'. simpl. rewrite Hp, Hall.
    repeat split; auto; [lia|].
    destruct hi as [[|h]|]; simpl in *; try discriminate; auto; lia.
Qed.

Lemma rep_finds (p : ascii -> bool) (w : string) :
  forall lo hi pv after k res,
    all p w = true -> lo <= String.length w -> fits hi (String.length w) ->
    k (last_char pv w) after = Some res ->
    exists res', rep p lo hi pv (w ++ after) k = Some res'.
Proof.
  induction w as [|c w IH]; intros lo hi pv after k res Hall Hlo Hhi Hk;
    simpl in *.
  - assert (lo = 0) by lia. subst lo.
    destruct after as [|c s]; simpl; [eauto|].
    destruct (p c && room hi); [|eauto].
    destruct (rep p 0 (option_map Nat.pred hi) (Some c) s k); eauto.
  - apply andb_true_iff in Hall as [Hp Hall]. rewrite Hp. simpl.
    assert (Hroom : room hi = true).
    { destruct hi as [[|h]|]; simpl in *; auto; lia. }
    rewrite Hroom.
    destruct (IH (pred lo) (option_map pred hi) (Some c) after k res Hall)
      as (res' & ->); eauto; [lia|].
    destruct hi as [[|h]|]; simpl in *; auto; lia.
Qed.

(** soundness: a successful run has read a piece that the pattern matches *)
Lemma run_den (r : regex) :
  forall st k res,
    run r st k = Some res ->
    exists w after g,
      rest st = w ++ after
      /\ den r (prev st) w after g
      /\ k (MState (last_char (prev st) w) after (pick g (cap st))) = Some res.
Proof.
  induction r as [|p|a IHa b IHb|a IHa b IHb|p lo hi|a IHa| | |];
    intros st k res H; simpl in H.
  - exists "", (rest st), None. simpl. rewrite mstate_eta. auto.
  - destruct (rest st) as [|c s'] eqn:E; [discriminate|].
    destruct (p c) eqn:Hp; [|discriminate].
    exists (String c ""), s', None. simpl. repeat split; eauto.
  - destruct (IHa _ _ _ H) as (u & after1 & gu & E1 & Da & H1).
    destruct (IHb _ _ _ H1) as (v & after2 & gv & E2 & Db & H2).
    simpl in E2, Db, H2. subst after1.
    exists (u ++ v), after2, (pick gv gu). split; [|split].
    + rewrite E1. now rewrite append_assoc.
    + simpl. exists u, v, gu, gv. auto.
    + now rewrite last_char_append, <- pick_pick.
  - destruct (run a st k) as [x|] eqn:E.
    + injection H as <-.
      destruct (IHa _ _ _ E) as (w & after & g & ? & ? & ?).
      exists w, after, g. simpl. repeat split; auto.
    + destruct (IHb _ _ _ H) as (w & after & g & ? & ? & ?).
      exists w, after, g. simpl. repeat split; auto.
  - destruct (rep_bounds _ _ _ _ _ _ _ H) as (w & s' & E & Hall & Hlo & Hhi & Hk).
    exists w, s', None. simpl. repeat split; auto.
  - destruct (IHa _ _ _ H) as (w & after & g & E & Da & H1).
    simpl in H1. rewrite E, consumed_append in H1.
    exists w, after, (Some w). simpl. eauto.
  - destruct (at_boundary st) eqn:Hb; [|discriminate].
    exists "", (rest st), None. simpl. rewrite mstate_eta. auto.
  - destruct (at_start st) eqn:Hb; [|discriminate].
    exists "", (rest st), None. simpl. rewrite mstate_eta.
    repeat split; auto. unfold at_start in Hb. now destruct (prev st).
  - destruct (at_end st) eqn:Hb; [|discriminate].
    exists "", (rest st), None. simpl. rewrite mstate_eta.
    repeat split; auto. unfold at_end in Hb.
    destruct (rest st) as [|c [|c' s]]; auto; [|discriminate].
    right. apply Ascii.eqb_eq in Hb. now subst c.
Qed.

(** completeness: what the pattern matches, the engine does not miss *)
Lemma den_run (r : regex) :
  forall st k w after g res,
    rest st = w ++ after ->
    den r (prev st) w after g ->
    k (MState (last_char (prev st) w) after (pick g (cap st))) = Some res ->
    exists res', run r st k = Some res'.
Proof.
  induction r as [|p|a IHa b IHb|a IHa b IHb|p lo hi|a IHa| | |];
    intros st k w after g res E D Hk; simpl in D; simpl.
  - destruct D as [-> ->]. simpl in *. rewrite <- E, mstate_eta in Hk. eauto.
  - destruct D as (c & -> & Hp & ->). simpl in *. rewrite E, Hp. eauto.
  - destruct D as (u & v & gu & gv & -> & Da & Db & ->).
    rewrite append_assoc in E.
    rewrite last_char_append, <- pick_pick in Hk.
    destruct (IHb (MState (last_char (prev st) u) (v ++ after) (pick gu (cap st)))
                k v after gv res eq_refl Db Hk) as (res1 & H1).
    exact (IHa st _ u (v ++ after) gu res1 E Da H1).
  - destruct D as [D | D].
    + destruct (IHa st k w after g res E D Hk) as (res' & ->). eauto.
    + destruct (run a st k); [eauto|]. exact (IHb st k w after g res E D Hk).
  - destruct D as (Hall & Hlo & Hhi & ->). simpl in Hk. rewrite E.
    exact (rep_finds p w lo hi (prev st) after _ res Hall Hlo Hhi Hk).
  - destruct D as (g' & Da & ->). simpl in Hk.
    apply (IHa st _ w after g' res E Da). simpl.
    now rewrite E, consumed_append.
  - destruct D as (-> & -> & Hb). simpl in *.
    unfold at_boundary. rewrite E, Hb. rewrite <- E, mstate_eta in Hk. eauto.
  - destruct D as (-> & -> & Hb). simpl in *.
    unfold at_start. rewrite Hb. rewrite <- E, mstate_eta in Hk. eauto.
  - destruct D as (-> & -> & Hb). simpl in *.
    rewrite <- E, mstate_eta in Hk.
    unfold at_end. rewrite E.
    destruct Hb as [-> | ->]; simpl; eauto.
Qed.

Lemma match_here_den (r : regex) (pv : option ascii) (s : string) res :
  match_here r pv s = Some res ->
  exists w, s = w ++ rest res /\ den r pv w (rest res) (cap res).
Proof.
  unfold match_here. intros H.
  destruct (run_den _ _ _ _ H) as (w & after & g & E & D & [= <-]).
  simpl in *. exists w. split; [assumption|]. now destruct g.
Qed.

Lemma den_match_here (r : regex) (pv : option ascii) (w after : string) g :
  den r pv w after g -> exists res, match_here r pv (w ++ after) = Some res.
Proof.
  intros D. unfold match_here.
  eapply (den_run r (MState pv (w ++ after) None) Some w after g);
    [reflexivity | exact D | reflexivity].
Qed.

(** the leftmost position that can match is where the search stops *)
Lemma search_from_spec (r : regex) (s : string) :
  forall pv,
    match search_from r pv s with
    | Some res =>
        exists pre w,
          s = pre ++ w ++ rest res
          /\ den r (last_char pv pre) w (rest res) (cap res)
          /\ (forall pre' w' post' g',
                s = pre' ++ w' ++ post' ->
                den r (last_char pv pre') w' post' g' ->
                String.length pre <= String.length pre')
    | None =>
        forall pre' w' post' g',
          s = pre' ++ w' ++ post' -> ~ den r (last_char pv pre') w' post' g'
    end.
Proof.
  induction s as [|c s IH]; intros pv; simpl.
  - destruct (match_here r pv "") as [res|] eqn:E.
    + destruct (match_here_den _ _ _ _ E) as (w & Hs & D).
      exists "", w. simpl. repeat split; auto. intros. lia.
    + intros pre' w' post' g' Hs D.
      destruct pre'; [|discriminate]. simpl in *.
      destruct (den_match_here r pv w' post' g' D) as (res & Hm).
      rewrite <- Hs in Hm. congruence.
  - destruct (match_here r pv (String c s)) as [res|] eqn:E.
    + destruct (match_here_den _ _ _ _ E) as (w & Hs & D).
      exists "", w. simpl. repeat split; auto. intros. lia.
    + assert (Hhere : forall w' post' g',
                String c s = w' ++ post' -> ~ den r pv w' post' g').
      { intros w' post' g' Hs D.
        destruct (den_match_here r pv w' post' g' D) as (res & Hm).
        rewrite <- Hs in Hm. congruence. }
      specialize (IH (Some c)).
      destruct (search_from r (Some c) s) as [res|].
      * destruct IH as (pre & w & Hs & D & Hleft).
        exists (String c pre), w. simpl. split; [now rewrite Hs|].
        split; [assumption|].
        intros pre' w' post' g' Hs' D'.
        destruct pre' as [|c' pre']; simpl in *.
        -- exfalso. exact (Hhere w' post' g' Hs' D').
        -- injection Hs' as <- Hs'. apply le_n_S. exact (Hleft _ _ _ _ Hs' D').
      * intros pre' w' post' g' Hs' D'.
        destruct pre' as [|c' pre']; simpl in *.
        -- exact (Hhere w' post' g' Hs' D').
        -- injection Hs' as <- Hs'. exact (IH _ _ _ _ Hs' D').
Qed.

(** [search_group] finds the group of a leftmost match, and finds nothing
    only when the pattern matches nowhere *)
Lemma search_group_spec (r : regex) (text : string) :
  (forall pv w after g, den r pv w after g -> g <> None) ->
  match search_group r text with
  | Some x =>
      exists pre w post,
        occurs r text pre w post (Some x)
        /\ (forall pre' w' post' g',
              occurs r text pre' w' post' g' ->
              String.length pre <= String.length pre')
  | None => forall pre w post g, ~ occurs r text pre w post g
  end.
Proof.
  intros Hgroup. unfold search_group, search.
  pose proof (search_from_spec r text None) as H.
  destruct (search_from r None text) as [res|].
  - destruct H as (pre & w & Hs & D & Hleft).
    destruct (cap res) as [x|] eqn:Hc.
    + exists pre, w, (rest res). split; [now split|].
      intros pre' w' post' g' [Hs' D']. exact (Hleft _ _ _ _ Hs' D').
    + exfalso. exact (Hgroup _ _ _ _ D eq_refl).
  - intros pre w post g [Hs D]. exact (H _ _ _ _ Hs D).
Qed.

(** a repetition without an upper bound takes the longest run that lets
    the rest of the pattern match *)
Lemma rep_none (p : ascii -> bool) (s : string) :
  forall lo pv k,
    rep p lo None pv s k = None ->
    forall u v, s = u ++ v -> all p u = true -> lo <= String.length u ->
                k (last_char pv u) v = None.
Proof.
  intros lo pv k H u v -> Hall Hlo.
  destruct (k (last_char pv u) v) as [res|] eqn:Hk; [|reflexivity].
  destruct (rep_finds p u lo None pv v k res Hall Hlo I Hk) as (res' & E).
  congruence.
Qed.

Lemma rep_greedy (p : ascii -> bool) (s : string) :
  forall lo pv k res,
    rep p lo None pv s k = Some res ->
    exists u v,
      s = u ++ v /\ all p u = true /\ lo <= String.length u
      /\ k (last_char pv u) v = Some res
      /\ forall u' v',
           s = u' ++ v' -> all p u' = true ->
           String.length u < String.length u' ->
           k (last_char pv u') v' = None.
Proof.
  induction s as [|c s IH]; intros lo pv k res H; cbn [rep] in H.
  - destruct lo; [|discriminate].
    exists "", "". repeat split; auto.
    intros u' v' E _ Hlen. destruct u'; [simpl in Hlen; lia | discriminate].
  - assert (Hstop : match lo with 0 => k pv (String c s) | S _ => None end = Some res ->
              (forall u' v', String c s = u' ++ v' -> all p u' = true ->
                             0 < String.length u' ->
                             k (last_char pv u') v' = None) ->
              exists u v,
                String c s = u ++ v /\ all p u = true /\ lo <= String.length u
                /\ k (last_char pv u) v = Some res
                /\ forall u' v',
                     String c s = u' ++ v' -> all p u' = true ->
                     String.length u < String.length u' ->
                     k (last_char pv u') v' = None).
    { destruct lo; [|discriminate]. intros Hk Hmax.
      exists "", (String c s). repeat split; auto. }
    destruct (p c) eqn:Hp; cbn [andb room option_map] in H.
    + destruct (rep p (pred lo) None (Some c) s k) as [r|] eqn:E.
      * injection H as <-.
        destruct (IH _ _ _ _ E) as (u & v & -> & Hall & Hlo & Hk & Hmax).
        exists (String c u), v. cbn [all String.length last_char]. rewrite Hp, Hall.
        repeat split; auto; [lia|].
        intros u' v' E' Hall' Hlen.
        destruct u' as [|c' u']; [simpl in Hlen; lia|].
        cbn [String.append] in E'. injection E' as <- E'.
        cbn [all] in Hall'. apply andb_true_iff in Hall' as [_ Hall'].
        cbn [last_char]. apply (Hmax u' v' E' Hall'). simpl in Hlen. lia.
      * apply Hstop; [exact H|].
        intros u' v' E' Hall' Hlen.
        destruct u' as [|c' u']; [simpl in Hlen; lia|].
        cbn [String.append] in E'. injection E' as <- E'.
        cbn [all] in Hall'. apply andb_true_iff in Hall' as [_ Hall'].
        cbn [last_char].
        apply (rep_none p s (pred lo) (Some c) k E u' v' E' Hall').
        destruct lo; [simpl; lia | discriminate H].
    + apply Hstop; [exact H|].
      intros u' v' E' Hall' Hlen.
      destruct u' as [|c' u']; [simpl in Hlen; lia|].
      cbn [String.append] in E'. injection E' as <- E'.
      cbn [all] in Hall'. rewrite Hp in Hall'. discriminate.
Qed.

(** the search stops at the first position where an attempt succeeds *)
Lemma search_from_first (r : regex) (s : string) :
  forall pv res,
    search_from r pv s = Some res ->
    exists pre s',
      s = pre ++ s'
      /\ match_here r (last_char pv pre) s' = Some res
      /\ forall pre' s'',
           s = pre' ++ s'' -> String.length pre' < String.length pre ->
           match_here r (last_char pv pre') s'' = None.
Proof.
  induction s as [|c s IH]; intros pv res H; cbn [search_from] in H.
  - destruct (match_here r pv "") as [res'|] eqn:E; [|discriminate].
    injection H as <-. exists "", "". repeat split; auto.
    intros pre' s'' _ Hlen. simpl in Hlen. lia.
  - destruct (match_here r pv (String c s)) as [res'|] eqn:E.
    + injection H as <-. exists "", (String c s). repeat split; auto.
      intros pre' s'' _ Hlen. simpl in Hlen. lia.
    + destruct (IH _ _ H) as (pre & s' & -> & Hm & Hfirst).
      exists (String c pre), s'. repeat split; auto.
      intros pre' s'' E' Hlen.
      destruct pre' as [|c' pre'].
      * simpl in E'. subst s''. exact E.
      * cbn [String.append] in E'. injection E' as <- E'.
        cbn [last_char]. apply (Hfirst pre' s'' E'). simpl in Hlen. lia.
Qed.

End EngineFacts.

(** ** The patterns of the heuristic extractor *)

Module PatternFacts.

Import Re Denotation Shapes EngineFacts Extractor.

Ltac open_den :=
  repeat match goal with
         | H : exists _, _ |- _ => destruct H
         | H : _ /\ _ |- _ => destruct H
         end.

Ltac by_cases_of c :=
  destruct c as [[] [] [] [] [] [] [] []]; reflexivity.

Lemma lower_is_alpha (c : ascii) : Char.is_alpha (Char.lower c) = Char.is_alpha c.
Proof. by_cases_of c. Qed.

Lemma upper_is_not_lower (c : ascii) : Char.is_lower (Char.upper c) = false.
Proof. by_cases_of c. Qed.

Lemma eq_nocase_lower (a c : ascii) :
  Char.eq_nocase a c = true <-> Char.lower c = Char.lower a.
Proof.
  unfold Char.eq_nocase. rewrite Ascii.eqb_eq. split; congruence.
Qed.

Lemma length_zero (s : string) : String.length s = 0 -> s = "".
Proof. destruct s; [reflexivity | discriminate]. Qed.

Lemma nonempty_length (s : string) : s <> "" <-> 1 <= String.length s.
Proof.
  destruct s; simpl; split; intros H; try lia; try congruence; discriminate.
Qed.

Lemma den_lit (s : string) :
  forall pv w after g, den (lit s) pv w after g <-> (w = s /\ g = None).
Proof.
  induction s as [|c s IH]; intros pv w after g; simpl; [tauto|].
  destruct s as [|c' s'].
  - simpl. split.
    + intros (x & -> & Hx & ->). apply Ascii.eqb_eq in Hx. now subst.
    + intros [-> ->]. exists c. now rewrite Ascii.eqb_refl.
  - change (den (Cat (Chr (Ascii.eqb c)) (lit (String c' s'))) pv w after g
            <-> w = String c (String c' s') /\ g = None).
    cbn [den]. split.
    + intros (u & v & gu & gv & -> & (x & -> & Hx & ->) & Dv & ->).
      apply IH in Dv as [-> ->]. apply Ascii.eqb_eq in Hx. now subst.
    + intros [-> ->]. exists (String c ""), (String c' s'), None, None.
      repeat split.
      * exists c. now rewrite Ascii.eqb_refl.
      * now apply IH.
Qed.

Lemma lower_cons (c : ascii) (s : string) :
  Str.lower (String c s) = String (Char.lower c) (Str.lower s).
Proof. reflexivity. Qed.

Lemma lower_append (a b : string) :
  Str.lower (a ++ b) = Str.lower a ++ Str.lower b.
Proof.
  induction a as [|c a IH]; [reflexivity|].
  change (String c a ++ b) with (String c (a ++ b)).
  rewrite !lower_cons, IH. reflexivity.
Qed.

Lemma length_lower (s : string) : String.length (Str.lower s) = String.length s.
Proof. induction s as [|c s IH]; [reflexivity|]. rewrite lower_cons. simpl. now rewrite IH. Qed.

Lemma den_liti (s : string) :
  forall pv w after g,
    den (liti s) pv w after g <-> (Str.lower w = Str.lower s /\ g = None).
Proof.
  induction s as [|c s IH]; intros pv w after g.
  - simpl. split; [now intros [-> ->] | intros [H ->]]. now destruct w.
  - destruct s as [|c' s'].
    + cbn [den]. split.
      * intros (x & -> & Hx & ->). apply eq_nocase_lower in Hx.
        rewrite !lower_cons, Hx. now split.
      * intros [H ->]. destruct w as [|x [|y w]]; try discriminate.
        rewrite !lower_cons in H. injection H as H.
        exists x. repeat split. now apply eq_nocase_lower.
    + change (den (Cat (Chr (Char.eq_nocase c)) (liti (String c' s'))) pv w after g
              <-> Str.lower w = Str.lower (String c (String c' s')) /\ g = None).
      cbn [den]. split.
      * intros (u & v & gu & gv & -> & (x & -> & Hx & ->) & Dv & ->).
        apply IH in Dv as [Hv ->]. apply eq_nocase_lower in Hx.
        split; [|reflexivity].
        change (String x "" ++ v) with (String x v).
        rewrite (lower_cons x), (lower_cons c), Hx, Hv. reflexivity.
      * intros [H ->]. destruct w as [|x w]; [discriminate|].
        rewrite (lower_cons x), (lower_cons c) in H. injection H as Hx Hw.
        exists (String x ""), w, None, None. repeat split.
        -- exists x. repeat split. now apply eq_nocase_lower.
        -- apply IH. now split.
Qed.

Lemma all_lower_alpha (w : string) :
  all Char.is_alpha (Str.lower w) = all Char.is_alpha w.
Proof.
  induction w as [|c w IH]; [reflexivity|].
  rewrite lower_cons. cbn [all]. now rewrite lower_is_alpha, IH.
Qed.

Lemma lower_empty (w : string) : Str.lower w = "" -> w = "".
Proof. now destruct w. Qed.

Lemma wordish_peek (w after : string) :
  all Char.is_alpha w = true -> w <> "" -> wordish (peek (w ++ after)) = true.
Proof.
  destruct w as [|c w]; [contradiction|]. simpl. intros H _.
  apply andb_true_iff in H as [H _]. unfold Char.is_word. now rewrite H.
Qed.

Lemma wordish_last (w : string) :
  forall pv, all Char.is_alpha w = true -> w <> "" ->
             wordish (last_char pv w) = true.
Proof.
  induction w as [|c w IH]; intros pv H Hne; [contradiction|].
  simpl in *. apply andb_true_iff in H as [Hc Hw].
  destruct w as [|c' w'].
  - simpl. unfold Char.is_word. now rewrite Hc.
  - apply IH; [assumption | discriminate].
Qed.

(** *** Year *)

Lemma den_year (pv : option ascii) (w after : string) (g : option string) :
  den YEAR_RE pv w after g <-> (is_year w /\ g = Some w).
Proof.
  unfold YEAR_RE. cbn [den]. split.
  - intros (g' & (u & v & gu & gv & -> & Du & (Hall & Hlo & Hhi & ->) & ->) & ->).
    apply (den_lit "20") in Du as [-> ->].
    split; [|reflexivity].
    destruct v as [|d1 [|d2 [|d3 v]]]; simpl in *; try lia.
    apply andb_true_iff in Hall as [H1 H2].
    apply andb_true_iff in H2 as [H2 _].
    now exists d1, d2.
  - intros [(d1 & d2 & -> & H1 & H2) ->].
    exists None. split; [|reflexivity].
    exists "20", (String d1 (String d2 "")), None, None.
    repeat split; simpl; auto.
    + now apply (den_lit "20").
    + now rewrite H1, H2.
Qed.

(** *** Semester *)

Lemma semester_is_alpha (w : string) :
  is_semester w -> all Char.is_alpha w = true /\ w <> "".
Proof.
  unfold is_semester. intros H.
  assert (Ha : all Char.is_alpha (Str.lower w) = true).
  { simpl in H. destruct H as [<-|[<-|[<-|[<-|[]]]]]; reflexivity. }
  rewrite all_lower_alpha in Ha. split; [assumption|].
  intros ->. simpl in H. intuition discriminate.
Qed.

Lemma den_semester (pv : option ascii) (w after : string) (g : option string) :
  den SEMESTER_RE pv w after g
  <-> (is_semester w /\ whole_word pv after /\ g = Some w).
Proof.
  unfold SEMESTER_RE. cbn [den]. split.
  - intros (u & v & gu & gv & -> & (-> & -> & Hb1)
            & (u2 & v2 & gu2 & gv2 & -> & (g' & Dx & ->) & (-> & -> & Hb2) & ->)
            & ->).
    simpl. rewrite append_nil_r in *. simpl in Hb1.
    assert (Hs : is_semester u2).
    { unfold is_semester. simpl.
      destruct Dx as [D|[D|[D|D]]];
        [apply (den_liti "Spring") in D | apply (den_liti "Summer") in D
         | apply (den_liti "Fall") in D | apply (den_liti "Winter") in D];
        destruct D as [D _]; rewrite D; simpl; tauto. }
    destruct (semester_is_alpha u2 Hs) as [Ha Hne].
    simpl last_char in Hb2.
    rewrite ?(wordish_peek u2 after Ha Hne) in Hb1.
    rewrite (wordish_last u2 pv Ha Hne) in Hb2.
    repeat split; auto.
    + now destruct (wordish pv).
    + now destruct (wordish (peek after)).
  - intros (Hs & [Hp Ha] & ->).
    destruct (semester_is_alpha w Hs) as [Halpha Hne].
    exists "", w, None, (Some w). repeat split.
    + simpl. now rewrite Hp, (wordish_peek w after Halpha Hne).
    + exists w, "", (Some w), None. rewrite append_nil_r. repeat split.
      * exists None. split; [|reflexivity].
        unfold is_semester in Hs. simpl in Hs.
        destruct Hs as [H|[H|[H|[H|[]]]]].
        -- left. now apply (den_liti "Spring").
        -- right. left. now apply (den_liti "Summer").
        -- right. right. left. now apply (den_liti "Fall").
        -- right. right. right. now apply (den_liti "Winter").
      * simpl. now rewrite Ha, (wordish_last w pv Halpha Hne).
Qed.

(** *** Course code *)

Lemma den_course_code (pv : option ascii) (w after : string) (g : option string) :
  den COURSE_CODE_RE pv w after g <-> (is_course_code w /\ g = Some w).
Proof.
  unfold COURSE_CODE_RE. cbn [den]. split.
  - intros (g' & (u & v & gu & gv & -> & (Hu & Hu1 & Hu2 & ->)
            & (s & d & gs & gd & -> & (Hs & _ & Hs2 & ->) & (Hd & Hd1 & Hd2 & ->) & ->)
            & ->) & ->).
    split; [|reflexivity]. exists u, s, d. simpl in *. repeat split; auto.
  - intros [(u & s & d & -> & Hu & [Hu1 Hu2] & Hs & Hs2 & Hd & [Hd1 Hd2]) ->].
    exists None. split; [|reflexivity].
    exists u, (s ++ d), None, None. repeat split; simpl; auto.
    exists s, d, None, None. repeat split; simpl; auto. lia.
Qed.

(** *** Address *)

Lemma den_email (pv : option ascii) (w after : string) (g : option string) :
  den EMAIL_RE pv w after g <-> exists domain, is_edu_address w domain /\ g = Some domain.
Proof.
  unfold EMAIL_RE, plus. cbn [den]. split.
  - intros (l & v & gl & gv & -> & (Hl & Hl1 & _ & ->)
            & (a & dom & ga & gd & -> & Da
               & (g' & (d & e & gd' & ge & -> & (Hd & Hd1 & _ & ->) & De & ->) & ->)
               & ->)
            & ->).
    apply (den_lit "@") in Da as [-> ->].
    apply (den_lit ".edu") in De as [-> ->]. simpl.
    exists (d ++ ".edu"). split; [|reflexivity].
    exists l, d. repeat split; auto; now apply nonempty_length.
  - intros (domain & (l & d & -> & -> & Hl & Hl1 & Hd & Hd1) & ->).
    apply nonempty_length in Hl1, Hd1.
    exists l, ("@" ++ d ++ ".edu"), None, (Some (d ++ ".edu")).
    repeat split; simpl; auto.
    exists "@", (d ++ ".edu"), None, (Some (d ++ ".edu")).
    repeat split; simpl; auto.
    + now apply (den_lit "@").
    + exists None. split; [|reflexivity].
      exists d, ".edu", None, None. repeat split; simpl; auto.
      now apply (den_lit ".edu").
Qed.

(** *** Instructor *)

Lemma den_instructor (pv : option ascii) (w after : string) (g : option string) :
  den INSTRUCTOR_RE pv w after g
  <-> exists name, is_instructor_line w name /\ g = Some name.
Proof.
  unfold INSTRUCTOR_RE, plus, star. cbn [den]. split.
  - intros (label & v & gl & gv & -> & Dl
            & (colon & v2 & gc & gv2 & -> & Dc
               & (ws & name & gw & gn & -> & (Hws & _ & _ & ->)
                  & (g' & (Hn & Hn1 & _ & ->) & ->) & ->)
               & ->)
            & ->).
    apply (den_lit ":") in Dc as [-> ->]. simpl.
    exists name. split; [|reflexivity].
    exists label, ws. repeat split; auto; [|now apply nonempty_length].
    simpl.
    destruct Dl as [D|[D|[D|D]]];
      [apply (den_liti "Instructor") in D | apply (den_liti "Professor") in D
       | apply (den_liti "Dr.") in D | apply (den_liti "Teacher") in D];
      destruct D as [D _]; rewrite D; simpl; tauto.
  - intros (name & (label & ws & -> & Hl & Hws & Hn & Hn1) & ->).
    apply nonempty_length in Hn1.
    exists label, (":" ++ ws ++ name), None, (Some name).
    repeat split; simpl; auto.
    + simpl in Hl. destruct Hl as [H|[H|[H|[H|[]]]]].
      * left. now apply (den_liti "Instructor").
      * right. left. now apply (den_liti "Professor").
      * right. right. left. now apply (den_liti "Dr.").
      * right. right. right. now apply (den_liti "Teacher").
    + exists ":", (ws ++ name), None, (Some name). repeat split; simpl; auto.
      * now apply (den_lit ":").
      * exists ws, name, None, (Some name). repeat split; simpl; auto; try lia.
        exists None. repeat split; simpl; auto.
Qed.

End PatternFacts.

(** ** The fields of the heuristic record *)

Module FieldFacts.

Import Re Denotation Shapes EngineFacts PatternFacts Extractor.

Lemma lstrip_head (s : string) :
  match Str.lstrip s with
  | EmptyString => True
  | String c _ => Char.is_space c = false
  end.
Proof.
  induction s as [|c s IH]; simpl; [exact I|].
  destruct (Char.is_space c) eqn:E; [exact IH | exact E].
Qed.

Lemma lstrip_fixed (s : string) :
  match s with
  | EmptyString => True
  | String c _ => Char.is_space c = false
  end -> Str.lstrip s = s.
Proof. destruct s as [|c s]; simpl; [reflexivity | now intros ->]. Qed.

Lemma rstrip_head (c : ascii) (s : string) :
  Char.is_space c = false -> exists t, Str.rstrip (String c s) = String c t.
Proof. intros H. simpl. destruct (Str.rstrip s); rewrite ?H; eauto. Qed.

Lemma rstrip_cons (c : ascii) (s : string) :
  Str.rstrip (String c s)
  = match Str.rstrip s with
    | EmptyString => if Char.is_space c then EmptyString else String c EmptyString
    | String c' t => String c (String c' t)
    end.
Proof. reflexivity. Qed.

Lemma rstrip_idempotent (s : string) : Str.rstrip (Str.rstrip s) = Str.rstrip s.
Proof.
  induction s as [|c s IH]; [reflexivity|].
  rewrite rstrip_cons. destruct (Str.rstrip s) as [|c' t] eqn:E.
  - destruct (Char.is_space c) eqn:Hc; [reflexivity|].
    rewrite rstrip_cons. simpl. now rewrite Hc.
  - rewrite rstrip_cons, IH. reflexivity.
Qed.

(** [strip] leaves nothing to strip *)
Lemma strip_idempotent (s : string) : Str.strip (Str.strip s) = Str.strip s.
Proof.
  unfold Str.strip.
  pose proof (lstrip_head s) as Hhead.
  destruct (Str.lstrip s) as [|c t]; [reflexivity|].
  destruct (rstrip_head c t Hhead) as (t' & E). rewrite E.
  rewrite lstrip_fixed by exact Hhead.
  rewrite <- E. apply rstrip_idempotent.
Qed.

Lemma upper_is_not_unknown (s : string) : Str.upper s <> "Unknown".
Proof.
  destruct s as [|c1 [|c2 s]]; try discriminate.
  unfold Str.upper. simpl Str.map. intros [= _ H2 _].
  pose proof (upper_is_not_lower c2) as H. rewrite H2 in H. discriminate.
Qed.

Lemma split_never_empty (sep : ascii) (s : string) : Str.split sep s <> [].
Proof.
  induction s as [|c s IH]; simpl; [discriminate|].
  destruct (Ascii.eqb c sep); [discriminate|].
  destruct (Str.split sep s); [contradiction | discriminate].
Qed.

Lemma split_at_separator (sep : ascii) (a b : string) :
  2 <= List.length (Str.split sep (a ++ String sep b)).
Proof.
  induction a as [|c a IH]; simpl.
  - rewrite Ascii.eqb_refl. simpl.
    pose proof (split_never_empty sep b).
    destruct (Str.split sep b); [contradiction | simpl; lia].
  - destruct (Ascii.eqb c sep); simpl; [lia|].
    destruct (Str.split sep (a ++ String sep b)); simpl in *; lia.
Qed.

Lemma field_year (text : string) :
  field (heuristic_parse text) "year"
  = Some (VStr (group_or_unknown (search_group YEAR_RE text))).
Proof. reflexivity. Qed.

Lemma field_semester (text : string) :
  field (heuristic_parse text) "semester"
  = Some (VStr (group_or_unknown (search_group SEMESTER_RE text))).
Proof. reflexivity. Qed.

Lemma field_class_number (text : string) :
  field (heuristic_parse text) "class_number"
  = Some (VStr (group_or_unknown (search_group COURSE_CODE_RE text))).
Proof. reflexivity. Qed.

Lemma field_university (text : string) :
  field (heuristic_parse text) "university"
  = Some (VStr (university_of (search_group EMAIL_RE text))).
Proof. reflexivity. Qed.

Lemma field_instructor (text : string) :
  field (heuristic_parse text) "instructor"
  = Some (VStr (match search_group INSTRUCTOR_RE text with
                | Some g => Str.strip g
                | None => UNKNOWN
                end)).
Proof. reflexivity. Qed.

Lemma field_class_name (text : string) :
  field (heuristic_parse text) "class_name"
  = Some (VStr (first_title (firstn 10 (Str.splitlines text)))).
Proof. reflexivity. Qed.

(** the searches of the two functions that use the year pattern *)
Lemma year_search (text : string) :
  match search_group YEAR_RE text with
  | Some y =>
      is_year y
      /\ exists pre post,
           text = pre ++ y ++ post
           /\ forall pre' w' post',
                text = pre' ++ w' ++ post' -> is_year w' ->
                String.length pre <= String.length pre'
  | None => forall pre w post, text = pre ++ w ++ post -> ~ is_year w
  end.
Proof.
  pose proof (search_group_spec YEAR_RE text) as H.
  destruct (search_group YEAR_RE text) as [y|].
  - destruct H as (pre & w & post & [Hs D] & Hleft).
    { intros pv w after g D. apply den_year in D as [_ ->]. discriminate. }
    apply den_year in D as [Hy [= <-]].
    split; [assumption|]. exists pre, post. split; [assumption|].
    intros pre' w' post' Hs' Hy'.
    apply (Hleft pre' w' post' (Some w')). split; [assumption|].
    now apply den_year.
  - intros pre w post Hs Hy.
    apply (H ltac:(intros pv w0 after g D; apply den_year in D as [_ ->]; discriminate)
             pre w post (Some w)).
    split; [assumption | now apply den_year].
Qed.

Lemma semester_search (text : string) :
  match search_group SEMESTER_RE text with
  | Some s =>
      is_semester s
      /\ exists pre post,
           text = pre ++ s ++ post
           /\ whole_word (last_char None pre) post
           /\ forall pre' w' post',
                text = pre' ++ w' ++ post' -> is_semester w' ->
                whole_word (last_char None pre') post' ->
                String.length pre <= String.length pre'
  | None =>
      forall pre w post,
        text = pre ++ w ++ post -> is_semester w ->
        ~ whole_word (last_char None pre) post
  end.
Proof.
  pose proof (search_group_spec SEMESTER_RE text) as H.
  assert (Hgroup : forall pv w after g, den SEMESTER_RE pv w after g -> g <> None).
  { intros pv w after g D. apply den_semester in D as (_ & _ & ->). discriminate. }
  specialize (H Hgroup).
  destruct (search_group SEMESTER_RE text) as [s|].
  - destruct H as (pre & w & post & [Hs D] & Hleft).
    apply den_semester in D as (Hsem & Hw & [= <-]).
    split; [assumption|]. exists pre, post. repeat split; try assumption; try apply Hw.
    intros pre' w' post' Hs' Hsem' Hw'.
    apply (Hleft pre' w' post' (Some w')). split; [assumption|].
    now apply den_semester.
  - intros pre w post Hs Hsem Hw.
    apply (H pre w post (Some w)). split; [assumption | now apply den_semester].
Qed.

Lemma course_code_search (text : string) :
  match search_group COURSE_CODE_RE text with
  | Some code =>
      is_course_code code
      /\ exists pre post,
           text = pre ++ code ++ post
           /\ forall pre' w' post',
                text = pre' ++ w' ++ post' -> is_course_code w' ->
                String.length pre <= String.length pre'
  | None => forall pre w post, text = pre ++ w ++ post -> ~ is_course_code w
  end.
Proof.
  pose proof (search_group_spec COURSE_CODE_RE text) as H.
  assert (Hgroup : forall pv w after g, den COURSE_CODE_RE pv w after g -> g <> None).
  { intros pv w after g D. apply den_course_code in D as [_ ->]. discriminate. }
  specialize (H Hgroup).
  destruct (search_group COURSE_CODE_RE text) as [code|].
  - destruct H as (pre & w & post & [Hs D] & Hleft).
    apply den_course_code in D as [Hc [= <-]].
    split; [assumption|]. exists pre, post. split; [assumption|].
    intros pre' w' post' Hs' Hc'.
    apply (Hleft pre' w' post' (Some w')). split; [assumption|].
    now apply den_course_code.
  - intros pre w post Hs Hc.
    apply (H pre w post (Some w)). split; [assumption | now apply den_course_code].
Qed.

Lemma email_search (text : string) :
  match search_group EMAIL_RE text with
  | Some domain =>
      exists pre w post,
        text = pre ++ w ++ post
        /\ is_edu_address w domain
        /\ forall pre' w' post' domain',
             text = pre' ++ w' ++ post' -> is_edu_address w' domain' ->
             String.length pre <= String.length pre'
  | None =>
      forall pre w post domain,
        text = pre ++ w ++ post -> ~ is_edu_address w domain
  end.
Proof.
  pose proof (search_group_spec EMAIL_RE text) as H.
  assert (Hgroup : forall pv w after g, den EMAIL_RE pv w after g -> g <> None).
  { intros pv w after g D. apply den_email in D as (d & _ & ->). discriminate. }
  specialize (H Hgroup).
  destruct (search_group EMAIL_RE text) as [domain|].
  - destruct H as (pre & w & post & [Hs D] & Hleft).
    apply den_email in D as (d & Ha & [= <-]).
    exists pre, w, post. repeat split; try assumption.
    intros pre' w' post' domain' Hs' Ha'.
    apply (Hleft pre' w' post' (Some domain')). split; [assumption|].
    apply den_email. now exists domain'.
  - intros pre w post domain Hs Ha.
    apply (H pre w post (Some domain)). split; [assumption|].
    apply den_email. now exists domain.
Qed.

Lemma instructor_search (text : string) :
  match search_group INSTRUCTOR_RE text with
  | Some name =>
      exists pre w post,
        text = pre ++ w ++ post
        /\ is_instructor_line w name
        /\ forall pre' w' post' name',
             text = pre' ++ w' ++ post' -> is_instructor_line w' name' ->
             String.length pre <= String.length pre'
  | None =>
      forall pre w post name,
        text = pre ++ w ++ post -> ~ is_instructor_line w name
  end.
Proof.
  pose proof (search_group_spec INSTRUCTOR_RE text) as H.
  assert (Hgroup : forall pv w after g, den INSTRUCTOR_RE pv w after g -> g <> None).
  { intros pv w after g D. apply den_instructor in D as (d & _ & ->). discriminate. }
  specialize (H Hgroup).
  destruct (search_group INSTRUCTOR_RE text) as [name|].
  - destruct H as (pre & w & post & [Hs D] & Hleft).
    apply den_instructor in D as (d & Ha & [= <-]).
    exists pre, w, post. repeat split; try assumption.
    intros pre' w' post' name' Hs' Ha'.
    apply (Hleft pre' w' post' (Some name')). split; [assumption|].
    apply den_instructor. now exists name'.
  - intros pre w post name Hs Ha.
    apply (H pre w post (Some name)). split; [assumption|].
    apply den_instructor. now exists name.
Qed.

(** X1. The year that [heuristic_parse] reports is "Unknown" exactly when
    the text contains no "20" followed by two digits; otherwise it is such
    a four-character piece of the text, the one that starts furthest to
    the left. *)
Theorem year_is_the_leftmost_20dd (text : string) :
  exists y,
    field (heuristic_parse text) "year" = Some (VStr y)
    /\ ((y = "Unknown"
         /\ forall pre w post, text = pre ++ w ++ post -> ~ is_year w)
        \/ (is_year y
            /\ exists pre post,
                 text = pre ++ y ++ post
                 /\ forall pre' w' post',
                      text = pre' ++ w' ++ post' -> is_year w' ->
                      String.length pre <= String.length pre')).
Proof.
  rewrite field_year. eexists. split; [reflexivity|].
  pose proof (year_search text) as H.
  destruct (search_group YEAR_RE text) as [y|]; simpl; [now right | now left].
Qed.

(** X2. The semester that [heuristic_parse] reports is "Unknown" exactly
    when none of Spring, Summer, Fall, Winter (in any mix of cases) stands
    in the text as a word of its own, with no letter, digit or underscore
    next to it; otherwise it is such a word, spelled as in the text, the
    one that starts furthest to the left. *)
Theorem semester_is_the_leftmost_whole_word (text : string) :
  exists s,
    field (heuristic_parse text) "semester" = Some (VStr s)
    /\ ((s = "Unknown"
         /\ forall pre w post,
              text = pre ++ w ++ post -> is_semester w ->
              ~ whole_word (last_char None pre) post)
        \/ (is_semester s
            /\ exists pre post,
                 text = pre ++ s ++ post
                 /\ whole_word (last_char None pre) post
                 /\ forall pre' w' post',
                      text = pre' ++ w' ++ post' -> is_semester w' ->
                      whole_word (last_char None pre') post' ->
                      String.length pre <= String.length pre')).
Proof.
  rewrite field_semester. eexists. split; [reflexivity|].
  pose proof (semester_search text) as H.
  destruct (search_group SEMESTER_RE text) as [s|]; simpl; [now right | now left].
Qed.

(** X3. The class number that [heuristic_parse] reports is "Unknown"
    exactly when the text contains no course code (two to four capital
    letters, at most one white-space character or hyphen, three or four
    digits); otherwise it is a course code taken from the text at the
    leftmost place where one starts. *)
Theorem class_number_is_the_leftmost_course_code (text : string) :
  exists code,
    field (heuristic_parse text) "class_number" = Some (VStr code)
    /\ ((code = "Unknown"
         /\ forall pre w post, text = pre ++ w ++ post -> ~ is_course_code w)
        \/ (is_course_code code
            /\ exists pre post,
                 text = pre ++ code ++ post
                 /\ forall pre' w' post',
                      text = pre' ++ w' ++ post' -> is_course_code w' ->
                      String.length pre <= String.length pre')).
Proof.
  rewrite field_class_number. eexists. split; [reflexivity|].
  pose proof (course_code_search text) as H.
  destruct (search_group COURSE_CODE_RE text) as [s|]; simpl; [now right | now left].
Qed.

(** X4. The university that [heuristic_parse] reports is "Unknown" exactly
    when the text contains no address of the form local@domain.edu. When
    there is one, the test on the number of labels always passes and the
    field is the upper-cased first label of the domain captured at the
    leftmost address, a string that is never "Unknown". *)
Theorem university_is_unknown_only_without_address (text : string) :
  exists u,
    field (heuristic_parse text) "university" = Some (VStr u)
    /\ ((u = "Unknown"
         /\ forall pre w post domain,
              text = pre ++ w ++ post -> ~ is_edu_address w domain)
        \/ (u <> "Unknown"
            /\ exists pre w post domain,
                 text = pre ++ w ++ post
                 /\ is_edu_address w domain
                 /\ u = Str.upper (nth 0 (Str.split dot domain) "")
                 /\ forall pre' w' post' domain',
                      text = pre' ++ w' ++ post' -> is_edu_address w' domain' ->
                      String.length pre <= String.length pre')).
Proof.
  rewrite field_university. eexists. split; [reflexivity|].
  pose proof (email_search text) as H.
  destruct (search_group EMAIL_RE text) as [domain|];
    [right | left; split; [reflexivity | assumption]].
  destruct H as (pre & w & post & Hs & Ha & Hleft). unfold university_of.
  assert (Hlabels : (2 <=? List.length (Str.split dot domain))%nat = true).
  { destruct Ha as (l & d & _ & -> & _). apply Nat.leb_le.
    apply (split_at_separator dot d "edu"). }
  rewrite Hlabels. split; [apply upper_is_not_unknown|].
  exists pre, w, post, domain. auto.
Qed.

Lemma no_name_at (pv : option ascii) (s : string)
    (k : option ascii -> string -> option mstate) :
  (forall pv' s', k pv' s' <> None) ->
  rep not_newline 1 None pv s k = None ->
  s = "" \/ Str.starts_with_LF s = true.
Proof.
  intros Hk H. destruct s as [|c s]; [now left|]. right.
  cbn [Str.starts_with_LF].
  destruct (Ascii.eqb c Char.LF) eqn:Hc; [reflexivity|]. exfalso.
  apply (Hk (Some c) s).
  apply (rep_none not_newline (String c s) 1 pv k H (String c "") s eq_refl).
  - cbn [all]. unfold not_newline. now rewrite Hc.
  - simpl. lia.
Qed.

(** what the engine reads at a position where the instructor pattern
    matches *)
Lemma instructor_match_here (pv : option ascii) (s : string) (res : mstate) :
  match_here INSTRUCTOR_RE pv s = Some res ->
  exists label ws name,
    s = label ++ ":" ++ ws ++ name ++ rest res
    /\ In (Str.lower label) ["instructor"; "professor"; "dr."; "teacher"]
    /\ all Char.is_space ws = true
    /\ all not_newline name = true /\ name <> ""
    /\ cap res = Some name
    /\ takes_the_line ws name (rest res).
Proof.
  unfold match_here, INSTRUCTOR_RE, star, plus. cbn [run]. intros H.
  (* the label *)
  apply (run_den ((liti "Instructor" <|> liti "Professor" <|> liti "Dr." <|> liti "Teacher")%re))
    in H as (label & after1 & g1 & E1 & Dl & H).
  cbn [rest prev cap] in E1, Dl, H.
  assert (Hl : In (Str.lower label) ["instructor"; "professor"; "dr."; "teacher"] /\ g1 = None).
  { cbn [den] in Dl.
    destruct Dl as [D|[D|[D|D]]];
      [apply (den_liti "Instructor") in D | apply (den_liti "Professor") in D
       | apply (den_liti "Dr.") in D | apply (den_liti "Teacher") in D];
      destruct D as [D ->]; rewrite D; simpl; tauto. }
  destruct Hl as [Hl ->]. cbn [pick] in H.
  (* the colon *)
  apply (run_den (lit ":")) in H as (colon & after2 & g2 & E2 & Dc & H).
  cbn [rest prev cap] in E2, Dc, H.
  apply (den_lit ":") in Dc as [-> ->]. cbn [pick] in H.
  (* the white space *)
  apply rep_greedy in H as (ws & after3 & E3 & Hws & _ & H & Hwsmax).
  cbn [rest prev cap] in H, Hwsmax.
  (* the name *)
  apply rep_greedy in H as (name & post & E4 & Hname & Hlen & H & Hnmax).
  injection H as <-. cbn [rest cap].
  exists label, ws, name. subst s after1 after2 after3.
  split; [reflexivity|]. split; [exact Hl|]. split; [exact Hws|].
  split; [exact Hname|]. split; [destruct name; [simpl in Hlen; lia | discriminate]|].
  split; [now rewrite consumed_append|].
  split.
  - destruct post as [|c post]; [now left|]. right.
    cbn [Str.starts_with_LF].
    destruct (Ascii.eqb c Char.LF) eqn:Hc; [reflexivity|]. exfalso.
    specialize (Hnmax (name ++ String c "") post).
    rewrite append_assoc in Hnmax. specialize (Hnmax eq_refl).
    rewrite all_append, Hname in Hnmax. cbn [all andb] in Hnmax.
    unfold not_newline in Hnmax at 1. rewrite Hc in Hnmax.
    specialize (Hnmax eq_refl).
    rewrite length_append in Hnmax. simpl in Hnmax.
    assert (String.length name < String.length name + 1) as Hlt by lia.
    specialize (Hnmax Hlt). discriminate.
  - intros ws' rest' E' Hws' Hlt.
    specialize (Hwsmax ws' rest' E' Hws' Hlt).
    eapply no_name_at; [|exact Hwsmax].
    intros pv' s'. discriminate.
Qed.


(** at one place of a text at most one of the labels can stand *)
Lemma label_unique (l1 r1 l2 r2 : string) :
  In (Str.lower l1) ["instructor"; "professor"; "dr."; "teacher"] ->
  In (Str.lower l2) ["instructor"; "professor"; "dr."; "teacher"] ->
  l1 ++ r1 = l2 ++ r2 ->
  l1 = l2 /\ r1 = r2.
Proof.
  intros H1 H2 E.
  apply append_eq_same_length; [exact E|].
  rewrite <- (length_lower l1), <- (length_lower l2).
  apply (f_equal Str.lower) in E. rewrite !lower_append in E.
  cbn [In] in H1, H2.
  destruct H1 as [H1|[H1|[H1|[H1|[]]]]]; destruct H2 as [H2|[H2|[H2|[H2|[]]]]];
    rewrite <- H1, <- H2 in *; try reflexivity; discriminate E.
Qed.

(** the greedy reading leaves one way to cut what follows the colon *)
Lemma takes_the_line_unique (ws1 n1 p1 ws2 n2 p2 : string) :
  ws1 ++ n1 ++ p1 = ws2 ++ n2 ++ p2 ->
  all Char.is_space ws1 = true -> all not_newline n1 = true -> n1 <> "" ->
  takes_the_line ws1 n1 p1 ->
  all Char.is_space ws2 = true -> all not_newline n2 = true -> n2 <> "" ->
  takes_the_line ws2 n2 p2 ->
  ws1 = ws2 /\ n1 = n2 /\ p1 = p2.
Proof.
  intros E Hw1 Hn1 He1 [Hp1 Hmax1] Hw2 Hn2 He2 [Hp2 Hmax2].
  assert (Hstart : forall n p, all not_newline n = true -> n <> "" ->
                     ~ (n ++ p = "" \/ Str.starts_with_LF (n ++ p) = true)).
  { intros n p Hn He [H|H].
    - destruct n; [contradiction | discriminate].
    - destruct n as [|c n]; [contradiction|].
      cbn [String.append Str.starts_with_LF] in H. cbn [all] in Hn.
      unfold not_newline in Hn at 1. rewrite H in Hn. discriminate. }
  assert (Hws : String.length ws1 = String.length ws2).
  { destruct (lt_eq_lt_dec (String.length ws1) (String.length ws2)) as [[Hlt|Heq]|Hgt];
      [exfalso | exact Heq | exfalso].
    - exact (Hstart n2 p2 Hn2 He2 (Hmax1 ws2 (n2 ++ p2) E Hw2 Hlt)).
    - exact (Hstart n1 p1 Hn1 He1 (Hmax2 ws1 (n1 ++ p1) (eq_sym E) Hw1 Hgt)). }
  destruct (append_eq_same_length _ _ _ _ E Hws) as [-> E'].
  split; [reflexivity|].
  assert (Hend : forall n p n' p',
            n ++ p = n' ++ p' -> String.length n < String.length n' ->
            all not_newline n' = true ->
            ~ (p = "" \/ Str.starts_with_LF p = true)).
  { intros n p n' p' En Hlt Hn' Hp.
    destruct (append_eq_append _ _ _ _ En) as (d & -> & ->); [lia|].
    rewrite length_append in Hlt.
    destruct d as [|c d]; [simpl in Hlt; lia|].
    rewrite all_append in Hn'. apply andb_true_iff in Hn' as [_ Hd].
    destruct Hp as [Hp|Hp]; [discriminate|].
    cbn [String.append Str.starts_with_LF] in Hp. cbn [all] in Hd.
    unfold not_newline in Hd at 1. rewrite Hp in Hd. discriminate. }
  apply append_eq_same_length; [exact E'|].
  destruct (lt_eq_lt_dec (String.length n1) (String.length n2)) as [[Hlt|Heq]|Hgt];
    [exfalso | exact Heq | exfalso].
  - exact (Hend n1 p1 n2 p2 E' Hlt Hn2 Hp1).
  - exact (Hend n2 p2 n1 p1 (eq_sym E') Hgt Hn1 Hp2).
Qed.

(** X5. The instructor that [heuristic_parse] reports carries no white
    space at either end. It is "Unknown" when the text has no label
    Instructor, Professor, Dr. or Teacher (in any mix of cases) followed
    by a colon, white space and at least one character other than a
    newline. Otherwise it is read at the leftmost such label: the white
    space after the colon is skipped, newlines included, as far as a
    character other than a newline still follows; the name is the text
    from there to the end of that line, and the field is the name
    stripped. The text leaves one reading only: every other way to cut
    it at that place under these conditions gives the same name. *)
Theorem instructor_is_the_stripped_rest_of_the_line (text : string) :
  exists i,
    field (heuristic_parse text) "instructor" = Some (VStr i)
    /\ Str.strip i = i
    /\ ((i = "Unknown"
         /\ forall pre w post name,
              text = pre ++ w ++ post -> ~ is_instructor_line w name)
        \/ (exists pre label ws name post,
              text = pre ++ (label ++ ":" ++ ws ++ name) ++ post
              /\ In (Str.lower label) ["instructor"; "professor"; "dr."; "teacher"]
              /\ all Char.is_space ws = true
              /\ all not_newline name = true /\ name <> ""
              /\ takes_the_line ws name post
              /\ i = Str.strip name
              /\ (forall pre' w' post' name',
                    text = pre' ++ w' ++ post' -> is_instructor_line w' name' ->
                    String.length pre <= String.length pre')
              /\ (forall label' ws' name' post',
                    text = pre ++ (label' ++ ":" ++ ws' ++ name') ++ post' ->
                    In (Str.lower label') ["instructor"; "professor"; "dr."; "teacher"] ->
                    all Char.is_space ws' = true ->
                    all not_newline name' = true -> name' <> "" ->
                    takes_the_line ws' name' post' ->
                    name' = name))).
Proof.
  rewrite field_instructor. eexists. split; [reflexivity|].
  pose proof (instructor_search text) as Hnone.
  unfold search_group, search in *.
  destruct (search_from INSTRUCTOR_RE None text) as [res|] eqn:Hsearch.
  - destruct (search_from_first _ _ _ _ Hsearch) as (pre & s' & Htext & Hm & Hfirst).
    destruct (instructor_match_here _ _ _ Hm)
      as (label & ws & name & Hs' & Hl & Hws & Hname & Hne & Hcap & Hline).
    rewrite Hcap. split; [apply strip_idempotent|]. right.
    exists pre, label, ws, name, (rest res).
    assert (Hcut : text = pre ++ (label ++ ":" ++ ws ++ name) ++ rest res)
      by (rewrite Htext, Hs'; now rewrite !append_assoc).
    split; [exact Hcut|].
    repeat (split; [assumption|]). split; [reflexivity|]. split.
    + intros pre' w' post' name' E' Hline'.
      destruct (le_lt_dec (String.length pre) (String.length pre')) as [Hle|Hlt];
        [exact Hle|]. exfalso.
      assert (D : den INSTRUCTOR_RE (last_char None pre') w' post' (Some name')).
      { apply den_instructor. now exists name'. }
      destruct (den_match_here _ _ _ _ _ D) as (res' & Hm').
      rewrite (Hfirst pre' (w' ++ post') E' Hlt) in Hm'. discriminate.
    + intros label' ws' name' post' E' Hl' Hws' Hname' Hne' Hline'.
      rewrite Hcut in E'. apply append_inj_l in E'.
      rewrite !append_assoc in E'.
      destruct (label_unique _ _ _ _ Hl Hl' E') as [_ E''].
      cbn [String.append] in E''. injection E'' as E''.
      destruct (takes_the_line_unique _ _ _ _ _ _ E'' Hws Hname Hne Hline
                  Hws' Hname' Hne' Hline') as (_ & Hn & _).
      now symmetry.
  - split; [reflexivity|]. left. split; [reflexivity | exact Hnone].
Qed.

Lemma first_title_spec (lines : list string) :
  (first_title lines = UNKNOWN
   /\ Forall (fun l => qualifies l = false) lines)
  \/ (exists before line after,
        lines = (before ++ line :: after)%list
        /\ Forall (fun l => qualifies l = false) before
        /\ qualifies line = true
        /\ first_title lines = Str.strip line).
Proof.
  induction lines as [|l ls IH]; simpl; [left; split; [reflexivity | constructor]|].
  fold (qualifies l). destruct (qualifies l) eqn:Hq.
  - right. exists [], l, ls. repeat split; auto.
  - destruct IH as [[Hu Hall] | (before & line & after & -> & Hb & Hl & Ht)].
    + left. split; [assumption | now constructor].
    + right. exists (l :: before), line, after. repeat split; auto.
Qed.

(** X6. The class name that [heuristic_parse] reports is the first of the
    first ten lines of the text that, once stripped, is longer than 10 and
    shorter than 100 characters and has a capital letter: it is that line
    stripped, so it has between 11 and 99 characters, a capital letter and
    no white space at either end. It is "Unknown" when no line among the
    first ten passes the test. *)
Theorem class_name_is_the_first_qualifying_line (text : string) :
  exists title,
    field (heuristic_parse text) "class_name" = Some (VStr title)
    /\ ((title = "Unknown"
         /\ Forall (fun l => qualifies l = false) (firstn 10 (Str.splitlines text)))
        \/ (exists before line after,
              firstn 10 (Str.splitlines text) = (before ++ line :: after)%list
              /\ Forall (fun l => qualifies l = false) before
              /\ title = Str.strip line
              /\ 10 < String.length title < 100
              /\ Str.existsb Char.is_upper title = true
              /\ Str.strip title = title)).
Proof.
  rewrite field_class_name. eexists. split; [reflexivity|].
  destruct (first_title_spec (firstn 10 (Str.splitlines text)))
    as [[Hu Hall] | (before & line & after & Hl & Hb & Hq & Ht)].
  - left. now split.
  - right. exists before, line, after. rewrite Ht.
    unfold qualifies in Hq.
    apply andb_true_iff in Hq as [Hq Hup].
    apply andb_true_iff in Hq as [Hlo Hhi].
    apply Nat.ltb_lt in Hlo, Hhi.
    repeat split; auto. apply strip_idempotent.
Qed.

(** X7. [extract_year_semester_from_filename] reports year [None]
    exactly when the file name has no "20" followed by two digits, and
    semester [None] exactly when no semester name stands in it as a word
    of its own: a name glued to a letter, a digit or an underscore, as in
    BIO101_Fall2023_Smith.pdf, is not found. What it reports otherwise is
    the leftmost such year and the leftmost such word. *)
Theorem filename_year_and_whole_word_semester (filename : string) :
  exists year semester,
    extract_year_semester_from_filename filename
    = VDict [("year", year); ("semester", semester)]
    /\ ((year = VNone
         /\ forall pre w post, filename = pre ++ w ++ post -> ~ is_year w)
        \/ (exists y pre post,
              year = VStr y /\ is_year y /\ filename = pre ++ y ++ post
              /\ forall pre' w' post',
                   filename = pre' ++ w' ++ post' -> is_year w' ->
                   String.length pre <= String.length pre'))
    /\ ((semester = VNone
         /\ forall pre w post,
              filename = pre ++ w ++ post -> is_semester w ->
              ~ whole_word (last_char None pre) post)
        \/ (exists s pre post,
              semester = VStr s /\ is_semester s /\ filename = pre ++ s ++ post
              /\ whole_word (last_char None pre) post
              /\ forall pre' w' post',
                   filename = pre' ++ w' ++ post' -> is_semester w' ->
                   whole_word (last_char None pre') post' ->
                   String.length pre <= String.length pre')).
Proof.
  unfold extract_year_semester_from_filename.
  eexists _, _. split; [reflexivity|].
  pose proof (year_search filename) as Hy.
  pose proof (semester_search filename) as Hs.
  split.
  - destruct (search_group YEAR_RE filename) as [y|]; simpl; [right | now left].
    destruct Hy as (Hy & pre & post & Ht & Hleft). exists y, pre, post. auto.
  - destruct (search_group SEMESTER_RE filename) as [s|]; simpl; [right | now left].
    destruct Hs as (Hs & pre & post & Ht & Hw & Hleft). exists s, pre, post. auto.
Qed.

End FieldFacts.

(** ** Tables, rows and the batch *)

Module BatchFacts.

Import Extractor Rows ExtractorFacts.

Lemma tables_until_failure_cut (ts1 ts2 : list table_outcome) (e : exn) :
  tables_until_failure (ts1 ++ Raise e :: ts2)%list = tables_until_failure ts1.
Proof.
  induction ts1 as [|[[md|]|e'] ts1 IH]; simpl; auto. now rewrite IH.
Qed.

(** X8. Once the file is open, [extract_tables_from_pdf] cannot fail. A
    page on which table detection raises contributes no table and leaves
    the tables of the other pages as they are; a table that raises while
    it is converted drops the rest of its page only, the tables collected
    before it on that page are kept. *)
Theorem table_failures_stay_on_their_page
    (name : string) (before after : list page) (text : string)
    (ts1 ts2 : list table_outcome) (e : exn) :
  extract_tables_from_pdf (Pdf name (Ok (before ++ Page text (Raise e) :: after)%list))
  = extract_tables_from_pdf (Pdf name (Ok (before ++ after)%list))
  /\ extract_tables_from_pdf
       (Pdf name (Ok (before ++ Page text (Ok (ts1 ++ Raise e :: ts2)%list) :: after)%list))
     = extract_tables_from_pdf
         (Pdf name (Ok (before ++ Page text (Ok ts1) :: after)%list))
  /\ extract_tables_from_pdf (Pdf name (Ok (before ++ after)%list))
     = Ok (List.flat_map page_tables before ++ List.flat_map page_tables after)%list.
Proof.
  unfold extract_tables_from_pdf. simpl.
  rewrite !flat_map_app. simpl. unfold page_tables at 2 4 6. simpl.
  rewrite tables_until_failure_cut. repeat split.
Qed.

Lemma lookup_remove_same (d : Py.dict) (k : string) :
  keys_unique d -> Py.lookup (Py.remove d k) k = None.
Proof.
  unfold keys_unique. induction d as [|[k0 v0] d IH]; simpl; [reflexivity|].
  intros Hnd. inversion Hnd as [|? ? Hin Hrest]; subst.
  destruct (String.eqb_spec k0 k) as [->|Hne]; simpl.
  - clear IH Hnd Hrest. induction d as [|[k1 v1] d IH]; simpl; [reflexivity|].
    destruct (String.eqb_spec k1 k) as [->|Hk]; [exfalso; apply Hin; now left|].
    apply IH. intros H. apply Hin. now right.
  - destruct (String.eqb_spec k0 k); [contradiction | now apply IH].
Qed.

Lemma store_keys (d : Py.dict) (k : string) (v : value) :
  forall x, In x (List.map fst (Py.store d k v)) <-> x = k \/ In x (List.map fst d).
Proof.
  induction d as [|[k0 v0] d IH]; intros x; simpl; [intuition|].
  destruct (String.eqb_spec k0 k) as [->|Hne]; simpl.
  - intuition.
  - rewrite IH. intuition.
Qed.

Lemma store_keys_unique (d : Py.dict) (k : string) (v : value) :
  keys_unique d -> keys_unique (Py.store d k v).
Proof.
  unfold keys_unique. induction d as [|[k0 v0] d IH]; simpl; intros Hnd.
  - constructor; [intros [] | constructor].
  - inversion Hnd as [|? ? Hin Hrest]; subst.
    destruct (String.eqb_spec k0 k) as [->|Hne]; simpl.
    + now constructor.
    + constructor; [|now apply IH].
      rewrite store_keys. intros [H|H]; [congruence | contradiction].
Qed.

(** X9. On a record with distinct keys, the preparation of the CSV row
    cannot fail: the row has the file's name under filename (whatever the
    record said there), the serialized reading list of the record under
    reading_materials_json (the serialized empty list when the record has
    none), no reading_materials key any more, and every other key as in
    the record. *)
Theorem finish_row_replaces_the_reading_list
    (w : services) (f : pdf_file) (d : Py.dict) :
  keys_unique d ->
  exists row,
    finish_row w f (VDict d) = Ok (VDict row)
    /\ Py.lookup row "filename" = Some (VStr (name f))
    /\ Py.lookup row "reading_materials_json"
       = Some (VStr (json_dumps w (Py.get_or d "reading_materials" (VList []))))
    /\ Py.lookup row "reading_materials" = None
    /\ (forall k, k <> "filename" -> k <> "reading_materials_json" ->
                  k <> "reading_materials" ->
                  Py.lookup row k = Py.lookup d k)
    /\ keys_unique row.
Proof.
  intros Hu. unfold finish_row. simpl. eexists. split; [reflexivity|].
  assert (Hrm : Py.get_or (Py.store d "filename" (VStr (name f))) "reading_materials" (VList [])
                = Py.get_or d "reading_materials" (VList [])).
  { unfold Py.get_or. now rewrite lookup_store_other by discriminate. }
  rewrite Hrm.
  set (d2 := Py.store (Py.store d "filename" (VStr (name f))) "reading_materials_json" _).
  assert (Hu2 : keys_unique d2) by (unfold d2; now do 2 apply store_keys_unique).
  repeat split.
  - rewrite lookup_remove_other by discriminate. unfold d2.
    rewrite lookup_store_other by discriminate. apply lookup_store_same.
  - rewrite lookup_remove_other by discriminate. unfold d2.
    apply lookup_store_same.
  - now apply lookup_remove_same.
  - intros k H1 H2 H3.
    rewrite lookup_remove_other by congruence. unfold d2.
    rewrite !lookup_store_other by congruence. reflexivity.
  - unfold keys_unique in *. clear - Hu2.
    induction d2 as [|[k0 v0] d2 IH]; simpl; [constructor|].
    inversion Hu2 as [|? ? Hin Hrest]; subst.
    destruct (String.eqb k0 "reading_materials"); [assumption|].
    simpl. constructor; [|now apply IH].
    intros H. apply Hin. clear - H.
    induction d2 as [|[k1 v1] d2 IH]; simpl in *; [contradiction|].
    destruct (String.eqb k1 "reading_materials"); simpl in *; [now right|].
    destruct H as [H|H]; [now left | right; now apply IH].
Qed.

(** X9 at a record that brings a file name and a reading list of its own *)
Lemma finish_row_replaces_the_reading_list_witness :
  keys_unique llm_record
  /\ exists row,
       finish_row offline syllabus_with_table (VDict llm_record) = Ok (VDict row)
       /\ Py.lookup row "filename" = Some (VStr "cs101.pdf")
       /\ Py.lookup row "reading_materials" = None.
Proof.
  assert (Hu : keys_unique llm_record).
  { unfold keys_unique, llm_record. simpl.
    repeat (constructor; [simpl; intuition discriminate|]). constructor. }
  split; [exact Hu|].
  destruct (finish_row_replaces_the_reading_list offline syllabus_with_table
              llm_record Hu)
    as (row & Hrow & Hname & _ & Hrm & _).
  exists row. repeat split; assumption.
Defined.

Lemma process_pdf_filename (w : services) (f : pdf_file) (row : value) :
  process_pdf w f = Some row -> field row "filename" = Some (VStr (name f)).
Proof.
  unfold process_pdf, process_body.
  destruct (extract_text_from_pdf f) as [text|e]; simpl; [|discriminate].
  destruct (extract_tables_from_pdf f) as [tables|e]; simpl; [|discriminate].
  set (data := try_except _ _).
  destruct data as [| | | | | |d];
    try (unfold finish_row; simpl; discriminate).
  destruct (finish_row_dict w f d) as (row' & -> & Hname).
  now intros [= <-].
Qed.

(** X10. [process_pdfs_batch] gives one row for each file that could be
    processed, in the order of the files, and each row carries the name of
    its own file: a file that fails is left out and the files after it are
    still processed. *)
Theorem batch_rows_follow_the_files (w : services) (pdf_files : list pdf_file) :
  List.map (fun row => field row "filename") (process_pdfs_batch w pdf_files)
  = List.map (fun f => Some (VStr (name f))) (List.filter (processed w) pdf_files)
  /\ List.length (process_pdfs_batch w pdf_files) <= List.length pdf_files
  /\ (forall more,
        process_pdfs_batch w (pdf_files ++ more)%list
        = (process_pdfs_batch w pdf_files ++ process_pdfs_batch w more)%list).
Proof.
  split; [|split].
  - induction pdf_files as [|f fs IH]; simpl; [reflexivity|].
    unfold processed at 1.
    destruct (process_pdf w f) as [row|] eqn:E; simpl; [|exact IH].
    now rewrite (process_pdf_filename w f row E), IH.
  - induction pdf_files as [|f fs IH]; simpl; [lia|].
    destruct (process_pdf w f); simpl; lia.
  - intros more. induction pdf_files as [|f fs IH]; simpl; [reflexivity|].
    destruct (process_pdf w f); simpl; now rewrite IH.
Qed.

End BatchFacts.

(** ** The code fence around an answer *)

Module FenceFacts.

Import Re Denotation Extractor Fences EngineFacts PatternFacts FieldFacts.

Lemma den_fence (pv : option ascii) (w after : string) (g : option string) :
  den FENCE_RE pv w after g
  <-> (g = None
       /\ ((pv = None /\ w = "```json")
           \/ (w = "```" /\ (after = "" \/ after = NL)))).
Proof.
  unfold FENCE_RE. cbn [den]. split.
  - intros [(u & v & gu & gv & -> & (-> & -> & Hpv) & Dv & ->)
           |(u & v & gu & gv & -> & Du & (-> & -> & Hend) & ->)].
    + apply (den_lit "```json") in Dv as [-> ->]. split; [reflexivity|]. now left.
    + apply (den_lit "```") in Du as [-> ->]. split; [reflexivity|]. now right.
  - intros [-> [[-> ->]|[-> Hend]]].
    + left. exists "", "```json", None, None. repeat split.
      now apply (den_lit "```json").
    + right. exists "```", "", None, None. repeat split; [|assumption].
      now apply (den_lit "```").
Qed.

Lemma remove_go_skip (r : regex) (u t : string) :
  forall pv,
    remove_go r (String.length u) pv (u ++ t)
    = remove_go r 0 (last_char pv u) t.
Proof.
  induction u as [|c u IH]; intros pv; [reflexivity|].
  change (String c u ++ t) with (String c (u ++ t)).
  cbn [String.length remove_go last_char]. apply IH.
Qed.

(** what a match at the head of [s] does to the removal *)
Lemma remove_go_match (r : regex) (pv : option ascii) (w t : string) res :
  w <> "" ->
  match_here r pv (w ++ t) = Some res -> rest res = t ->
  remove_go r 0 pv (w ++ t) = remove_go r 0 (last_char pv w) t.
Proof.
  intros Hw Hm Hrest. destruct w as [|c w]; [contradiction|].
  change (String c w ++ t) with (String c (w ++ t)) in *.
  cbn [remove_go]. rewrite Hm, Hrest.
  cbn [String.length]. rewrite length_append.
  replace (S (String.length w + String.length t) - String.length t)
    with (S (String.length w)) by lia.
  destruct w as [|c' w'] eqn:Ew; [reflexivity|].
  rewrite <- Ew. cbn [last_char].
  rewrite remove_go_skip. reflexivity.
Qed.

Lemma remove_go_no_match (r : regex) (pv : option ascii) (c : ascii) (s : string) :
  match_here r pv (String c s) = None ->
  remove_go r 0 pv (String c s) = String c (remove_go r 0 (Some c) s).
Proof. intros H. cbn [remove_go]. now rewrite H. Qed.

Lemma fence_match_inside (pv : option ascii) (s : string) :
  pv <> None -> s <> "```" -> s <> "```" ++ NL ->
  match_here FENCE_RE pv s = None.
Proof.
  intros Hpv H1 H2. destruct (match_here FENCE_RE pv s) as [res|] eqn:Hm;
    [|reflexivity].
  destruct (match_here_den _ _ _ _ Hm) as (w & E & D).
  apply den_fence in D as [_ [[Hn _]|[-> [Hr|Hr]]]]; rewrite ?Hr in E;
    [contradiction | now destruct H1 | now destruct H2].
Qed.

Lemma fence_match_at_end (pv : option ascii) :
  exists res, match_here FENCE_RE pv "```" = Some res /\ rest res = "".
Proof.
  destruct pv; vm_compute; eexists; split; reflexivity.
Qed.

(** the closing fence goes, and nothing before it *)
Lemma remove_go_closing_fence (body : string) :
  forall pv, pv <> None -> remove_go FENCE_RE 0 pv (body ++ "```") = body.
Proof.
  induction body as [|c body IH]; intros pv Hpv.
  - destruct (fence_match_at_end pv) as (res & Hm & Hr).
    change ("" ++ "```") with ("```" ++ "").
    rewrite (remove_go_match _ _ "```" "" res); [reflexivity | discriminate | exact Hm | exact Hr].
  - change (String c body ++ "```") with (String c (body ++ "```")).
    rewrite remove_go_no_match.
    + rewrite IH; [reflexivity | discriminate].
    + apply fence_match_inside; [assumption | |].
      * intros E. apply (f_equal String.length) in E. cbn [String.length] in E.
        rewrite length_append in E. simpl in E. lia.
      * intros E. destruct body as [|d body].
        -- discriminate E.
        -- apply (f_equal String.length) in E.
           change (String d body ++ "```") with (String d (body ++ "```")) in E.
           cbn [String.length] in E.
           rewrite length_append in E. simpl in E. lia.
Qed.

Lemma fence_match_at_start (t : string) :
  exists res, match_here FENCE_RE None ("```json" ++ t) = Some res /\ rest res = t.
Proof. eexists. split; [vm_compute; reflexivity | reflexivity]. Qed.

Lemma remove_fenced (body : string) :
  Re.remove FENCE_RE ("```json" ++ body ++ "```") = body.
Proof.
  unfold Re.remove.
  destruct (fence_match_at_start (body ++ "```")) as (res & Hm & Hr).
  rewrite (remove_go_match _ _ "```json" _ res ltac:(discriminate) Hm Hr).
  apply remove_go_closing_fence. discriminate.
Qed.

Lemma fence_match_needs_backtick (pv : option ascii) (c : ascii) (s : string) :
  Ascii.eqb c backtick = false -> match_here FENCE_RE pv (String c s) = None.
Proof.
  intros Hc. destruct (match_here FENCE_RE pv (String c s)) as [res|] eqn:Hm;
    [|reflexivity].
  destruct (match_here_den _ _ _ _ Hm) as (w & E & D).
  apply den_fence in D as [_ [[_ ->]|[-> _]]];
    injection E as -> _; discriminate Hc.
Qed.

Lemma remove_go_without_backtick (s : string) :
  forall pv,
    all (fun c => negb (Ascii.eqb c backtick)) s = true ->
    remove_go FENCE_RE 0 pv s = s.
Proof.
  induction s as [|c s IH]; intros pv H; [reflexivity|].
  cbn [all] in H. apply andb_true_iff in H as [Hc Hs].
  apply negb_true_iff in Hc.
  rewrite remove_go_no_match by now apply fence_match_needs_backtick.
  now rewrite IH.
Qed.

Lemma fence_match_plain_open (body : string) :
  String.prefix "json" body = false ->
  match_here FENCE_RE None ("```" ++ body ++ "```") = None.
Proof.
  intros Hp.
  destruct (match_here FENCE_RE None ("```" ++ body ++ "```")) as [res|] eqn:Hm;
    [|reflexivity].
  destruct (match_here_den _ _ _ _ Hm) as (w & E & D).
  apply den_fence in D as [_ [[_ ->]|[-> [Hr|Hr]]]]; rewrite ?Hr in E.
  - exfalso.
    change ("```" ++ body ++ "```") with (String backtick (String backtick (String backtick (body ++ "```")))) in E.
    injection E as E.
    do 4 (destruct body as [|? body]; [discriminate E|];
          cbn [String.append] in E; injection E as -> E).
    vm_compute in Hp. destruct body; discriminate Hp.
  - apply (f_equal String.length) in E. simpl in E.
    rewrite length_append in E. simpl in E. lia.
  - apply (f_equal String.length) in E. simpl in E.
    rewrite length_append in E. simpl in E.
    assert (String.length body = 0) by (unfold NL in E; simpl in E; lia).
    destruct body; [discriminate E | discriminate].
Qed.

Lemma remove_plain_fenced (body : string) :
  String.prefix "json" body = false ->
  Re.remove FENCE_RE ("```" ++ body ++ "```") = "```" ++ body.
Proof.
  intros Hp. unfold Re.remove.
  change ("```" ++ body ++ "```") with (String backtick ("``" ++ body ++ "```")).
  rewrite remove_go_no_match by exact (fence_match_plain_open body Hp).
  change ("```" ++ body) with (String backtick ("``" ++ body)). f_equal.
  rewrite <- (append_assoc "``" body "```").
  apply remove_go_closing_fence. discriminate.
Qed.

(** X21. An answer that is, once stripped, a fence opened with three
    backticks and the word json and closed with three backticks is parsed
    as what stands between the two, stripped; backticks in between change
    nothing. An answer without a backtick is parsed as it is, stripped. *)
Theorem fenced_answer_is_parsed_as_its_body
    (w : services) (pdf_text response : string) :
  client_ready w = true ->
  chat w system_prompt (user_prompt pdf_text) = Ok response ->
  (forall body,
     Str.strip response = "```json" ++ body ++ "```" ->
     call_llm_for_metadata w pdf_text = json_loads w (Str.strip body))
  /\ (all (fun c => negb (Ascii.eqb c backtick)) (Str.strip response) = true ->
      call_llm_for_metadata w pdf_text = json_loads w (Str.strip response)).
Proof.
  intros Hready Hchat. unfold call_llm_for_metadata.
  rewrite Hready, Hchat. cbn [negb Py.bind]. split.
  - intros body ->. now rewrite remove_fenced.
  - intros H. unfold Re.remove. rewrite (remove_go_without_backtick _ None H).
    now rewrite strip_idempotent.
Qed.

Lemma fenced_answer_is_parsed_as_its_body_witness :
  call_llm_for_metadata (answering (NL ++ "```json" ++ NL ++ "{}" ++ NL ++ "```" ++ NL))
    "Syllabus" = Ok (VStr "{}")
  /\ call_llm_for_metadata (answering " {} ") "Syllabus" = Ok (VStr "{}").
Proof.
  split.
  - apply (proj1 (fenced_answer_is_parsed_as_its_body
                    (answering (NL ++ "```json" ++ NL ++ "{}" ++ NL ++ "```" ++ NL))
                    "Syllabus" _ eq_refl eq_refl) (NL ++ "{}" ++ NL)).
    reflexivity.
  - apply (proj2 (fenced_answer_is_parsed_as_its_body
                    (answering " {} ") "Syllabus" _ eq_refl eq_refl)).
    reflexivity.
Defined.

(** X22. An answer fenced with three backticks alone, with no json behind
    the opening ones, loses the closing fence only: the text handed to
    [json.loads] still starts with the three backticks. *)
Theorem plain_fence_keeps_its_opening
    (w : services) (pdf_text response body : string) :
  client_ready w = true ->
  chat w system_prompt (user_prompt pdf_text) = Ok response ->
  Str.strip response = "```" ++ body ++ "```" ->
  String.prefix "json" body = false ->
  exists text,
    call_llm_for_metadata w pdf_text = json_loads w ("```" ++ text)
    /\ Str.strip ("```" ++ body) = "```" ++ text.
Proof.
  intros Hready Hchat Hstrip Hp. unfold call_llm_for_metadata.
  rewrite Hready, Hchat. cbn [negb Py.bind]. rewrite Hstrip, (remove_plain_fenced body Hp).
  unfold Str.strip.
  change (Str.lstrip ("```" ++ body)) with ("```" ++ body).
  change ("```" ++ body) with (String backtick (String backtick (String backtick body))).
  rewrite !rstrip_cons.
  destruct (Str.rstrip body) as [|c t]; cbn; eexists; split; reflexivity.
Qed.

Lemma plain_fence_keeps_its_opening_witness :
  exists text,
    call_llm_for_metadata (answering ("```" ++ NL ++ "{}" ++ NL ++ "```")) "Syllabus"
    = Ok (VStr ("```" ++ text)).
Proof.
  destruct (plain_fence_keeps_its_opening
              (answering ("```" ++ NL ++ "{}" ++ NL ++ "```")) "Syllabus"
              ("```" ++ NL ++ "{}" ++ NL ++ "```") (NL ++ "{}" ++ NL)
              eq_refl eq_refl eq_refl eq_refl) as (text & H & _).
  exists text. exact H.
Defined.

End FenceFacts.

(** ** Search terms *)

Module QueryFacts.

Import Denotation Primo Answers EngineFacts PatternFacts.

Lemma quote_char_encoded (c : ascii) :
  Char.is_space c
  || (all encoded_char (quote_char c) && nonempty (quote_char c)) = true.
Proof. by_cases_of c. Qed.

Lemma quote_plus_append (a b : string) :
  quote_plus (a ++ b) = quote_plus a ++ quote_plus b.
Proof.
  induction a as [|c a IH]; simpl; [reflexivity|].
  now rewrite IH, append_assoc.
Qed.

Lemma quote_plus_join (ws : list string) :
  quote_plus (Str.join " " ws) = Str.join "+" (List.map quote_plus ws).
Proof.
  induction ws as [|w ws IH]; [reflexivity|].
  destruct ws as [|w' ws]; [reflexivity|].
  change (Str.join " " (w :: w' :: ws)) with (w ++ " " ++ Str.join " " (w' :: ws)).
  change (Str.join "+" (List.map quote_plus (w :: w' :: ws)))
    with (quote_plus w ++ "+" ++ Str.join "+" (List.map quote_plus (w' :: ws))).
  rewrite !quote_plus_append, IH. reflexivity.
Qed.

Lemma fields_no_space (s : string) :
  Forall (fun w => all (fun c => negb (Char.is_space c)) w = true) (fields s).
Proof.
  induction s as [|c s IH]; simpl; [repeat constructor|].
  destruct (Char.is_space c) eqn:Hc; [now constructor|].
  destruct (fields s) as [|h t]; [repeat constructor; simpl; now rewrite Hc|].
  inversion IH; subst. constructor; [|assumption].
  simpl. now rewrite Hc.
Qed.

Lemma words_no_space (s : string) :
  Forall (fun w => w <> "" /\ all (fun c => negb (Char.is_space c)) w = true)
         (words s).
Proof.
  unfold words. pose proof (fields_no_space s) as H.
  induction H as [|w ws Hw _ IH]; simpl; [constructor|].
  unfold nonempty at 1. destruct (String.eqb_spec w ""); simpl; [assumption|].
  constructor; [now split | assumption].
Qed.

Lemma quote_plus_word (w : string) :
  w <> "" -> all (fun c => negb (Char.is_space c)) w = true ->
  encoded_word (quote_plus w).
Proof.
  intros Hne Hall. split.
  - destruct w as [|c w]; [contradiction|]. simpl in *.
    apply andb_true_iff in Hall as [Hc _].
    pose proof (quote_char_encoded c) as H.
    destruct (Char.is_space c); [discriminate|]. simpl in H.
    apply andb_true_iff in H as [_ H]. unfold nonempty in H.
    destruct (quote_char c); [discriminate | discriminate].
  - clear Hne. induction w as [|c w IH]; [reflexivity|].
    simpl in *. apply andb_true_iff in Hall as [Hc Hw].
    rewrite all_append, (IH Hw), andb_true_r.
    pose proof (quote_char_encoded c) as H.
    destruct (Char.is_space c); [discriminate|]. simpl in H.
    now apply andb_true_iff in H as [H _].
Qed.

(** X11. For every string of ASCII text, [_clean_search_term] returns
    without raising, and what it returns can be put into the query as it
    is: it is a list of words joined by single "+" signs, each word
    non-empty and made of letters, digits and the characters _ . - ~ %.
    So the term starts and ends with no "+", has no two "+" in a row, and
    has no space, comma, semicolon or ampersand that could break the
    query. *)
Theorem clean_search_term_is_plus_separated_words (s : string) :
  ascii_text s = true ->
  exists term ws,
    _clean_search_term (VStr s) = Ok term
    /\ term = Str.join "+" ws
    /\ Forall encoded_word ws.
Proof.
  intros _. unfold _clean_search_term. simpl.
  destruct (String.eqb s ""); simpl.
  - exists "", []. repeat split. constructor.
  - eexists _, _. split; [reflexivity|].
    unfold collapse_whitespace. split; [apply quote_plus_join|].
    apply Forall_map.
    eapply Forall_impl; [|apply words_no_space].
    intros w [Hne Hall]. now apply quote_plus_word.
Qed.

(** X11 at a title with an edition, a comma and two spaces in a row *)
Lemma clean_search_term_is_plus_separated_words_witness :
  ascii_text "Cognitive  Psychology, 3rd edition" = true
  /\ exists term ws,
       _clean_search_term (VStr "Cognitive  Psychology, 3rd edition") = Ok term
       /\ term = Str.join "+" ws
       /\ Forall encoded_word ws.
Proof.
  split; [reflexivity|].
  exact (clean_search_term_is_plus_separated_words
           "Cognitive  Psychology, 3rd edition" eq_refl).
Defined.

End QueryFacts.

(** ** Answers of the discovery service *)

Module AnswerFacts.

Import Primo Answers PrimoFacts.

Lemma collect_links_dicts (l : list value) :
  List.forallb Py.is_dict (collect_links l) = true.
Proof.
  induction l as [|x l IH]; simpl; [reflexivity|].
  destruct x; try exact IH.
  destruct (Py.truthy (Py.get_or d "linkURL" (VStr ""))); [simpl|]; exact IH.
Qed.

Lemma extract_links_dicts (delivery : value) :
  exists links, _extract_links delivery = VList links
                /\ List.forallb Py.is_dict links = true.
Proof.
  unfold _extract_links.
  destruct (Py.get delivery "link" (VList [])) as [ld|e]; simpl;
    [|now exists []].
  destruct (Py.iter ld) as [l|e]; simpl; [|now exists []].
  exists (collect_links l). split; [reflexivity | apply collect_links_dicts].
Qed.

Lemma check_availability_locations (doc : value) :
  exists av ls, _check_availability doc = VDict av
                /\ Py.lookup av "locations" = Some (VList ls).
Proof.
  unfold _check_availability.
  destruct (check_availability_body doc) as [a|e]; simpl;
    eexists _, _; split; reflexivity.
Qed.

Lemma parse_doc_ok (doc r : value) : parse_doc doc = Ok r -> result_ok r = true.
Proof.
  unfold parse_doc.
  destruct (Py.get doc "pnx" (VDict [])) as [pnx|e]; simpl; [|discriminate].
  destruct (Py.get pnx "display" (VDict [])) as [display|e]; simpl; [|discriminate].
  destruct (Py.get pnx "addata" (VDict [])) as [addata|e]; simpl; [|discriminate].
  destruct (Py.get doc "delivery" (VDict [])) as [delivery|e]; simpl; [|discriminate].
  destruct (Py.get display "title" (VList [])) as [t|e]; simpl; [|discriminate].
  destruct (Py.get display "creator" (VList [])) as [cr|e]; simpl; [|discriminate].
  destruct (Py.get display "type" (VList [VStr "Unknown"])) as [ty|e]; simpl;
    [|discriminate].
  destruct (Py.get addata "date" (VList [])) as [dt|e]; simpl; [|discriminate].
  destruct (Py.get addata "isbn" (VList [])) as [isbn|e]; simpl; [|discriminate].
  destruct (Py.get addata "issn" (VList [])) as [issn|e]; simpl; [|discriminate].
  destruct (Py.get addata "pub" (VList [])) as [pub|e]; simpl; [|discriminate].
  intros [= <-].
  destruct (check_availability_locations doc) as (av & ls & Hav & Hls).
  destruct (extract_links_dicts delivery) as (links & Hl & Hd).
  unfold result_ok. simpl. rewrite Hav, Hls, Hl, Hd. reflexivity.
Qed.

Lemma parse_docs_ok (docs : list value) :
  forall rs, parse_docs docs = Ok rs -> List.forallb result_ok rs = true.
Proof.
  induction docs as [|doc docs IH]; intros rs H; simpl in H.
  - now injection H as <-.
  - destruct (parse_doc doc) as [r|e] eqn:E; simpl in H; [|discriminate].
    destruct (parse_docs docs) as [rs'|e]; simpl in H; [|discriminate].
    injection H as <-. simpl. now rewrite (parse_doc_ok doc r E), IH.
Qed.

Ltac answer_false := eexists; split; [reflexivity | left; reflexivity].

Lemma parse_search_results_top_three (data title author : value) :
  exists d,
    _parse_search_results data title author = VDict d
    /\ Py.lookup d "title" = Some title
    /\ Py.lookup d "author" = Some author
    /\ (Py.lookup d "found" = Some (VBool false)
        \/ (Py.lookup d "found" = Some (VBool true)
            /\ exists docs rs info,
                 Py.get data "docs" (VList []) = Ok (VList docs)
                 /\ docs <> []
                 /\ parse_docs (firstn 3 docs) = Ok rs
                 /\ Py.lookup d "results" = Some (VList rs)
                 /\ List.length rs = Nat.min 3 (List.length docs)
                 /\ List.forallb result_ok rs = true
                 /\ Py.get data "info" (VDict []) = Ok (VDict info)
                 /\ Py.lookup d "total_results"
                    = Some (Py.get_or info "total"
                              (VInt (Z.of_nat (List.length docs)))))).
Proof.
  unfold _parse_search_results.
  destruct (Py.get data "docs" (VList [])) as [docs|e]; simpl;
    [|eexists; repeat split; now left].
  destruct (negb (Py.truthy docs)) eqn:Htruthy; simpl;
    [eexists; repeat split; now left|].
  destruct (top3 docs) as [top|e] eqn:Htop; simpl;
    [|eexists; repeat split; now left].
  destruct (Py.iter top) as [tops|e] eqn:Hiter; simpl;
    [|eexists; repeat split; now left].
  destruct (parse_docs tops) as [rs|e] eqn:Hparse; simpl;
    [|eexists; repeat split; now left].
  destruct (Py.get data "info" (VDict [])) as [info|e] eqn:Hinfo; simpl;
    [|eexists; repeat split; now left].
  destruct info as [| | | | | |info]; simpl;
    try (eexists; repeat split; now left).
  destruct docs as [| | | |s|l|dd]; cbn [top3] in Htop; try discriminate;
    injection Htop as <-; cbn [Py.iter] in Hiter; injection Hiter as <-.
  - (* a string: its characters are not documents *)
    destruct s as [|ch s]; [discriminate|]. simpl in Hparse. discriminate.
  - assert (Hp : parse_docs (firstn 3 l) = Ok rs) by exact Hparse.
    clear Hparse.
    cbn [Py.len Py.bind Py.get try_except]. eexists. repeat split.
    right. split; [reflexivity|].
    exists l, rs, info. repeat split; auto.
    + intros ->. discriminate.
    + rewrite (parse_docs_length _ _ Hp). apply length_firstn.
    + now apply parse_docs_ok with (firstn 3 l).
Qed.


(** X12. [_parse_search_results] never raises and always hands back a
    dictionary. It says found only for a body whose docs is a non-empty
    list; then its results are the readings of the first three documents,
    in the order of the list (all of them when there are fewer), and
    total_results is the total of the body or else the number of
    documents. Whatever else the body holds, the answer is found =
    false. *)
Theorem parse_search_results_keeps_the_top_three (data title author : value) :
  exists d,
    _parse_search_results data title author = VDict d
    /\ Py.lookup d "title" = Some title
    /\ Py.lookup d "author" = Some author
    /\ (Py.lookup d "found" = Some (VBool false)
        \/ (Py.lookup d "found" = Some (VBool true)
            /\ exists docs rs info,
                 Py.get data "docs" (VList []) = Ok (VList docs)
                 /\ docs <> []
                 /\ parse_docs (firstn 3 docs) = Ok rs
                 /\ Py.lookup d "results" = Some (VList rs)
                 /\ List.length rs = Nat.min 3 (List.length docs)
                 /\ List.forallb result_ok rs = true
                 /\ Py.get data "info" (VDict []) = Ok (VDict info)
                 /\ Py.lookup d "total_results"
                    = Some (Py.get_or info "total"
                              (VInt (Z.of_nat (List.length docs)))))).
Proof. apply parse_search_results_top_three. Qed.

Lemma parse_search_results_answer (data title author : value) :
  answer_ok (_parse_search_results data title author).
Proof.
  destruct (parse_search_results_top_three data title author)
    as (d & -> & _ & _ & [Hf | (Hf & docs & rs & info & _ & Hne & _ & Hrs & Hlen & Hok & _)]);
    exists d; split; auto.
  right. split; [assumption|]. exists rs. repeat split; auto.
  - destruct docs; [contradiction|]. rewrite Hlen. simpl. lia.
  - rewrite Hlen. lia.
Qed.

End AnswerFacts.

(** ** The turns of the loop *)

Module LoopFacts.

Import Primo Answers PrimoFacts AnswerFacts.

Lemma get_or_found (d : Py.dict) (k : string) (v default : value) :
  Py.lookup d k = Some v -> Py.get_or d k default = v.
Proof. unfold Py.get_or. now intros ->. Qed.

Lemma determine_status_total (d av : Py.dict) :
  Py.lookup d "availability" = Some (VDict av) ->
  exists status,
    _determine_availability_status (VDict d) = Ok status
    /\ (status = "available" \/ status = "unavailable").
Proof.
  intros Hav. unfold _determine_availability_status.
  cbn [Py.get Py.bind]. rewrite !(get_or_found _ _ _ _ Hav).
  cbn [Py.get Py.bind].
  destruct (Py.truthy (Py.get_or av "available" d_false)); [eauto|].
  cbn [Py.bind].
  destruct (Py.truthy (Py.get_or av "online_access" d_false)); eauto.
Qed.

Lemma location_info_total (d av : Py.dict) (ls : list value) :
  Py.lookup d "availability" = Some (VDict av) ->
  Py.lookup av "locations" = Some (VList ls) ->
  _extract_location_info (VDict d)
  = Ok (match ls with
        | x :: _ => x
        | [] => if Py.truthy (Py.get_or av "online_access" d_false)
                then VStr "Online" else VStr "Unknown"
        end).
Proof.
  intros Hav Hls. unfold _extract_location_info.
  cbn [Py.get Py.bind]. rewrite !(get_or_found _ _ _ _ Hav).
  cbn [Py.get Py.bind]. rewrite !(get_or_found _ _ _ _ Hls).
  destruct ls as [|x ls]; cbn [Py.truthy item0 Py.bind]; [|reflexivity].
  now destruct (Py.truthy (Py.get_or av "online_access" d_false)).
Qed.

Lemma access_link_total (d : Py.dict) (links : list value) :
  Py.lookup d "links" = Some (VList links) ->
  List.forallb Py.is_dict links = true ->
  _extract_access_link (VDict d)
  = Ok (match links with
        | VDict link :: _ => Py.get_or link "url" (VStr "#")
        | _ => VStr "#"
        end).
Proof.
  intros Hl Hd. unfold _extract_access_link.
  cbn [Py.get Py.bind]. rewrite !(get_or_found _ _ _ _ Hl).
  destruct links as [|lk links]; cbn [Py.truthy Py.len Py.bind]; [reflexivity|].
  simpl in Hd. apply andb_true_iff in Hd as [Hlk _].
  destruct lk; try discriminate. reflexivity.
Qed.

Lemma library_match_total (r : value) :
  result_ok r = true -> exists m, library_match r = Ok m.
Proof.
  destruct r as [| | | | | |d]; try discriminate.
  unfold result_ok. intros H. apply andb_true_iff in H as [Hav Hlinks].
  destruct (Py.lookup d "availability") as [[| | | | | |av]|] eqn:Eav;
    try discriminate.
  destruct (Py.lookup av "locations") as [[| | | | |ls|]|] eqn:Els;
    try discriminate.
  destruct (Py.lookup d "links") as [[| | | | |links|]|] eqn:Elinks;
    try discriminate.
  destruct (determine_status_total d av Eav) as (status & Hstatus & _).
  unfold library_match.
  rewrite Hstatus, (location_info_total d av ls Eav Els),
    (access_link_total d links Elinks Hlinks).
  cbn [Py.get Py.bind].
  destruct (Py.truthy (Py.get_or d "creator" VNone)); cbn [Py.bind];
    eexists; reflexivity.
Qed.

Lemma library_matches_of_total (rs : list value) :
  List.forallb result_ok rs = true ->
  exists ms, library_matches_of rs = Ok ms /\ List.length ms = List.length rs.
Proof.
  induction rs as [|r rs IH]; simpl; intros H; [now exists []|].
  apply andb_true_iff in H as [Hr Hrs].
  destruct (library_match_total r Hr) as (m & ->).
  destruct (IH Hrs) as (ms & -> & Hlen). simpl.
  exists (m :: ms). split; [reflexivity | simpl; now rewrite Hlen].
Qed.

Lemma not_found_error_answer (title : value) (m : string) :
  answer_ok (not_found_error title m).
Proof. eexists. split; [reflexivity | now left]. Qed.

Lemma query_parts_empty (title author : value) :
  Py.truthy title = false -> Py.truthy author = false ->
  query_parts title author = Ok [].
Proof. unfold query_parts. now intros -> ->. Qed.

(** what one search hands back and what it does with the log of requests *)
Lemma search_single_item_log (c : client) (net : transport)
    (sent : list request) (title author : value) :
  answer_ok (fst (_search_single_item c net sent title author))
  /\ (snd (_search_single_item c net sent title author) = sent
      \/ exists query,
           snd (_search_single_item c net sent title author)
           = (sent ++ [Request (str_of_option (api_base_url c) ++ "/search")
                         (search_params c query)])%list)
  /\ (session_open c = false ->
      snd (_search_single_item c net sent title author) = sent).
Proof.
  unfold _search_single_item.
  destruct (query_parts title author) as [[|part parts]|e]; cbn [fst snd];
    try (repeat split; [apply not_found_error_answer | now left]).
  destruct (session_open c); cbn [negb fst snd];
    [|repeat split; [apply not_found_error_answer | now left]].
  match goal with
  | |- context [net ?n ?r] => destruct (net n r) as [e|status json text]
  end;
    [| destruct (status =? 200)%Z; [destruct json | destruct text]];
    cbn [fst snd];
    (split; [first [apply not_found_error_answer | apply parse_search_results_answer]|]);
    (split; [right; eexists; reflexivity | discriminate]).
Qed.

Lemma entry_of_search_answer (title material : value) (d : Py.dict) :
  answer_ok (VDict d) ->
  exists entry,
    entry_of_search title (VDict (Py.store d "original_material" material)) = Ok entry
    /\ entry_shape entry.
Proof.
  intros (d0 & [= <-] & H).
  unfold entry_of_search, found_with_results. cbn [Py.get Py.bind].
  unfold Py.get_or. rewrite !lookup_store_other by discriminate.
  destruct H as [-> | (-> & rs & -> & Hlen & Hok)]; cbn [Py.truthy Py.bind].
  - eexists. split; [reflexivity|]. exists title, []. right. right. now split.
  - destruct rs as [|r rs]; [simpl in Hlen; lia|].
    cbn [Py.truthy Py.bind Py.iter].
    destruct (library_matches_of_total (r :: rs) Hok) as (ms & -> & Hms).
    cbn [Py.bind]. eexists. split; [reflexivity|].
    exists title, ms. right. left. split; [reflexivity | now rewrite Hms].
Qed.

Lemma grows_by_intro (n : nat) (st st' : progress)
    (r l : list value) (q : list request) :
  results st' = (results st ++ r)%list ->
  library_matches st' = (library_matches st ++ l)%list ->
  calls st' = (calls st ++ q)%list ->
  List.length q <= List.length r ->
  List.length r <= List.length l ->
  List.length l <= n ->
  Forall entry_shape l ->
  grows_by n st st'.
Proof. intros. exists r, l, q. tauto. Qed.

Lemma grows_by_refl (st : progress) : grows_by 0 st st.
Proof.
  apply (grows_by_intro 0 st st [] [] []); rewrite ?app_nil_r; auto.
Qed.

Lemma grows_by_more (n m : nat) (st st' : progress) :
  n <= m -> grows_by n st st' -> grows_by m st st'.
Proof.
  intros Hle (r & l & q & ? & ? & ? & ? & ? & ? & ?).
  apply (grows_by_intro m st st' r l q); auto. lia.
Qed.

Lemma grows_by_trans (n m : nat) (a b c : progress) :
  grows_by n a b -> grows_by m b c -> grows_by (n + m) a c.
Proof.
  intros (r1 & l1 & q1 & Hr1 & Hl1 & Hq1 & ? & ? & ? & F1)
         (r2 & l2 & q2 & Hr2 & Hl2 & Hq2 & ? & ? & ? & F2).
  apply (grows_by_intro (n + m) a c (r1 ++ r2) (l1 ++ l2) (q1 ++ q2))%list;
    rewrite ?Hr2, ?Hl2, ?Hq2, ?Hr1, ?Hl1, ?Hq1, <- ?app_assoc, ?length_app;
    auto; try lia.
  apply Forall_app. now split.
Qed.

Lemma not_found_shape (title : value) :
  Forall entry_shape [match_entry title score_not_found []].
Proof.
  constructor; [|constructor]. exists title, []. right. right. now split.
Qed.

Lemma search_and_record_grows (c : client) (net : transport)
    (material title author : value) (st : progress) :
  exists st',
    search_and_record c net material title author st = Done st'
    /\ grows_by 1 st st'.
Proof.
  unfold search_and_record.
  destruct (Py.truthy title).
  2:{ exists st. split; [reflexivity|].
      apply grows_by_more with 0; [lia | apply grows_by_refl]. }
  destruct (has_key c).
  - destruct (search_single_item_log c net (calls st) title author)
      as ((d & Hsr & Hanswer) & Hlog & _).
    destruct (_search_single_item c net (calls st) title author) as [sr sent].
    cbn [fst snd] in *. subst sr. cbn [Py.setitem Py.bind].
    destruct (entry_of_search_answer title material d) as (entry & -> & Hshape).
    { now exists d. }
    cbn [Py.bind]. eexists. split; [reflexivity|].
    assert (Hentry : Forall entry_shape [entry]) by (constructor; [assumption | constructor]).
    destruct Hlog as [-> | (query & ->)].
    + apply (grows_by_intro 1 _ _
               [VDict (Py.store d "original_material" material)] [entry] []);
        cbn [results library_matches calls]; rewrite ?app_nil_r; simpl; auto.
    + eapply (grows_by_intro 1 _ _
                [VDict (Py.store d "original_material" material)] [entry] [_]);
        cbn [results library_matches calls]; simpl; auto.
  - eexists. split; [reflexivity|].
    apply (grows_by_intro 1 _ _ [] [match_entry title score_not_found []] []);
      cbn [results library_matches calls]; rewrite ?app_nil_r; simpl; auto.
    apply not_found_shape.
Qed.

Lemma classify_resolved_shape (material entry : value) :
  classify material = Ok (Resolved entry) -> entry_shape entry.
Proof.
  unfold classify.
  destruct material as [| | | | |l|m]; try discriminate.
  destruct (Py.lower (Py.get_or m "type" (Py.get_or m "media_type" (VStr ""))))
    as [t|e]; cbn [Py.bind]; [|discriminate].
  destruct (Py.lower (Py.get_or m "requirement" (VStr "")))
    as [r|e]; cbn [Py.bind]; [|discriminate].
  destruct (String.eqb r "equipment" || String.eqb t "equipment"); [discriminate|].
  destruct (usable_url (Py.get_or m "url" (VStr ""))) as [[|]|e];
    cbn [Py.bind]; try discriminate.
  intros [= <-]. eexists _, _. left. split; reflexivity.
Qed.

Lemma lower_raises (v : value) (e : exn) :
  Py.lower v = Raise e -> Py.is_str v = false.
Proof. destruct v; simpl; congruence. Qed.

(** an item that cannot be read has a field that is not a string *)
Lemma classify_raises (material : value) (e : exn) :
  classify material = Raise e ->
  exists item,
    material = VDict item
    /\ (Py.is_str (Py.get_or item "type" (Py.get_or item "media_type" (VStr ""))) = false
        \/ Py.is_str (Py.get_or item "requirement" (VStr "")) = false
        \/ Py.is_str (Py.get_or item "url" (VStr "")) = false).
Proof.
  unfold classify.
  destruct material as [| | | | |l|m]; try discriminate.
  intros H. exists m. split; [reflexivity|].
  destruct (Py.lower (Py.get_or m "type" (Py.get_or m "media_type" (VStr ""))))
    as [t|e1] eqn:Et; cbn [Py.bind] in H;
    [|left; now apply lower_raises with e1].
  destruct (Py.lower (Py.get_or m "requirement" (VStr "")))
    as [r|e2] eqn:Er; cbn [Py.bind] in H;
    [|right; left; now apply lower_raises with e2].
  destruct (String.eqb r "equipment" || String.eqb t "equipment"); [discriminate|].
  right. right.
  unfold usable_url in H.
  destruct (Py.truthy (Py.get_or m "url" (VStr ""))); [|discriminate].
  destruct (Py.lower (Py.get_or m "url" (VStr ""))) as [u|e3] eqn:Eu;
    cbn [Py.bind] in H; [|now apply lower_raises with e3].
  destruct (negb (existsb (String.eqb u) url_placeholders)); discriminate.
Qed.

Lemma process_material_outcome (c : client) (net : transport)
    (material : value) (st : progress) :
  match classify material with
  | Ok _ =>
      exists st', process_material c net material st = Done st'
                  /\ grows_by 1 st st'
  | Raise e => process_material c net material st = Failed e (calls st)
  end.
Proof.
  unfold process_material.
  destruct (classify material) as [[|entry|title author]|e] eqn:Hc.
  - exists st. split; [reflexivity|].
    apply grows_by_more with 0; [lia | apply grows_by_refl].
  - eexists. split; [reflexivity|].
    apply (grows_by_intro 1 _ _ [] [entry] []);
      cbn [results library_matches calls]; rewrite ?app_nil_r; simpl; auto.
    constructor; [|constructor]. now apply classify_resolved_shape with material.
  - apply search_and_record_grows.
  - reflexivity.
Qed.

Lemma for_materials_outcome (c : client) (net : transport) (materials : list value) :
  forall st,
    match for_materials c net materials st with
    | Done st' => grows_by (List.length materials) st st'
    | Failed e sent =>
        exists before material after st1,
          materials = (before ++ material :: after)%list
          /\ for_materials c net before st = Done st1
          /\ classify material = Raise e
          /\ sent = calls st1
    end.
Proof.
  induction materials as [|m ms IH]; intros st; cbn [for_materials].
  - apply grows_by_refl.
  - pose proof (process_material_outcome c net m st) as Hm.
    destruct (classify m) as [dcs|e] eqn:Hc.
    + destruct Hm as (st1 & Hp & G1). rewrite Hp.
      specialize (IH st1).
      destruct (for_materials c net ms st1) as [st'|e sent].
      * change (List.length (m :: ms)) with (1 + List.length ms).
        now apply grows_by_trans with st1.
      * destruct IH as (before & x & after & st2 & -> & Hb & Hx & Hsent).
        exists (m :: before), x, after, st2. repeat split; auto.
        cbn [for_materials]. now rewrite Hp.
    + rewrite Hm. exists [], m, ms, st. repeat split; auto.
Qed.

End LoopFacts.

(** ** Requests, failures and counts *)

Module ReportFacts.

Import Primo Answers PrimoFacts AnswerFacts LoopFacts.

(** X13. One call of [_search_single_item] never raises and sends at most
    one request, to the search endpoint of the base URL, with the query
    and offset 0, limit 5, sort by rank. It sends none when the session is
    not open, and none when both title and author are empty, in which case
    the answer is the "No search terms provided" error. What it hands
    back is a dictionary with found = false, or with found = true and one
    to three results. *)
Theorem single_search_sends_at_most_one_request
    (c : client) (net : transport) (sent : list request) (title author : value) :
  let out := _search_single_item c net sent title author in
  answer_ok (fst out)
  /\ (snd out = sent
      \/ exists query,
           snd out
           = (sent ++ [Request (str_of_option (api_base_url c) ++ "/search")
                         [ ("apikey", api_key c);
                           ("q", Some query);
                           ("tab", tab c);
                           ("scope", scope c);
                           ("vid", vid c);
                           ("lang", Some "en");
                           ("offset", Some "0");
                           ("limit", Some "5");
                           ("sort", Some "rank") ]])%list)
  /\ (session_open c = false -> snd out = sent)
  /\ (Py.truthy title = false -> Py.truthy author = false ->
      out = (VDict [ ("found", VBool false);
                     ("error", VStr "No search terms provided");
                     ("title", title) ], sent)).
Proof.
  intros out. subst out.
  destruct (search_single_item_log c net sent title author) as (Ha & Hl & Hs).
  repeat split; auto.
  intros Ht Hau. unfold _search_single_item.
  now rewrite (query_parts_empty title author Ht Hau).
Qed.

(** X14. A turn of the loop fails only on an item that cannot be read: a
    dictionary whose type (or media_type), requirement or url is not a
    string. It then fails before anything is sent for the item. Every
    other item ends its turn normally whatever the discovery service
    answers, adding at most one result, one entry and one request. *)
Theorem only_an_unreadable_item_fails
    (c : client) (net : transport) (material : value) (st : progress) :
  match classify material with
  | Ok _ =>
      exists st', process_material c net material st = Done st'
                  /\ grows_by 1 st st'
  | Raise e =>
      process_material c net material st = Failed e (calls st)
      /\ exists item,
           material = VDict item
           /\ (Py.is_str (Py.get_or item "type"
                            (Py.get_or item "media_type" (VStr ""))) = false
               \/ Py.is_str (Py.get_or item "requirement" (VStr "")) = false
               \/ Py.is_str (Py.get_or item "url" (VStr "")) = false)
  end.
Proof.
  pose proof (process_material_outcome c net material st) as H.
  destruct (classify material) as [d|e] eqn:Hc; [exact H|].
  split; [exact H | now apply classify_raises with e].
Qed.

Lemma for_materials_failed (c : client) (net : transport)
    (before after : list value) (material : value) (e : exn) (st st1 : progress) :
  for_materials c net before st = Done st1 ->
  classify material = Raise e ->
  for_materials c net (before ++ material :: after)%list st = Failed e (calls st1).
Proof.
  intros Hb Hc. rewrite for_materials_app, Hb. cbn [for_materials].
  pose proof (process_material_outcome c net material st1) as H.
  rewrite Hc in H. now rewrite H.
Qed.

(** X15. When an item of the reading list cannot be read, the whole report
    is the error report with that item's message: the matches recorded
    for the items before it are not in the report, although the requests
    for those items have been sent, and the items after it are not looked
    at. *)
Theorem unreadable_item_discards_earlier_matches
    (c : client) (net : transport) (metadata material : value)
    (before after : list value) (e : exn) (st1 : progress) :
  session_open c = true ->
  Py.get metadata "reading_materials" (VList [])
    = Ok (VList (before ++ material :: after)%list) ->
  for_materials c net before start = Done st1 ->
  classify material = Raise e ->
  search_by_metadata c net metadata
  = (Ok (VDict [ ("found", VBool false);
                 ("error", VStr (msg e));
                 ("metadata", metadata);
                 ("library_matches", VList []) ]),
     calls st1).
Proof.
  intros Hopen Hget Hb Hc.
  unfold search_by_metadata, search_body. rewrite Hopen, Hget.
  assert (Ht : Py.truthy (VList (before ++ material :: after)%list) = true).
  { now destruct before. }
  rewrite Ht. cbn [negb Py.iter].
  rewrite (for_materials_failed c net before after material e start st1 Hb Hc).
  reflexivity.
Qed.

(** X15 at a list whose second item has a null requirement *)
Lemma unreadable_item_discards_earlier_matches_witness :
  exists report sent,
    search_by_metadata library one_doc
      (reading_list [VStr "Cognitive Psychology"; item_with_null_requirement])
    = (Ok report, sent)
    /\ field report "error"
       = Some (VStr "'NoneType' object has no attribute 'lower'")
    /\ field report "library_matches" = Some (VList [])
    /\ List.length sent = 1.
Proof.
  destruct (process_material library one_doc (VStr "Cognitive Psychology") start)
    as [st1|e0 s0] eqn:Hfirst; [|vm_compute in Hfirst; discriminate].
  assert (Hb : for_materials library one_doc [VStr "Cognitive Psychology"] start
               = Done st1).
  { cbn [for_materials]. now rewrite Hfirst. }
  pose proof (unreadable_item_discards_earlier_matches library one_doc
                (reading_list [VStr "Cognitive Psychology"; item_with_null_requirement])
                item_with_null_requirement [VStr "Cognitive Psychology"] []
                (Exn "AttributeError" "'NoneType' object has no attribute 'lower'")
                st1 eq_refl eq_refl Hb eq_refl) as Hrun.
  eexists _, _. split; [exact Hrun|]. repeat split.
  vm_compute in Hfirst. injection Hfirst as <-. reflexivity.
Defined.

Lemma len_of_iter (v : value) (items : list value) :
  Py.iter v = Ok items -> Py.len v = Ok (List.length items).
Proof.
  destruct v; simpl; try discriminate; intros [= <-]; f_equal.
  - induction s as [|c s IH]; simpl; [reflexivity | now rewrite IH].
  - now rewrite length_map.
Qed.

(** a run that ends well, read off the definition *)
Lemma success_run_grows (c : client) (net : transport)
    (metadata report : value) (sent : list request) :
  search_by_metadata c net metadata = (Ok report, sent) ->
  field report "error" = None ->
  exists materials st,
    for_materials c net materials start = Done st
    /\ sent = calls st
    /\ report = success_report metadata (List.length materials)
                  (List.filter is_found (results st)) st.
Proof.
  unfold search_by_metadata.
  destruct (session_open c); cbn [negb]; [|discriminate].
  destruct (search_body c net metadata) as [outcome sent'] eqn:E.
  intros [= <- <-].
  destruct outcome as [r|e]; cbn [try_except]; [|discriminate].
  unfold search_body in E.
  destruct (Py.get metadata "reading_materials" (VList [])) as [rm|e]; [|discriminate].
  destruct (negb (Py.truthy rm)).
  { injection E as <- <-. discriminate. }
  destruct (Py.iter rm) as [ms|e] eqn:Hiter; [|discriminate].
  destruct (for_materials c net ms start) as [st|e s'] eqn:Hloop; [|discriminate].
  assert (Hst : Invariants.consistent st).
  { eapply for_materials_consistent; [apply start_consistent | exact Hloop]. }
  rewrite (found_results_filter _ (Invariants.results_are_dicts st Hst)) in E.
  rewrite (len_of_iter rm ms Hiter) in E. cbn [Py.bind] in E.
  injection E as <- <-. intros _. now exists ms, st.
Qed.

(** X16. In every report without an error the counts are ordered:
    found_materials is at most the number of results, the number of
    results at most the number of library_matches entries, and that at
    most total_materials; the requests sent are no more than the results.
    Every entry of library_matches has score 1.0 with exactly one match,
    score 0.8 with one to three matches, or score 0.0 with none. *)
Theorem report_counts_are_ordered
    (c : client) (net : transport) (metadata report : value)
    (sent : list request) :
  search_by_metadata c net metadata = (Ok report, sent) ->
  field report "error" = None ->
  exists total found rs lm,
    field report "total_materials" = Some (VInt (Z.of_nat total))
    /\ field report "found_materials" = Some (VInt (Z.of_nat found))
    /\ field report "results" = Some (VList rs)
    /\ field report "library_matches" = Some (VList lm)
    /\ found <= List.length rs
    /\ List.length rs <= List.length lm
    /\ List.length lm <= total
    /\ List.length sent <= List.length rs
    /\ Forall entry_shape lm.
Proof.
  intros Hrun Herr.
  destruct (success_run_grows c net metadata report sent Hrun Herr)
    as (ms & st & Hloop & -> & ->).
  pose proof (for_materials_outcome c net ms start) as G.
  rewrite Hloop in G.
  destruct G as (r & l & q & Hr & Hl & Hq & Hqr & Hrl & Hln & Hshape).
  cbn [results library_matches calls start app] in Hr, Hl, Hq.
  exists (List.length ms), (List.length (List.filter is_found (results st))),
    (results st), (library_matches st).
  subst r l q. repeat split; auto.
  apply filter_length_le.
Qed.

(** X16 at a list of a book with a url and a title that is found *)
Lemma report_counts_are_ordered_witness :
  exists report sent total found,
    search_by_metadata library one_doc
      (reading_list [VDict online_book; VStr "Cognitive Psychology"])
      = (Ok report, sent)
    /\ field report "total_materials" = Some (VInt (Z.of_nat total))
    /\ field report "found_materials" = Some (VInt (Z.of_nat found))
    /\ found <= total.
Proof.
  eexists _, _.
  destruct (report_counts_are_ordered library one_doc
              (reading_list [VDict online_book; VStr "Cognitive Psychology"])
              _ _ eq_refl eq_refl)
    as (total & found & rs & lm & Ht & Hf & _ & _ & H1 & H2 & H3 & _).
  exists total, found. split; [reflexivity|]. repeat split; auto. lia.
Defined.

Lemma process_material_without_key (c : client) (net : transport)
    (material : value) (st : progress) :
  has_key c = false ->
  match process_material c net material st with
  | Done st' => results st' = results st /\ calls st' = calls st
  | Failed _ sent => sent = calls st
  end.
Proof.
  intros Hkey. unfold process_material, search_and_record. rewrite Hkey.
  destruct (classify material) as [[|entry|title author]|e]; cbn; auto.
  destruct (Py.truthy title); cbn; auto.
Qed.

Lemma for_materials_without_key (c : client) (net : transport)
    (materials : list value) :
  has_key c = false ->
  forall st,
    match for_materials c net materials st with
    | Done st' => results st' = results st /\ calls st' = calls st
    | Failed _ sent => sent = calls st
    end.
Proof.
  intros Hkey. induction materials as [|m ms IH]; intros st; cbn [for_materials]; auto.
  pose proof (process_material_without_key c net m st Hkey) as Hm.
  destruct (process_material c net m st) as [st1|e sent]; [|assumption].
  destruct Hm as [Hr Hc]. specialize (IH st1).
  destruct (for_materials c net ms st1) as [st'|e sent].
  - destruct IH as [-> ->]. now split.
  - congruence.
Qed.

(** X17. Without an API key [search_by_metadata] sends no request at all,
    whatever the metadata; and a report without an error then has no
    results, found = false and found_materials = 0, even when items were
    resolved by their own url. *)
Theorem without_a_key_nothing_is_requested
    (c : client) (net : transport) (metadata : value) :
  has_key c = false ->
  snd (search_by_metadata c net metadata) = []
  /\ (forall report,
        fst (search_by_metadata c net metadata) = Ok report ->
        field report "error" = None ->
        field report "results" = Some (VList [])
        /\ field report "found" = Some (VBool false)
        /\ field report "found_materials" = Some (VInt 0)).
Proof.
  intros Hkey. split.
  - unfold search_by_metadata.
    destruct (session_open c); cbn [negb]; [|reflexivity].
    unfold search_body.
    destruct (Py.get metadata "reading_materials" (VList [])) as [rm|e];
      [|reflexivity].
    destruct (negb (Py.truthy rm)); [reflexivity|].
    destruct (Py.iter rm) as [ms|e]; [|reflexivity].
    pose proof (for_materials_without_key c net ms Hkey start) as H.
    destruct (for_materials c net ms start) as [st|e s']; cbn [snd].
    + now destruct H.
    + exact H.
  - intros report Hrun Herr.
    destruct (search_by_metadata c net metadata) as [out sent] eqn:E.
    cbn [fst] in Hrun. subst out.
    destruct (success_run_grows c net metadata report sent E Herr)
      as (ms & st & Hloop & -> & ->).
    pose proof (for_materials_without_key c net ms Hkey start) as H.
    rewrite Hloop in H. destruct H as [Hr _]. cbn [results start] in Hr.
    cbn [field success_report Py.lookup String.eqb Ascii.eqb Bool.eqb].
    rewrite Hr. repeat split.
Qed.

(** X17 at a list with a book that has a url *)
Lemma without_a_key_nothing_is_requested_witness :
  has_key library_without_key = false
  /\ snd (search_by_metadata library_without_key one_doc
            (reading_list [VDict online_book; VStr "Cognitive Psychology"])) = [].
Proof.
  split; [reflexivity|].
  exact (proj1 (without_a_key_nothing_is_requested library_without_key one_doc
                  (reading_list [VDict online_book; VStr "Cognitive Psychology"])
                  eq_refl)).
Defined.

(** X18. [check_metadata_availability] enters the session itself, so it
    returns a report for every client configuration and every metadata
    object and never raises: the report for an empty reading list, an
    error report, or a report with counts and matches. *)
Theorem check_metadata_availability_always_reports
    (c : client) (net : transport) (metadata : value) :
  exists report sent,
    check_metadata_availability c net metadata = (Ok report, sent)
    /\ (report = no_materials_report metadata
        \/ (exists e, report = error_report metadata e)
        \/ (exists total found st,
              report = success_report metadata total found st)).
Proof.
  unfold check_metadata_availability.
  destruct (search_by_metadata (entered c) net metadata) as [out sent] eqn:E.
  assert (Hok : exists report, out = Ok report).
  { unfold search_by_metadata in E. cbn [entered session_open negb] in E.
    destruct (search_body (entered c) net metadata). injection E as <- _. eauto. }
  destruct Hok as (report & ->).
  exists report, sent. split; [reflexivity|].
  now apply report_shape with (entered c) net sent.
Qed.

End ReportFacts.

(** ** Links and locations of a match *)

Module MatchFacts.

Import Primo Answers Links PrimoFacts AnswerFacts LoopFacts.

Lemma collect_links_usable (l : list value) :
  collect_links l = List.map link_info (List.filter usable_link l).
Proof.
  induction l as [|x l IH]; [reflexivity|].
  destruct x; cbn [collect_links List.filter usable_link]; try exact IH.
  destruct (Py.truthy (Py.get_or d "linkURL" (VStr ""))); cbn [List.map link_info];
    now rewrite IH.
Qed.

Lemma chars_not_usable (s : string) : List.filter usable_link (Py.chars s) = [].
Proof. induction s as [|c s IH]; [reflexivity | exact IH]. Qed.

Lemma keys_not_usable (d : Py.dict) :
  List.filter usable_link (List.map (fun kv => VStr (fst kv)) d) = [].
Proof. induction d as [|kv d IH]; [reflexivity | exact IH]. Qed.

(** what [_extract_links] keeps of the delivery record of a document *)
Lemma extract_links_of_doc (d : Py.dict) :
  _extract_links (Py.get_or d "delivery" (VDict []))
  = VList (List.map link_info (List.filter usable_link (raw_links (VDict d)))).
Proof.
  unfold _extract_links, raw_links, links_of, delivery_of, list_at.
  cbn [field]. unfold Py.get_or at 1.
  destruct (Py.lookup d "delivery") as [delivery|]; [|reflexivity].
  destruct delivery as [| | | | | |dl]; try reflexivity.
  cbn [Py.get Py.bind field]. unfold Py.get_or.
  destruct (Py.lookup dl "link") as [[| | | |s|l|dd]|]; try reflexivity.
  - cbn [Py.iter Py.bind try_except].
    now rewrite collect_links_usable, chars_not_usable.
  - cbn [Py.iter Py.bind try_except]. now rewrite collect_links_usable.
  - cbn [Py.iter Py.bind try_except].
    now rewrite collect_links_usable, keys_not_usable.
Qed.

Lemma parse_doc_links (doc r : value) :
  parse_doc doc = Ok r ->
  exists d rd,
    doc = VDict d /\ r = VDict rd
    /\ Py.lookup rd "links"
       = Some (VList (List.map link_info (List.filter usable_link (raw_links doc))))
    /\ Py.lookup rd "availability" = Some (_check_availability doc).
Proof.
  unfold parse_doc.
  destruct doc as [| | | | | |d]; try discriminate.
  cbn [Py.get Py.bind].
  destruct (Py.get (Py.get_or d "pnx" (VDict [])) "display" (VDict []))
    as [display|e]; cbn [Py.bind]; [|discriminate].
  destruct (Py.get (Py.get_or d "pnx" (VDict [])) "addata" (VDict []))
    as [addata|e]; cbn [Py.bind]; [|discriminate].
  destruct (Py.get display "title" (VList [])) as [t|e]; cbn [Py.bind]; [|discriminate].
  destruct (Py.get display "creator" (VList [])) as [cr|e]; cbn [Py.bind]; [|discriminate].
  destruct (Py.get display "type" (VList [VStr "Unknown"])) as [ty|e]; cbn [Py.bind];
    [|discriminate].
  destruct (Py.get addata "date" (VList [])) as [dt|e]; cbn [Py.bind]; [|discriminate].
  destruct (Py.get addata "isbn" (VList [])) as [isbn|e]; cbn [Py.bind]; [|discriminate].
  destruct (Py.get addata "issn" (VList [])) as [issn|e]; cbn [Py.bind]; [|discriminate].
  destruct (Py.get addata "pub" (VList [])) as [pub|e]; cbn [Py.bind]; [|discriminate].
  intros [= <-]. eexists _, _. split; [reflexivity|]. split; [reflexivity|].
  split; [|reflexivity].
  cbn [Py.lookup String.eqb Ascii.eqb Bool.eqb]. now rewrite extract_links_of_doc.
Qed.

Lemma link_infos_are_dicts (l : list value) :
  List.forallb Py.is_dict (List.map link_info (List.filter usable_link l)) = true.
Proof. rewrite <- collect_links_usable. apply collect_links_dicts. Qed.

(** X19. Of the delivery links of a document, the result keeps those that
    are dictionaries with a non-empty linkURL, in their order, and the
    link of the match is the linkURL of the first of them, a non-empty
    value; when none is kept (no link list, or no link with a URL) the
    link is the placeholder "#". *)
Theorem match_link_is_the_first_usable_link (doc r : value) :
  parse_doc doc = Ok r ->
  field r "links"
  = Some (VList (List.map link_info (List.filter usable_link (raw_links doc))))
  /\ exists link,
       _extract_access_link r = Ok link
       /\ ((List.filter usable_link (raw_links doc) = [] /\ link = VStr "#")
           \/ (exists l rest,
                 List.filter usable_link (raw_links doc) = VDict l :: rest
                 /\ link = Py.get_or l "linkURL" (VStr "")
                 /\ Py.truthy link = true)).
Proof.
  intros Hparse.
  destruct (parse_doc_links doc r Hparse) as (d & rd & -> & -> & Hlinks & _).
  split; [exact Hlinks|].
  rewrite (access_link_total rd _ Hlinks (link_infos_are_dicts _)).
  eexists. split; [reflexivity|].
  destruct (List.filter usable_link (raw_links (VDict d))) as [|x rest] eqn:E.
  - left. now split.
  - right.
    assert (Hx : usable_link x = true).
    { assert (Hin : In x (List.filter usable_link (raw_links (VDict d))))
        by (rewrite E; now left).
      now apply filter_In in Hin. }
    destruct x as [| | | | | |l]; try discriminate.
    exists l, rest. repeat split. exact Hx.
Qed.

(** X19 at a document with one delivery link *)
Lemma match_link_is_the_first_usable_link_witness :
  exists r link,
    parse_doc online_only_doc = Ok r
    /\ _extract_access_link r = Ok link
    /\ link = VStr "https://example.com/book".
Proof.
  destruct (parse_doc online_only_doc) as [r|e] eqn:E;
    [|vm_compute in E; discriminate].
  destruct (match_link_is_the_first_usable_link online_only_doc r E)
    as (_ & link & Hlink & _).
  exists r, link. split; [reflexivity|]. split; [exact Hlink|].
  vm_compute in E. injection E as <-.
  vm_compute in Hlink. now injection Hlink as <-.
Defined.

Lemma visit_holding_appends (holding : value) (a : availability) :
  holding_ok holding = true ->
  exists a1 extra,
    visit_holding holding a = Ok a1
    /\ locations a1 = (locations a ++ extra)%list
    /\ (locations a = [] -> extra = location_name_of holding)
    /\ online_access a1 = online_access a.
Proof.
  intros Hok.
  destruct holding as [| | | | | |h]; try discriminate.
  cbn [holding_ok] in Hok. apply andb_true_iff in Hok as [Hloc Hitems].
  assert (Hlist : exists items,
            Py.get_or h "items" (VList []) = VList items
            /\ List.forallb Py.is_dict items = true).
  { unfold Py.get_or.
    destruct (Py.lookup h "items") as [v|]; [|now exists []].
    destruct v; try discriminate. now exists l. }
  destruct Hlist as (items & Hitems_eq & Hdicts).
  unfold visit_holding, location_name_of. cbn [Py.get Py.bind field].
  rewrite Hitems_eq. cbn [Py.iter Py.bind].
  unfold Py.get_or at 1 2.
  destruct (Py.lookup h "location") as [loc|]; cbn [Py.truthy Py.bind].
  2:{ rewrite (count_items_spec items Hdicts a).
      eexists _, []. cbn [locations online_access]. rewrite app_nil_r. auto. }
  destruct loc as [| | | | | |loc]; try discriminate.
  destruct loc as [|entry loc]; cbn [Py.truthy Py.bind Py.get].
  { rewrite (count_items_spec items Hdicts a).
    eexists _, []. cbn [locations online_access]. rewrite app_nil_r. auto. }
  set (name := Py.get_or (entry :: loc) "mainLocation" (VStr "Unknown")).
  destruct (py_in name (locations a)) eqn:Hin; cbn [negb Py.bind].
  - rewrite (count_items_spec items Hdicts a).
    eexists _, []. cbn [locations online_access]. rewrite app_nil_r.
    repeat split; auto. intros Hempty. rewrite Hempty in Hin. discriminate.
  - rewrite (count_items_spec items Hdicts _).
    eexists _, [name]. cbn [locations online_access]. auto.
Qed.

Lemma visit_holdings_first (hs : list value) :
  List.forallb holding_ok hs = true ->
  forall a,
    exists a',
      visit_holdings hs a = Ok a'
      /\ online_access a' = online_access a
      /\ hd_error (locations a')
         = match locations a with
           | x :: _ => Some x
           | [] => hd_error (List.flat_map location_name_of hs)
           end.
Proof.
  induction hs as [|h hs IH]; intros Hok a; cbn [visit_holdings].
  - exists a. repeat split.
  - cbn [List.forallb] in Hok. apply andb_true_iff in Hok as [Hh Hhs].
    destruct (visit_holding_appends h a Hh) as (a1 & extra & -> & Hl & Hextra & Ho).
    cbn [Py.bind].
    destruct (IH Hhs a1) as (a' & -> & Ho' & Hhd).
    exists a'. split; [reflexivity|]. split; [congruence|].
    rewrite Hhd, Hl. cbn [List.flat_map].
    destruct (locations a) as [|x rest]; [|reflexivity].
    rewrite (Hextra eq_refl). cbn [app].
    destruct (location_name_of h); reflexivity.
Qed.

(** the judgment of a well-formed document, as far as the location needs it *)
Lemma check_availability_first_location (doc : value) :
  doc_ok doc = true ->
  exists a,
    _check_availability doc = availability_dict a
    /\ online_access a = inhabited (links_of doc)
    /\ hd_error (locations a)
       = hd_error (List.flat_map location_name_of (holdings_of doc)).
Proof.
  intros Hok.
  destruct doc as [| | | | | |d]; try discriminate.
  cbn [doc_ok] in Hok. apply andb_true_iff in Hok as [Hdel Hhold].
  assert (Hdelivery : exists cats links,
            Py.get (Py.get_or d "delivery" (VDict [])) "delcategory" (VList [])
            = Ok (VList cats)
            /\ Py.get (Py.get_or d "delivery" (VDict [])) "link" (VList [])
               = Ok (VList links)
            /\ links_of (VDict d) = links).
  { unfold links_of, delivery_of, list_at, Py.get_or. cbn [field].
    destruct (Py.lookup d "delivery") as [delivery|]; cbn [Py.get field Py.lookup];
      [|exists [], []; repeat split].
    destruct delivery as [| | | | | |dl]; try discriminate.
    apply andb_true_iff in Hdel as [Hcat Hlink]. cbn [Py.get field]. unfold Py.get_or.
    destruct (Py.lookup dl "delcategory") as [[| | | | |cats|]|];
      try discriminate;
      destruct (Py.lookup dl "link") as [[| | | | |links|]|];
      try discriminate; eexists _, _; repeat split. }
  destruct Hdelivery as (cats & links & Hcats & Hlinks & Hlinks_of).
  assert (Hholdings : exists hs,
            Py.get_or d "holdings" (VList []) = VList hs
            /\ holdings_of (VDict d) = hs
            /\ List.forallb holding_ok hs = true).
  { unfold holdings_of, list_at, Py.get_or. cbn [field].
    destruct (Py.lookup d "holdings") as [v|]; [|now exists []].
    destruct v; try discriminate. now exists l. }
  destruct Hholdings as (hs & Hhs & Hhs_of & Hhs_ok).
  set (a0 := Availability
               (inhabited cats || inhabited links) [] (inhabited links) 0
               (if inhabited cats then VList cats else VList [])).
  destruct (visit_holdings_first hs Hhs_ok a0) as (a & Hvisit & Ho & Hhd).
  exists a. rewrite Hlinks_of, Hhs_of. split; [|split; [exact Ho | exact Hhd]].
  unfold _check_availability, check_availability_body.
  change (Py.get (VDict d) "delivery" (VDict []))
    with (Ok (Py.get_or d "delivery" (VDict []))).
  change (Py.get (VDict d) "holdings" (VList []))
    with (Ok (Py.get_or d "holdings" (VList []))).
  cbn [Py.bind]. rewrite Hcats. cbn [Py.bind]. rewrite Hlinks.
  cbn [Py.bind]. rewrite Hhs. cbn [Py.bind Py.iter].
  replace (visit_holdings hs _) with (Ok a); [reflexivity|].
  rewrite <- Hvisit. f_equal. unfold a0, initial_availability.
  destruct cats, links; reflexivity.
Qed.

(** X20. For a result document of the documented shape, the location of
    the match is the main-location name of the first holding that has a
    location record ("Unknown" when that record has no name); without such
    a holding it is "Online" when the document has a delivery link and
    "Unknown" otherwise. *)
Theorem match_location_is_the_first_holding (doc r : value) :
  doc_ok doc = true ->
  parse_doc doc = Ok r ->
  _extract_location_info r
  = Ok (match List.flat_map location_name_of (holdings_of doc) with
        | name :: _ => name
        | [] => if inhabited (links_of doc) then VStr "Online" else VStr "Unknown"
        end).
Proof.
  intros Hok Hparse.
  destruct (parse_doc_links doc r Hparse) as (d & rd & -> & -> & _ & Hav).
  destruct (check_availability_first_location (VDict d) Hok)
    as (a & Hdict & Honline & Hhd).
  rewrite Hdict in Hav.
  rewrite (location_info_total rd _ (locations a) Hav eq_refl).
  destruct (List.flat_map location_name_of (holdings_of (VDict d))) as [|name rest];
    destruct (locations a) as [|x ls]; try discriminate.
  - cbn [Py.get_or Py.lookup availability_dict String.eqb Ascii.eqb Bool.eqb].
    rewrite Honline. now destruct (inhabited (links_of (VDict d))).
  - now injection Hhd as ->.
Qed.

(** X20 at a document with copies in one library *)
Lemma match_location_is_the_first_holding_witness :
  exists r,
    parse_doc shelved_doc = Ok r
    /\ _extract_location_info r = Ok (VStr "King Library").
Proof.
  destruct (parse_doc shelved_doc) as [r|e] eqn:E;
    [|vm_compute in E; discriminate].
  exists r. split; [reflexivity|].
  exact (match_location_is_the_first_holding shelved_doc r eq_refl E).
Defined.

End MatchFacts.

(** ** File names of the downloads *)

Module DownloaderFacts.

Import Denotation Primo Downloader Names EngineFacts PatternFacts QueryFacts.

Example splitext_samples :
  List.map splitext ["a.pdf"; ".pdf"; "a/.pdf"; "a.b/c"; "a.b/c.d.e"; "...x.pdf";
                     "...."; "a..pdf"; "noext"; "dir.d/.hidden.txt"; "x/"; "a."]
  = [ ("a", ".pdf"); (".pdf", ""); ("a/.pdf", ""); ("a.b/c", "");
      ("a.b/c.d", ".e"); ("...x", ".pdf"); ("....", ""); ("a.", ".pdf");
      ("noext", ""); ("dir.d/.hidden", ".txt"); ("x/", ""); ("a", ".") ].
Proof. vm_compute. reflexivity. Qed.

(** *** [sanitize_filename] *)

Lemma all_impl (p q : ascii -> bool) (w : string) :
  (forall c, p c = true -> q c = true) -> all p w = true -> all q w = true.
Proof.
  intros Hpq. induction w as [|c w IH]; simpl; [reflexivity|].
  intros H. apply andb_true_iff in H as [Hc Hw].
  now rewrite (Hpq c Hc), (IH Hw).
Qed.

Lemma all_and (p q : ascii -> bool) (w : string) :
  all (fun c => p c && q c) w = all p w && all q w.
Proof.
  induction w as [|c w IH]; simpl; [reflexivity|].
  rewrite IH. destruct (p c), (q c), (all p w); reflexivity.
Qed.

Lemma all_take (p : ascii -> bool) (n : nat) (w : string) :
  all p w = true -> all p (Str.take n w) = true.
Proof.
  revert w. induction n as [|n IH]; intros [|c w]; simpl; try reflexivity.
  intros H. apply andb_true_iff in H as [Hc Hw]. now rewrite Hc, (IH w Hw).
Qed.

Lemma length_take (n : nat) (w : string) : String.length (Str.take n w) <= n.
Proof.
  revert w. induction n as [|n IH]; intros [|c w]; simpl; try lia.
  specialize (IH w). lia.
Qed.

Lemma all_join (p : ascii -> bool) (sep : string) (ws : list string) :
  all p sep = true -> Forall (fun w => all p w = true) ws ->
  all p (Str.join sep ws) = true.
Proof.
  intros Hsep H. induction H as [|w ws Hw Hws IH]; [reflexivity|].
  destruct ws as [|w' ws]; [exact Hw|].
  change (Str.join sep (w :: w' :: ws)) with (w ++ sep ++ Str.join sep (w' :: ws)).
  now rewrite !all_append, Hw, Hsep, IH.
Qed.

Lemma fields_all (p : ascii -> bool) (s : string) :
  all p s = true -> Forall (fun w => all p w = true) (fields s).
Proof.
  induction s as [|c s IH]; simpl; [repeat constructor|].
  intros H. apply andb_true_iff in H as [Hc Hs]. specialize (IH Hs).
  destruct (Char.is_space c); [now constructor|].
  destruct (fields s) as [|h t]; [repeat constructor; simpl; now rewrite Hc|].
  inversion IH; subst. constructor; [|assumption].
  simpl. now rewrite Hc.
Qed.

Lemma words_all (p : ascii -> bool) (s : string) :
  all p s = true ->
  Forall (fun w => all (fun c => p c && negb (Char.is_space c)) w = true) (words s).
Proof.
  intros Hs. unfold words.
  pose proof (fields_all p s Hs) as Hp. pose proof (fields_no_space s) as Hn.
  induction Hp as [|w ws Hw _ IH]; simpl; [constructor|].
  inversion Hn; subst.
  destruct (nonempty w); [|now apply IH].
  constructor; [|now apply IH].
  now rewrite all_and, Hw.
Qed.

Lemma replace_invalid_valid (s : string) :
  all (fun c => negb (invalid_char c)) (replace_invalid s) = true.
Proof.
  induction s as [|c s IH]; [reflexivity|].
  unfold replace_invalid in *. cbn [Str.map all]. rewrite IH, andb_true_r.
  destruct (invalid_char c) eqn:Hc; [reflexivity | now rewrite Hc].
Qed.

(** X23. What [sanitize_filename] returns, for every string: at most 200
    characters, none of them one of the characters it replaces, and no
    white space but the plain space. *)
Theorem sanitize_filename_is_short_and_clean (filename : string) :
  String.length (sanitize_filename filename) <= 200
  /\ all safe_char (sanitize_filename filename) = true.
Proof.
  unfold sanitize_filename. split; [apply length_take|].
  apply all_take. unfold collapse_whitespace.
  apply all_join; [reflexivity|].
  eapply Forall_impl; [|apply (words_all _ _ (replace_invalid_valid filename))].
  intros w Hw. revert Hw. apply all_impl.
  intros c Hc. unfold safe_char. apply andb_true_iff in Hc as [H1 H2].
  now rewrite H1, H2.
Qed.

(** *** The base name *)

Lemma ends_with_spec (suffix s : string) :
  ends_with suffix s = true <-> exists pre, s = pre ++ suffix.
Proof.
  split.
  - induction s as [|c s IH]; cbn [ends_with].
    + rewrite orb_false_r. intros H. apply String.eqb_eq in H. now exists "".
    + intros H. apply orb_true_iff in H as [H|H].
      * apply String.eqb_eq in H. now exists "".
      * destruct (IH H) as [pre ->]. now exists (String c pre).
  - intros [pre ->]. induction pre as [|c pre IH].
    + change ("" ++ suffix) with suffix.
      destruct suffix; cbn [ends_with]; now rewrite String.eqb_refl.
    + change (String c pre ++ suffix) with (String c (pre ++ suffix)).
      cbn [ends_with]. rewrite IH. apply orb_true_r.
Qed.

(** X24. Whatever the title and the URL, the base name that [download_pdf]
    starts from ends with ".pdf", in some mix of cases. *)
Theorem base_filename_ends_with_pdf (title url_filename : string) :
  ends_with ".pdf" (Str.lower (base_filename title url_filename)) = true.
Proof.
  unfold base_filename.
  destruct ((10 <? String.length title)%nat
            && negb (starts_with "http" (Str.lower title))).
  - destruct (ends_with ".pdf" (Str.lower (sanitize_filename title))) eqn:H;
      cbn [negb]; [exact H|].
    rewrite lower_append. apply ends_with_spec. now eexists.
  - destruct (ends_with ".pdf" url_filename) eqn:H; [|reflexivity].
    apply ends_with_spec in H as [pre ->].
    rewrite lower_append. apply ends_with_spec. now eexists.
Qed.

(** *** [os.path.splitext] *)

Lemma rsplit_dot_spec (s root ext : string) :
  rsplit_dot s = Some (root, ext) ->
  s = root ++ ext
  /\ exists rest, ext = String Extractor.dot rest
                  /\ Str.existsb (Ascii.eqb Extractor.dot) rest = false.
Proof.
  revert root ext. induction s as [|c s IH]; intros root ext; simpl; [discriminate|].
  destruct (rsplit_dot s) as [[r e]|] eqn:Hs.
  - intros [= <- <-]. destruct (IH r e eq_refl) as [-> Hrest].
    split; [reflexivity | exact Hrest].
  - destruct (Ascii.eqb_spec c Extractor.dot) as [->|Hc]; [|discriminate].
    intros [= <- <-]. split; [reflexivity|].
    exists s. split; [reflexivity|].
    clear IH. induction s as [|d s IH]; [reflexivity|].
    simpl in Hs. destruct (rsplit_dot s) as [[r e]|]; [discriminate|].
    cbn [Str.existsb]. rewrite Ascii.eqb_sym.
    destruct (Ascii.eqb d Extractor.dot); [discriminate|]. now apply IH.
Qed.

Lemma existsb_append (p : ascii -> bool) (u v : string) :
  Str.existsb p (u ++ v) = Str.existsb p u || Str.existsb p v.
Proof.
  induction u as [|c u IH]; [reflexivity|].
  change (String c u ++ v) with (String c (u ++ v)).
  cbn [Str.existsb]. now rewrite IH, orb_assoc.
Qed.

Lemma existsb_split (p : ascii -> bool) (s : string) :
  Str.existsb p s = true ->
  exists u c v, s = u ++ String c v /\ p c = true.
Proof.
  induction s as [|c s IH]; cbn [Str.existsb]; [discriminate|].
  destruct (p c) eqn:Hc.
  - intros _. now exists "", c, s.
  - intros H. destruct (IH H) as (u & d & v & -> & Hd).
    now exists (String c u), d, v.
Qed.

Lemma after_last_slash_fixed (s : string) :
  Str.existsb (Ascii.eqb slash) s = false -> after_last_slash s = s.
Proof. destruct s as [|c s]; [reflexivity|]. intros H. cbn [after_last_slash]. now rewrite H. Qed.

Lemma after_last_slash_append (pre t : string) :
  Str.existsb (Ascii.eqb slash) t = false ->
  after_last_slash (pre ++ t) = after_last_slash pre ++ t.
Proof.
  intros Ht. induction pre as [|a pre IH].
  - now apply after_last_slash_fixed.
  - change (String a pre ++ t) with (String a (pre ++ t)).
    cbn [after_last_slash Str.existsb].
    rewrite existsb_append, Ht, orb_false_r.
    destruct (Str.existsb (Ascii.eqb slash) pre) eqn:Hpre.
    + rewrite orb_true_r. exact IH.
    + rewrite orb_false_r. destruct (Ascii.eqb slash a); reflexivity.
Qed.

Lemma after_last_slash_spec (s : string) :
  exists pre, s = pre ++ after_last_slash s
              /\ Str.existsb (Ascii.eqb slash) (after_last_slash s) = false.
Proof.
  induction s as [|c s IH]; [now exists ""|].
  cbn [after_last_slash].
  destruct (Str.existsb (Ascii.eqb slash) (String c s)) eqn:Hcs.
  - destruct (Str.existsb (Ascii.eqb slash) s) eqn:Hs.
    + destruct IH as (pre & E & Hno). exists (String c pre). split; [|exact Hno].
      change (String c pre ++ after_last_slash s) with (String c (pre ++ after_last_slash s)).
      now rewrite <- E.
    + exists (String c ""). split; [reflexivity | exact Hs].
  - exists "". split; [reflexivity | exact Hcs].
Qed.

Lemma has_stem_spec (name : string) :
  Str.existsb (fun c => negb (Ascii.eqb c Extractor.dot)) (after_last_slash name) = true
  <-> has_stem name.
Proof.
  split.
  - intros H. destruct (after_last_slash_spec name) as (pre & E & Hno).
    destruct (existsb_split _ _ H) as (u & c & v & Ea & Hc).
    rewrite Ea in Hno. rewrite existsb_append in Hno.
    apply orb_false_iff in Hno as [_ Hno]. cbn [Str.existsb] in Hno.
    apply orb_false_iff in Hno as [Hslash Hv].
    exists (pre ++ u), c, v. rewrite append_assoc, <- Ea. split; [exact E|].
    split; [|split; [|exact Hv]].
    + intros ->. rewrite Ascii.eqb_refl in Hc. discriminate.
    + intros ->. rewrite Ascii.eqb_refl in Hslash. discriminate.
  - intros (pre & c & post & -> & Hdot & Hslash & Hpost).
    rewrite after_last_slash_append.
    + rewrite existsb_append. cbn [Str.existsb].
      destruct (Ascii.eqb_spec c Extractor.dot) as [->|_]; [contradiction|].
      cbn [negb orb]. apply orb_true_r.
    + cbn [Str.existsb]. rewrite Hpost, orb_false_r.
      destruct (Ascii.eqb_spec slash c) as [<-|_]; [contradiction | reflexivity].
Qed.

Lemma rsplit_dot_none (s : string) :
  Str.existsb (Ascii.eqb Extractor.dot) s = false -> rsplit_dot s = None.
Proof.
  induction s as [|c s IH]; [reflexivity|].
  cbn [Str.existsb rsplit_dot]. intros H. apply orb_false_iff in H as [Hc Hs].
  rewrite (IH Hs). rewrite Ascii.eqb_sym in Hc. now rewrite Hc.
Qed.

Lemma rsplit_dot_complete (root rest : string) :
  Str.existsb (Ascii.eqb Extractor.dot) rest = false ->
  rsplit_dot (root ++ String Extractor.dot rest)
  = Some (root, String Extractor.dot rest).
Proof.
  intros Hrest. induction root as [|c root IH].
  - change ("" ++ String Extractor.dot rest) with (String Extractor.dot rest).
    cbn [rsplit_dot]. rewrite (rsplit_dot_none rest Hrest).
    now rewrite Ascii.eqb_refl.
  - change (String c root ++ String Extractor.dot rest)
      with (String c (root ++ String Extractor.dot rest)).
    cbn [rsplit_dot]. now rewrite IH.
Qed.

(** [splitext] cuts a path at its extension and loses nothing: the
    extension is the one the path has, and it is empty when the path has
    none *)
Lemma splitext_cuts_at_the_extension (p : string) :
  exists name ext,
    splitext p = (name, ext)
    /\ p = name ++ ext
    /\ (extension_of name ext
        \/ (ext = ""
            /\ forall name' ext', p = name' ++ ext' -> ~ extension_of name' ext')).
Proof.
  unfold splitext.
  destruct (rsplit_dot p) as [[root ext]|] eqn:Hp.
  - destruct (rsplit_dot_spec _ _ _ Hp) as [-> (rest & -> & Hrest)].
    destruct (negb (Str.existsb (Ascii.eqb slash) (String Extractor.dot rest))
              && Str.existsb (fun c => negb (Ascii.eqb c Extractor.dot))
                             (after_last_slash root)) eqn:Hc.
    + apply andb_true_iff in Hc as [Hs Hstem].
      eexists _, _. split; [reflexivity|]. split; [reflexivity|]. left.
      exists rest. split; [reflexivity|]. split; [exact Hrest|]. split.
      * apply negb_true_iff in Hs. cbn [Str.existsb] in Hs.
        now apply orb_false_iff in Hs as [_ Hs].
      * now apply has_stem_spec.
    + eexists _, _. split; [reflexivity|]. split; [now rewrite append_nil_r|].
      right. split; [reflexivity|].
      intros name' ext' E (rest' & -> & Hrest' & Hslash' & Hstem').
      pose proof (rsplit_dot_complete name' rest' Hrest') as Hp'.
      rewrite <- E, Hp in Hp'. injection Hp' as -> ->.
      apply has_stem_spec in Hstem'. rewrite Hstem', andb_true_r in Hc.
      apply negb_false_iff in Hc. cbn [Str.existsb] in Hc.
      rewrite Hslash', orb_false_r in Hc. discriminate Hc.
  - eexists _, _. split; [reflexivity|]. split; [now rewrite append_nil_r|].
    right. split; [reflexivity|].
    intros name' ext' E (rest' & -> & Hrest' & _).
    pose proof (rsplit_dot_complete name' rest' Hrest') as Hp'.
    rewrite <- E, Hp in Hp'. discriminate Hp'.
Qed.

Lemma extension_unique (base n1 e1 n2 e2 : string) :
  base = n1 ++ e1 -> extension_of n1 e1 ->
  base = n2 ++ e2 -> extension_of n2 e2 ->
  n1 = n2 /\ e1 = e2.
Proof.
  intros E1 (r1 & -> & H1 & _) E2 (r2 & -> & H2 & _).
  pose proof (rsplit_dot_complete n1 r1 H1) as P1.
  pose proof (rsplit_dot_complete n2 r2 H2) as P2.
  rewrite <- E1 in P1. rewrite <- E2, P1 in P2. injection P2 as -> ->.
  now split.
Qed.

(** *** The numbered names *)

Lemma parse_str_of_nat (n : nat) : parse_nat (str_of_nat n) = Some n.
Proof.
  unfold parse_nat, str_of_nat.
  destruct (Nat.to_uint n) eqn:Hn.
  1: { assert (n = 0) as ->
         by (rewrite <- (Unsigned.of_to n), Hn; reflexivity).
       reflexivity. }
  all: rewrite <- Hn.
  all: rewrite NilZero.usu by (rewrite Hn; discriminate).
  all: cbn [option_map]; now rewrite Unsigned.of_to.
Qed.

Lemma str_of_nat_inj (a b : nat) : str_of_nat a = str_of_nat b -> a = b.
Proof.
  intros H. pose proof (parse_str_of_nat a) as Ha.
  rewrite H, parse_str_of_nat in Ha. congruence.
Qed.

Lemma numbered_inj (base : string) (a b : nat) :
  numbered base a = numbered base b -> a = b.
Proof.
  unfold numbered. destruct (splitext base) as [name ext]. intros H.
  apply append_inj_l in H. apply (append_inj_l "_") in H.
  apply append_inj_r in H. now apply str_of_nat_inj.
Qed.

(** X25. A numbered name is the base name with an underscore and the
    counter in decimal put in before the base name's own extension: a dot
    and a text with no further dot and no slash, behind a name whose last
    path component has a character other than a dot. The base name can
    be cut in at most one way like that; when it cannot, the extension is
    empty and the counter goes to the end. Two counters never give the
    same name. *)
Theorem numbered_names_keep_the_base_and_differ (base : string) :
  (exists name ext,
     base = name ++ ext
     /\ (ext = "" \/ extension_of name ext)
     /\ (forall name' ext',
           base = name' ++ ext' -> extension_of name' ext' ->
           name' = name /\ ext' = ext)
     /\ forall counter,
          numbered base counter = name ++ "_" ++ str_of_nat counter ++ ext)
  /\ (forall a b, numbered base a = numbered base b -> a = b).
Proof.
  split; [|intros a b; apply numbered_inj].
  destruct (splitext_cuts_at_the_extension base) as (name & ext & Hs & Hbase & Hext).
  exists name, ext. split; [exact Hbase|]. split; [|split].
  - destruct Hext as [Hext|[-> _]]; [now right | now left].
  - intros name' ext' E' Hext'. destruct Hext as [Hext|[_ Hnone]].
    + exact (extension_unique base name' ext' name ext E' Hext' Hbase Hext).
    + destruct (Hnone name' ext' E' Hext').
  - intros counter. unfold numbered. now rewrite Hs.
Qed.

(** *** The loop *)

Lemma taken_in_spec (taken : list string) (f : string) :
  taken_in taken f = true <-> In f taken.
Proof.
  unfold taken_in. rewrite existsb_exists. split.
  - intros (x & Hx & He). apply String.eqb_eq in He. now subst.
  - intros H. exists f. split; [assumption | apply String.eqb_refl].
Qed.

Lemma some_numbered_name_is_free (taken : list string) (base : string) :
  exists j, 1 <= j <= S (List.length taken)
            /\ taken_in taken (numbered base j) = false.
Proof.
  set (n := List.length taken).
  destruct (forallb (fun j => taken_in taken (numbered base j)) (seq 1 (S n)))
    eqn:Hall.
  - exfalso. rewrite forallb_forall in Hall.
    assert (Hlen : List.length (List.map (numbered base) (seq 1 (S n))) <= n).
    { apply NoDup_incl_length.
      - apply Injective_map_NoDup; [|apply seq_NoDup].
        intros a b. apply numbered_inj.
      - intros f Hf. apply in_map_iff in Hf as (j & <- & Hj).
        apply taken_in_spec. now apply Hall. }
    rewrite length_map, length_seq in Hlen. lia.
  - assert (H : exists j, In j (seq 1 (S n))
                          /\ taken_in taken (numbered base j) = false).
    { clear -Hall. induction (seq 1 (S n)) as [|j l IH]; [discriminate|].
      simpl in Hall. apply andb_false_iff in Hall as [H|H].
      - exists j. split; [now left | assumption].
      - destruct (IH H) as (k & Hk & Hf). exists k. split; [now right | assumption]. }
    destruct H as (j & Hj & Hf). apply in_seq in Hj. exists j. split; [lia | assumption].
Qed.

Lemma first_where_false (p : nat -> bool) (m a : nat) :
  (exists j, a <= j < a + m /\ p j = false) ->
  exists k, a <= k < a + m /\ p k = false /\ forall j, a <= j < k -> p j = true.
Proof.
  revert a. induction m as [|m IH]; intros a (j & Hj & Hp); [lia|].
  destruct (p a) eqn:Ha.
  - destruct (IH (S a)) as (k & Hk & Hpk & Hbefore).
    { exists j. split; [|assumption].
      assert (j <> a) by (intros ->; congruence). lia. }
    exists k. split; [lia|]. split; [assumption|].
    intros i Hi. destruct (Nat.eq_dec i a) as [->|Hne]; [assumption|].
    apply Hbefore. lia.
  - exists a. split; [lia|]. split; [assumption|]. intros i Hi. lia.
Qed.

Lemma next_free_found (taken : list string) (base : string) (k : nat) :
  taken_in taken (numbered base k) = false ->
  forall turns counter f0,
    taken_in taken f0 = true ->
    (forall j, counter <= j < k -> taken_in taken (numbered base j) = true) ->
    counter <= k -> k - counter < turns ->
    next_free turns counter taken base f0 = Some (numbered base k).
Proof.
  intros Hk. induction turns as [|turns IH]; intros counter f0 Hf0 Hbefore Hle Hlt;
    [lia|].
  cbn [next_free]. rewrite Hf0.
  destruct (Nat.eq_dec counter k) as [->|Hne].
  - destruct turns; cbn [next_free]; now rewrite Hk.
  - apply IH; [apply Hbefore; lia | intros j Hj; apply Hbefore; lia | lia | lia].
Qed.

(** X26. The loop of [download_pdf] that makes the name unique ends, for
    every set of names taken and every base name, and its result does not
    depend on the bound on the turns once that exceeds the number of names
    taken. The name it gives is not taken. It is the base name when that
    is free; otherwise the base name was taken and it is the numbered name
    with the least counter, from 1 on, that is free. *)
Theorem unique_filename_is_the_first_free_name
    (downloaded_files : list string) (base : string) :
  exists filename,
    unique_filename downloaded_files base = Some filename
    /\ (forall turns, List.length downloaded_files < turns ->
          next_free turns 1 downloaded_files base base = Some filename)
    /\ taken_in downloaded_files filename = false
    /\ ((taken_in downloaded_files base = false /\ filename = base)
        \/ (taken_in downloaded_files base = true
            /\ exists counter,
                 1 <= counter <= S (List.length downloaded_files)
                 /\ filename = numbered base counter
                 /\ forall j, 1 <= j < counter ->
                      taken_in downloaded_files (numbered base j) = true)).
Proof.
  destruct (taken_in downloaded_files base) eqn:Hbase.
  - destruct (some_numbered_name_is_free downloaded_files base) as (j & Hj & Hfree).
    destruct (first_where_false
                (fun j => taken_in downloaded_files (numbered base j))
                (S (List.length downloaded_files)) 1) as (k & Hk & Hpk & Hbefore).
    { exists j. split; [lia | assumption]. }
    exists (numbered base k).
    assert (Hrun : forall turns, List.length downloaded_files < turns ->
              next_free turns 1 downloaded_files base base = Some (numbered base k)).
    { intros turns Hturns. apply next_free_found; try assumption; lia. }
    split; [apply Hrun; lia|]. split; [exact Hrun|]. split; [exact Hpk|].
    right. split; [reflexivity|]. exists k. split; [lia|]. split; [reflexivity|].
    exact Hbefore.
  - exists base.
    assert (Hrun : forall turns,
              next_free turns 1 downloaded_files base base = Some base).
    { intros turns. destruct turns; cbn [next_free]; now rewrite Hbase. }
    split; [apply Hrun|]. split; [intros; apply Hrun|]. split; [exact Hbase|].
    now left.
Qed.

(** *** One download for each URL *)

Lemma store_key_order (d : Py.dict) (k : string) (v : value) :
  List.map fst (Py.store d k v)
  = if List.existsb (String.eqb k) (List.map fst d)
    then List.map fst d
    else (List.map fst d ++ [k])%list.
Proof.
  induction d as [|[k0 v0] d IH]; [reflexivity|].
  cbn [Py.store List.map fst List.existsb].
  rewrite (String.eqb_sym k k0).
  destruct (String.eqb_spec k0 k) as [->|Hne]; [reflexivity|].
  cbn [List.map fst orb]. rewrite IH.
  destruct (List.existsb (String.eqb k) (List.map fst d)); reflexivity.
Qed.

Lemma unique_pdfs_snoc (links : list pdf_info) (pdf : pdf_info) :
  unique_pdfs (links ++ [pdf])
  = Py.store (unique_pdfs links) (url pdf) (pdf_value pdf).
Proof. unfold unique_pdfs. now rewrite fold_left_app. Qed.

Lemma later_links_keep_the_entry (k : string) (post : list pdf_info) :
  (forall q, In q post -> url q <> k) ->
  forall d,
    Py.lookup (List.fold_left (fun d pdf => Py.store d (url pdf) (pdf_value pdf))
                              post d) k
    = Py.lookup d k.
Proof.
  induction post as [|q post IH]; intros Hpost d; [reflexivity|].
  cbn [List.fold_left]. rewrite IH by (intros q' Hq'; apply Hpost; now right).
  apply lookup_store_other. apply Hpost. now left.
Qed.

Lemma unique_pdfs_keys (links : list pdf_info) :
  Rows.keys_unique (unique_pdfs links)
  /\ forall u, In u (List.map fst (unique_pdfs links)) <-> In u (List.map url links).
Proof.
  induction links as [|pdf links IH] using rev_ind.
  - split; [constructor | reflexivity].
  - destruct IH as [Hnd Hkeys]. rewrite unique_pdfs_snoc. split.
    + now apply BatchFacts.store_keys_unique.
    + intros u. rewrite BatchFacts.store_keys, Hkeys, map_app, in_app_iff.
      simpl. intuition.
Qed.

(** X27. [run] keeps one link for each URL: the URLs of [unique_pdfs]
    are those of the links found, each once, in the order in which they
    were first met; and for a URL that was found several times it is the
    last of its links, with that link's title, that is downloaded. *)
Theorem one_download_for_each_url (links : list pdf_info) :
  NoDup (List.map fst (unique_pdfs links))
  /\ (forall u, In u (List.map fst (unique_pdfs links)) <-> In u (List.map url links))
  /\ List.length (unique_links links) <= List.length links
  /\ (forall pdf,
        List.map fst (unique_pdfs (links ++ [pdf]))
        = if List.existsb (String.eqb (url pdf)) (List.map url links)
          then List.map fst (unique_pdfs links)
          else (List.map fst (unique_pdfs links) ++ [url pdf])%list)
  /\ (forall before pdf after,
        links = (before ++ pdf :: after)%list ->
        (forall q, In q after -> url q <> url pdf) ->
        Py.lookup (unique_pdfs links) (url pdf) = Some (pdf_value pdf)).
Proof.
  destruct (unique_pdfs_keys links) as [Hnd Hkeys].
  split; [exact Hnd|]. split; [exact Hkeys|]. split; [|split].
  - unfold unique_links. rewrite length_map, <- (length_map fst).
    rewrite <- (length_map url links).
    apply NoDup_incl_length; [exact Hnd|]. intros u Hu. now apply Hkeys.
  - intros pdf. rewrite unique_pdfs_snoc, store_key_order.
    assert (E : List.existsb (String.eqb (url pdf)) (List.map fst (unique_pdfs links))
                = List.existsb (String.eqb (url pdf)) (List.map url links)).
    { apply eq_true_iff_eq. rewrite !existsb_exists. split.
      - intros (x & Hx & He). exists x. split; [now apply Hkeys | exact He].
      - intros (x & Hx & He). exists x. split; [now apply Hkeys | exact He]. }
    now rewrite E.
  - intros before pdf after -> Hafter. unfold unique_pdfs.
    rewrite fold_left_app. cbn [List.fold_left].
    rewrite (later_links_keep_the_entry (url pdf) after Hafter).
    apply lookup_store_same.
Qed.

End DownloaderFacts.
